(** * Universal Creative ID: verification scoring and cross-platform sync

    A shallow embedding of the two TypeScript sketches of the repository
    that carry behaviour:

    - [CreativeIdentity] follows [src/lib/identity/CreativeIdentity.ts]
      (identity creation, verification-method addition, the weighted
      verification level);
    - [ProfileSync] follows the "Cross-Platform Sync Architecture" document
      ([CrossPlatformSyncEngine], [ConflictResolver] and the resolution
      strategy classes).

    Conventions of the embedding.

    - A JavaScript [number] is an IEEE 754 double.  [CreativeIdentity64],
      [CreativeIdentityRuntime], the content credentials and the TikTok
      helpers compute on doubles ([Binary64]), with their rounding, their
      infinities and [NaN]: the statements about the value of a level, the
      confidence gate, a score and an average are made there.
      [CreativeIdentity] is the same class over exact rationals ([Q]); it
      holds the statements about the platforms, the stored methods and the
      calls that are made, and bounds that rounding does not break.  Where
      the code only ever stores whole numbers (follower counts,
      timestamps) a number is an integer ([Z]).
    - A [Date] is its epoch time in milliseconds.
    - An [async] function is a function into [Async.promise], whose
      rejection carries any value, [null] and [undefined] included,
      wherever a statement depends on what a [catch] block reads of it.
      Elsewhere it is a function into [result], whose failure carries a
      message, and a [try]/[catch] that rethrows with a prefixed message
      is [rethrow].
    - Methods of collaborators that are not part of the repository (the
      biometric verifier, the Story Protocol client, the platform adapters,
      the database) are Section variables. *)

From Stdlib Require Import ZArith QArith Qround List Ascii String Lia SpecFloat Zpower.
From stdpp Require Import base option gmap strings list.

(** ** Promise results *)

Inductive result (A : Type) : Type :=
  | Ok (a : A)
  | Throw (message : string).
Arguments Ok {A} a.
Arguments Throw {A} message.

#[global] Instance result_ret : MRet result := @Ok.
#[global] Instance result_bind : MBind result :=
  λ A B f r, match r with Ok a => f a | Throw message => Throw message end.

(** [try { body } catch (error) { throw new Error(prefix + error.message) }] *)
Definition rethrow {A} (prefix : string) (body : result A) : result A :=
  match body with
  | Ok a => Ok a
  | Throw message => Throw (prefix +:+ message)
  end.

Definition succeeded {A} (r : result A) : bool :=
  match r with Ok _ => true | Throw _ => false end.

(** [x < y] on numbers. *)
Definition Qltb (x y : Q) : bool := negb (Qle_bool y x).

(** ** Promises and what they reject with

    A rejection carries any value.  The [catch] blocks of the repository
    read [error.message]: of an [Error] (or any object with that property)
    it is the message; of another value that is not [null] or [undefined]
    it is [undefined]; reading it of [null] or [undefined] throws a
    [TypeError], whose message (here as V8 words it) does not matter
    below. *)

Module Async.

Inductive reason :=
  | ErrorObject (message : string)
  | Messageless
  | Null
  | Undefined.

Inductive promise (A : Type) : Type :=
  | Resolved (a : A)
  | Rejected (r : reason).
Arguments Resolved {A} a.
Arguments Rejected {A} r.

#[global] Instance promise_ret : MRet promise := @Resolved.
#[global] Instance promise_bind : MBind promise :=
  λ A B f p, match p with Resolved a => f a | Rejected r => Rejected r end.

Definition resolved {A} (p : promise A) : bool :=
  match p with Resolved _ => true | Rejected _ => false end.

(** [error.message] *)
Definition messageOf (error : reason) : promise (option string) :=
  match error with
  | ErrorObject message => Resolved (Some message)
  | Messageless => Resolved None
  | Null =>
      Rejected (ErrorObject "Cannot read properties of null (reading 'message')")
  | Undefined =>
      Rejected (ErrorObject "Cannot read properties of undefined (reading 'message')")
  end.

(** [`${message}`] of a property that may be [undefined]. *)
Definition interpolated (message : option string) : string :=
  default "undefined" message.

(** [try { body } catch (error) { throw new Error(`prefix${error.message}`) }] *)
Definition rethrow {A} (prefix : string) (body : promise A) : promise A :=
  match body with
  | Resolved a => Resolved a
  | Rejected error =>
      message ← messageOf error;
      Rejected (ErrorObject (prefix +:+ interpolated message))
  end.

(** [Promise.all]: the values in order when every promise resolves, and
    otherwise the reason of the promise that rejects first; the leftmost
    one stands for it. *)
Fixpoint all {A} (promises : list (promise A)) : promise (list A) :=
  match promises with
  | [] => Resolved []
  | p :: rest =>
      match p with
      | Resolved a =>
          match all rest with
          | Resolved values => Resolved (a :: values)
          | Rejected r => Rejected r
          end
      | Rejected r => Rejected r
      end
  end.

(** An operation modelled with [result] as a promise: it rejects with an
    [Error] that carries the message. *)
Definition ofResult {A} (r : result A) : promise A :=
  match r with
  | Ok a => Resolved a
  | Throw message => Rejected (ErrorObject message)
  end.

End Async.

(** * JavaScript numbers

    A [number] is an IEEE 754 double: a [spec_float] of the standard
    library at precision 53 with the exponent bound 1024, whose operations
    round to nearest, ties to even. *)

Module Binary64.

Definition ofZ (z : Z) : spec_float := binary_normalize 53 1024 z 0 false.

(** The decimal literal [n/d], rounded to the nearest double. *)
Definition ofDecimal (n d : Z) : spec_float := SFdiv 53 1024 (ofZ n) (ofZ d).

Definition add : spec_float -> spec_float -> spec_float := SFadd 53 1024.
Definition mul : spec_float -> spec_float -> spec_float := SFmul 53 1024.
Definition div : spec_float -> spec_float -> spec_float := SFdiv 53 1024.

#[global] Arguments ofZ : simpl never.
#[global] Arguments ofDecimal : simpl never.
#[global] Arguments add : simpl never.
#[global] Arguments mul : simpl never.
#[global] Arguments div : simpl never.

(** [x < y], [x > y], [x >= y] and [x >= 0]; each is false when an
    operand is [NaN]. *)
Definition ltb (x y : spec_float) : bool := SFltb x y.
Definition gtb (x y : spec_float) : bool := SFltb y x.
Definition atLeast (x y : spec_float) : bool := SFleb y x.
Definition notNegative (x : spec_float) : bool := SFleb (S754_zero false) x.

(** The numbers without a fractional part, as [Math.floor] returns them.
    The two zeros are one [Integer 0]: no operation below tells them
    apart. *)
Inductive integral := NaN | Infinity (negative : bool) | Integer (z : Z).

(** [Math.floor(x)] *)
Definition floor (x : spec_float) : integral :=
  match x with
  | S754_nan => NaN
  | S754_infinity negative => Infinity negative
  | S754_zero _ => Integer 0
  | S754_finite negative m e =>
      let signed := if negative then Z.neg m else Z.pos m in
      Integer (if (0 <=? e)%Z then signed * 2 ^ e else signed / 2 ^ (- e))%Z
  end.

(** [Math.min(100, x)] *)
Definition min100 (x : integral) : integral :=
  match x with
  | NaN => NaN
  | Infinity true => Infinity true
  | Infinity false => Integer 100
  | Integer z => Integer (Z.min 100 z)
  end.

(** [x += 10].  The sum of two integers is exact below 2^53, far above
    any level the code can reach. *)
Definition plus10 (x : integral) : integral :=
  match x with
  | Integer z => Integer (z + 10)
  | _ => x
  end.

(** [x <= y] and [x >= y] *)
Definition leb (x y : integral) : bool :=
  match x, y with
  | NaN, _ | _, NaN => false
  | Infinity true, _ | _, Infinity false => true
  | Infinity false, _ | _, Infinity true => false
  | Integer a, Integer b => (a <=? b)%Z
  end.

Definition geb (x y : integral) : bool := leb y x.

(** [x - y >= 10]: the difference of two infinities of one sign is [NaN]. *)
Definition exceedsBy10 (x y : integral) : bool :=
  match x, y with
  | Integer a, Integer b => (10 <=? a - b)%Z
  | Infinity false, Integer _ | Infinity false, Infinity true
  | Integer _, Infinity true => true
  | _, _ => false
  end.

End Binary64.

(** * CreativeIdentity.ts *)

Module CreativeIdentity.

Inductive VerificationType :=
  | biometric | government_id | social_proof | platform_verification
  | community_vouching.

Inductive VerificationStatus := verified | pending | failed | expired.

Inductive IdentityStatus :=
  | identity_pending | identity_verified | identity_suspended | identity_revoked.

(** [interface VerificationMethod]; [metadata] is a string-keyed record. *)
Record VerificationMethod := {
  type : VerificationType;
  status : VerificationStatus;
  verifiedAt : Z;
  expiresAt : option Z;
  confidence : Q;
  metadata : list (string * string)
}.

(** [interface BiometricData] ([type] and [confidence] carry a prefix, the
    names being taken by [VerificationMethod]). *)
Record BiometricData := {
  biometric_type : string;
  encodedData : string;
  biometric_confidence : Q;
  capturedAt : Z;
  deviceInfo : string
}.

Record PlatformConnectionRequest := {
  platformId : string;
  authorizationCode : string;
  redirectUri : string
}.

Record PrivacySettings := {
  publicProfile : bool;
  shareMetrics : bool;
  allowDiscovery : bool;
  dataRetention : Z;
  crossPlatformSync : bool;
  biometricDataSharing : bool
}.

Record CreateIdentityRequest := {
  biometricData : BiometricData;
  request_walletAddress : string;
  initialPlatforms : option (list PlatformConnectionRequest);
  privacySettings : PrivacySettings
}.

(** The fields of [interface PlatformConnection] that identify a connection;
    tokens and metric snapshots play no part below. *)
Record PlatformConnection := {
  connection_platformId : string;
  username : string;
  userId : string;
  connectedAt : Z;
  lastSyncAt : Z
}.

Record ContentCredential := {
  credential_id : string;
  contentHash : string
}.

Record UniversalCreativeID := {
  id : string;
  version : Z;
  createdAt : Z;
  updatedAt : Z;
  identity_status : IdentityStatus;
  biometricHash : string;
  walletAddress : string;
  publicKey : string;
  verificationLevel : Z;
  verificationMethods : list VerificationMethod;
  connectedPlatforms : gmap string PlatformConnection;
  contentCredentials : list ContentCredential;
  authenticityScore : Z
}.

Record CreateIdentityResponse := {
  identity : UniversalCreativeID;
  transactionHash : string;
  contractAddress : string;
  qrCode : string;
  backupCodes : list string
}.

(** What [verifyBiometric], [registerCreator] and [deployIdentityContract]
    hand back, as far as the code reads it. *)
Record BiometricVerification := { verification_confidence : Q }.
Record StoryRegistration := { registration_id : string }.
Record ContractDeployment := {
  deployment_contractAddress : string;
  deployment_transactionHash : string
}.

(** The [weights] table of [calculateVerificationLevel]. *)
Definition weights (t : VerificationType) : Q :=
  match t with
  | biometric => 20
  | government_id => 30
  | social_proof => 15
  | platform_verification => 25
  | community_vouching => 10
  end.

(** The body of the [for (const method of methods)] loop. *)
Definition addContribution (score : Q) (method : VerificationMethod) : Q :=
  match status method with
  | verified => score + weights (type method) * confidence method
  | _ => score
  end.

(** [private calculateVerificationLevel(methods)]:
    [Math.min(100, Math.floor(score))]. *)
Definition calculateVerificationLevel (methods : list VerificationMethod) : Z :=
  let score := fold_left addContribution methods 0%Q in
  Z.min 100 (Qfloor score).

(** Field updates of the identity object. *)
Definition set_verificationLevel (level : Z) (i : UniversalCreativeID) :=
  {| id := id i; version := version i; createdAt := createdAt i;
     updatedAt := updatedAt i; identity_status := identity_status i;
     biometricHash := biometricHash i; walletAddress := walletAddress i;
     publicKey := publicKey i; verificationLevel := level;
     verificationMethods := verificationMethods i;
     connectedPlatforms := connectedPlatforms i;
     contentCredentials := contentCredentials i;
     authenticityScore := authenticityScore i |}.

Definition set_verificationMethods (methods : list VerificationMethod)
    (i : UniversalCreativeID) :=
  {| id := id i; version := version i; createdAt := createdAt i;
     updatedAt := updatedAt i; identity_status := identity_status i;
     biometricHash := biometricHash i; walletAddress := walletAddress i;
     publicKey := publicKey i; verificationLevel := verificationLevel i;
     verificationMethods := methods;
     connectedPlatforms := connectedPlatforms i;
     contentCredentials := contentCredentials i;
     authenticityScore := authenticityScore i |}.

Definition set_connectedPlatforms (platforms : gmap string PlatformConnection)
    (i : UniversalCreativeID) :=
  {| id := id i; version := version i; createdAt := createdAt i;
     updatedAt := updatedAt i; identity_status := identity_status i;
     biometricHash := biometricHash i; walletAddress := walletAddress i;
     publicKey := publicKey i; verificationLevel := verificationLevel i;
     verificationMethods := verificationMethods i;
     connectedPlatforms := platforms;
     contentCredentials := contentCredentials i;
     authenticityScore := authenticityScore i |}.

Definition set_updatedAt (date : Z) (i : UniversalCreativeID) :=
  {| id := id i; version := version i; createdAt := createdAt i;
     updatedAt := date; identity_status := identity_status i;
     biometricHash := biometricHash i; walletAddress := walletAddress i;
     publicKey := publicKey i; verificationLevel := verificationLevel i;
     verificationMethods := verificationMethods i;
     connectedPlatforms := connectedPlatforms i;
     contentCredentials := contentCredentials i;
     authenticityScore := authenticityScore i |}.

Section Operations.

(** Collaborators.  [verifyBiometric] and [registerCreator] belong to
    classes outside the repository; the others are private methods whose
    body reaches a chain, a database, a clock, a hash, an encoding or a
    random source. *)
Variable verifyBiometric : BiometricData -> result BiometricVerification.
Variable registerCreator :
  string -> string -> string -> Z -> PrivacySettings -> result StoryRegistration.
Variable deployIdentityContract :
  string -> string -> string -> string -> result ContractDeployment.
Variable connectPlatform :
  string -> PlatformConnectionRequest -> result PlatformConnection.
Variable storeIdentity : UniversalCreativeID -> result unit.
Variable getIdentity : string -> result (option UniversalCreativeID).
Variable updateIdentityOnChain : string -> Z -> Z -> result unit.
Variable generateUniversalID : BiometricData -> string -> string.
Variable hashBiometricData : BiometricData -> string.
Variable generateBackupCodes : list string.
Variable generateQRCode : UniversalCreativeID -> string.
Variable signer_address : string.
Variable now : Z.

(** One turn of the loop of step 6: a connection that succeeds is stored
    under its platform id and raises the level by ten, one that throws is
    logged and skipped. *)
Definition connectInitialPlatform (identity : UniversalCreativeID)
    (platformReq : PlatformConnectionRequest) : UniversalCreativeID :=
  match connectPlatform (id identity) platformReq with
  | Ok connection =>
      set_verificationLevel (verificationLevel identity + 10)
        (set_connectedPlatforms
           (<[platformId platformReq := connection]> (connectedPlatforms identity))
           identity)
  | Throw _ => identity
  end.

Definition createIdentity (request : CreateIdentityRequest)
    : result CreateIdentityResponse :=
  rethrow "Failed to create identity: " (
    biometricVerification ← verifyBiometric (biometricData request);
    if Qltb (verification_confidence biometricVerification) 0.95 then
      Throw "Biometric verification failed - insufficient confidence"
    else
      let identityId :=
        generateUniversalID (biometricData request) (request_walletAddress request) in
      storyRegistration ←
        registerCreator identityId (request_walletAddress request)
          (hashBiometricData (biometricData request)) now (privacySettings request);
      contractDeployment ←
        deployIdentityContract identityId (request_walletAddress request)
          (hashBiometricData (biometricData request))
          (registration_id storyRegistration);
      let identity :=
        {| id := identityId;
           version := 1;
           createdAt := now;
           updatedAt := now;
           identity_status := identity_pending;
           biometricHash := hashBiometricData (biometricData request);
           walletAddress := request_walletAddress request;
           publicKey := signer_address;
           verificationLevel := 10;
           verificationMethods :=
             [ {| type := biometric;
                  status := verified;
                  verifiedAt := now;
                  expiresAt := None;
                  confidence := verification_confidence biometricVerification;
                  metadata :=
                    [("method", biometric_type (biometricData request));
                     ("deviceInfo", deviceInfo (biometricData request))] |} ];
           connectedPlatforms := ∅;
           contentCredentials := [];
           authenticityScore := 10 |} in
      let identity :=
        match initialPlatforms request with
        | Some platforms => fold_left connectInitialPlatform platforms identity
        | None => identity
        end in
      let backupCodes := generateBackupCodes in
      let qrCode := generateQRCode identity in
      _ ← storeIdentity identity;
      Ok {| identity := identity;
            transactionHash := deployment_transactionHash contractDeployment;
            contractAddress := deployment_contractAddress contractDeployment;
            qrCode := qrCode;
            backupCodes := backupCodes |}).

(** [updateVerificationLevel] resolves to [newLevel]; the identity object
    it has mutated and handed to [storeIdentity] is returned with it. *)
Definition updateVerificationLevel (identityId : string)
    (newVerification : VerificationMethod) : result (Z * UniversalCreativeID) :=
  rethrow "Failed to update verification: " (
    found ← getIdentity identityId;
    match found with
    | None => Throw "Identity not found"
    | Some identity =>
        let identity :=
          set_verificationMethods
            (verificationMethods identity ++ [newVerification]) identity in
        let newLevel := calculateVerificationLevel (verificationMethods identity) in
        let identity := set_updatedAt now (set_verificationLevel newLevel identity) in
        _ ← (if (10 <=? newLevel - verificationLevel identity)%Z
             then updateIdentityOnChain identityId newLevel now
             else Ok tt);
        _ ← storeIdentity identity;
        Ok (newLevel, identity)
    end).

End Operations.

(** The private methods as the source has them: connecting a platform is
    not implemented and always throws, the store only logs, the lookup
    finds nothing. *)
Definition connectPlatform_source (identityId : string)
    (platformReq : PlatformConnectionRequest) : result PlatformConnection :=
  Throw "Platform connection not implemented yet".

Definition storeIdentity_source (identity : UniversalCreativeID) : result unit :=
  Ok tt.

Definition getIdentity_source (identityId : string)
    : result (option UniversalCreativeID) :=
  Ok None.

Definition updateIdentityOnChain_source (identityId : string) (level date : Z)
    : result unit :=
  Ok tt.

End CreativeIdentity.

(** * CreativeIdentity.ts with the numbers and the rejections of JavaScript

    The same class once more, for the statements that depend on what a
    number is or on what a rejection carries: a confidence and a score are
    doubles, a level is what [Math.floor] returns, and every awaited call
    may reject with any value.  The records that hold no number read by
    the code are those of [CreativeIdentity]. *)

Module CreativeIdentity64.

Import Async.

Record VerificationMethod := {
  type : CreativeIdentity.VerificationType;
  status : CreativeIdentity.VerificationStatus;
  verifiedAt : Z;
  expiresAt : option Z;
  confidence : spec_float;
  metadata : list (string * string)
}.

Record UniversalCreativeID := {
  id : string;
  version : Z;
  createdAt : Z;
  updatedAt : Z;
  identity_status : CreativeIdentity.IdentityStatus;
  biometricHash : string;
  walletAddress : string;
  publicKey : string;
  verificationLevel : Binary64.integral;
  verificationMethods : list VerificationMethod;
  connectedPlatforms : gmap string CreativeIdentity.PlatformConnection;
  contentCredentials : list CreativeIdentity.ContentCredential;
  authenticityScore : Z
}.

Record CreateIdentityResponse := {
  identity : UniversalCreativeID;
  transactionHash : string;
  contractAddress : string;
  qrCode : string;
  backupCodes : list string
}.

(** What [verifyBiometric] resolves to, as far as the code reads it. *)
Record BiometricVerification := { verification_confidence : spec_float }.

(** The [weights] table of [calculateVerificationLevel]. *)
Definition weights (t : CreativeIdentity.VerificationType) : spec_float :=
  match t with
  | CreativeIdentity.biometric => Binary64.ofZ 20
  | CreativeIdentity.government_id => Binary64.ofZ 30
  | CreativeIdentity.social_proof => Binary64.ofZ 15
  | CreativeIdentity.platform_verification => Binary64.ofZ 25
  | CreativeIdentity.community_vouching => Binary64.ofZ 10
  end.

(** The body of the [for (const method of methods)] loop. *)
Definition addContribution (score : spec_float) (method : VerificationMethod)
    : spec_float :=
  match status method with
  | CreativeIdentity.verified =>
      Binary64.add score (Binary64.mul (weights (type method)) (confidence method))
  | _ => score
  end.

(** [private calculateVerificationLevel(methods)]:
    [Math.min(100, Math.floor(score))]. *)
Definition calculateVerificationLevel (methods : list VerificationMethod)
    : Binary64.integral :=
  let score := fold_left addContribution methods (Binary64.ofZ 0) in
  Binary64.min100 (Binary64.floor score).

Section Operations.

Variable verifyBiometric : CreativeIdentity.BiometricData -> promise BiometricVerification.
Variable registerCreator :
  string -> string -> string -> Z -> CreativeIdentity.PrivacySettings
  -> promise CreativeIdentity.StoryRegistration.
Variable deployIdentityContract :
  string -> string -> string -> string -> promise CreativeIdentity.ContractDeployment.
Variable connectPlatform :
  string -> CreativeIdentity.PlatformConnectionRequest
  -> promise CreativeIdentity.PlatformConnection.
Variable storeIdentity : UniversalCreativeID -> promise unit.
Variable getIdentity : string -> promise (option UniversalCreativeID).
Variable updateIdentityOnChain : string -> Binary64.integral -> Z -> promise unit.
Variable generateUniversalID : CreativeIdentity.BiometricData -> string -> string.
Variable hashBiometricData : CreativeIdentity.BiometricData -> string.
Variable generateBackupCodes : list string.
Variable generateQRCode : UniversalCreativeID -> string.
Variable signer_address : string.
Variable now : Z.

(** One turn of the loop of step 6.  The [catch] of the loop logs the
    error as it is and reads nothing of it. *)
Definition connectInitialPlatform (identity : UniversalCreativeID)
    (platformReq : CreativeIdentity.PlatformConnectionRequest) : UniversalCreativeID :=
  match connectPlatform (id identity) platformReq with
  | Resolved connection =>
      {| id := id identity; version := version identity;
         createdAt := createdAt identity; updatedAt := updatedAt identity;
         identity_status := identity_status identity;
         biometricHash := biometricHash identity;
         walletAddress := walletAddress identity;
         publicKey := publicKey identity;
         verificationLevel := Binary64.plus10 (verificationLevel identity);
         verificationMethods := verificationMethods identity;
         connectedPlatforms :=
           <[CreativeIdentity.platformId platformReq := connection]>
             (connectedPlatforms identity);
         contentCredentials := contentCredentials identity;
         authenticityScore := authenticityScore identity |}
  | Rejected _ => identity
  end.

Definition createIdentity (request : CreativeIdentity.CreateIdentityRequest)
    : promise CreateIdentityResponse :=
  let biometricData := CreativeIdentity.biometricData request in
  let walletAddress := CreativeIdentity.request_walletAddress request in
  rethrow "Failed to create identity: " (
    biometricVerification ← verifyBiometric biometricData;
    if Binary64.ltb (verification_confidence biometricVerification)
         (Binary64.ofDecimal 95 100)
    then Rejected (ErrorObject "Biometric verification failed - insufficient confidence")
    else
      let identityId := generateUniversalID biometricData walletAddress in
      storyRegistration ←
        registerCreator identityId walletAddress (hashBiometricData biometricData)
          now (CreativeIdentity.privacySettings request);
      contractDeployment ←
        deployIdentityContract identityId walletAddress
          (hashBiometricData biometricData)
          (CreativeIdentity.registration_id storyRegistration);
      let identity :=
        {| id := identityId;
           version := 1;
           createdAt := now;
           updatedAt := now;
           identity_status := CreativeIdentity.identity_pending;
           biometricHash := hashBiometricData biometricData;
           walletAddress := walletAddress;
           publicKey := signer_address;
           verificationLevel := Binary64.Integer 10;
           verificationMethods :=
             [ {| type := CreativeIdentity.biometric;
                  status := CreativeIdentity.verified;
                  verifiedAt := now;
                  expiresAt := None;
                  confidence := verification_confidence biometricVerification;
                  metadata :=
                    [("method", CreativeIdentity.biometric_type biometricData);
                     ("deviceInfo", CreativeIdentity.deviceInfo biometricData)] |} ];
           connectedPlatforms := ∅;
           contentCredentials := [];
           authenticityScore := 10 |} in
      let identity :=
        match CreativeIdentity.initialPlatforms request with
        | Some platforms => fold_left connectInitialPlatform platforms identity
        | None => identity
        end in
      let backupCodes := generateBackupCodes in
      let qrCode := generateQRCode identity in
      _ ← storeIdentity identity;
      Resolved
        {| identity := identity;
           transactionHash :=
             CreativeIdentity.deployment_transactionHash contractDeployment;
           contractAddress :=
             CreativeIdentity.deployment_contractAddress contractDeployment;
           qrCode := qrCode;
           backupCodes := backupCodes |}).

(** The identity object after [push], the assignment of the level and of
    [updatedAt]. *)
Definition withMethod (identity : UniversalCreativeID)
    (newVerification : VerificationMethod) : UniversalCreativeID :=
  let methods := verificationMethods identity ++ [newVerification] in
  {| id := id identity; version := version identity;
     createdAt := createdAt identity; updatedAt := now;
     identity_status := identity_status identity;
     biometricHash := biometricHash identity;
     walletAddress := walletAddress identity;
     publicKey := publicKey identity;
     verificationLevel := calculateVerificationLevel methods;
     verificationMethods := methods;
     connectedPlatforms := connectedPlatforms identity;
     contentCredentials := contentCredentials identity;
     authenticityScore := authenticityScore identity |}.

(** [updateVerificationLevel] resolves to [newLevel]; the identity object
    it has mutated and handed to [storeIdentity] is returned with it. *)
Definition updateVerificationLevel (identityId : string)
    (newVerification : VerificationMethod)
    : promise (Binary64.integral * UniversalCreativeID) :=
  rethrow "Failed to update verification: " (
    found ← getIdentity identityId;
    match found with
    | None => Rejected (ErrorObject "Identity not found")
    | Some identity =>
        let identity := withMethod identity newVerification in
        let newLevel := verificationLevel identity in
        _ ← (if Binary64.exceedsBy10 newLevel (verificationLevel identity)
             then updateIdentityOnChain identityId newLevel now
             else Resolved tt);
        _ ← storeIdentity identity;
        Resolved (newLevel, identity)
    end).

End Operations.

(** The private methods as the source has them: connecting a platform is
    not implemented and always throws, the store only logs, the lookup
    finds nothing. *)
Definition connectPlatform_source (identityId : string)
    (platformReq : CreativeIdentity.PlatformConnectionRequest)
    : promise CreativeIdentity.PlatformConnection :=
  Rejected (ErrorObject "Platform connection not implemented yet").

Definition storeIdentity_source (identity : UniversalCreativeID) : promise unit :=
  Resolved tt.

Definition getIdentity_source (identityId : string)
    : promise (option UniversalCreativeID) :=
  Resolved None.

Definition updateIdentityOnChain_source (identityId : string)
    (level : Binary64.integral) (date : Z) : promise unit :=
  Resolved tt.

End CreativeIdentity64.

(** * The exposed operation at run time

    TypeScript's types are erased: what reaches [updateVerificationLevel]
    from a caller is an object whose [type] and [status] are strings and
    whose [confidence] is whatever number the caller parsed, [NaN] when
    nothing could be parsed.  This module follows the same two methods on
    such objects. *)

Module CreativeIdentityRuntime.

Import Async.

Record VerificationMethod := {
  type : string;
  status : string;
  confidence : spec_float
}.

(** The fields of the identity object that [updateVerificationLevel] reads
    or writes. *)
Record UniversalCreativeID := {
  id : string;
  updatedAt : Z;
  verificationLevel : Binary64.integral;
  verificationMethods : list VerificationMethod
}.

(** The object literal [weights]; [weights[key]] is [undefined] for a key it
    does not have, and [undefined * x] is [NaN]. *)
Definition weights : gmap string spec_float :=
  <["community_vouching" := Binary64.ofZ 10]>
  (<["platform_verification" := Binary64.ofZ 25]>
  (<["social_proof" := Binary64.ofZ 15]>
  (<["government_id" := Binary64.ofZ 30]>
  (<["biometric" := Binary64.ofZ 20]> ∅)))).

Definition weightOf (key : string) : spec_float :=
  default S754_nan (weights !! key).

Definition addContribution (score : spec_float) (method : VerificationMethod)
    : spec_float :=
  if String.eqb (status method) "verified"
  then Binary64.add score (Binary64.mul (weightOf (type method)) (confidence method))
  else score.

Definition calculateVerificationLevel (methods : list VerificationMethod)
    : Binary64.integral :=
  let score := fold_left addContribution methods (Binary64.ofZ 0) in
  Binary64.min100 (Binary64.floor score).

Section Operations.

Variable getIdentity : string -> promise (option UniversalCreativeID).
Variable storeIdentity : UniversalCreativeID -> promise unit.
Variable updateIdentityOnChain : string -> Binary64.integral -> Z -> promise unit.
Variable now : Z.

Definition updateVerificationLevel (identityId : string)
    (newVerification : VerificationMethod)
    : promise (Binary64.integral * UniversalCreativeID) :=
  rethrow "Failed to update verification: " (
    found ← getIdentity identityId;
    match found with
    | None => Rejected (ErrorObject "Identity not found")
    | Some identity =>
        let methods := verificationMethods identity ++ [newVerification] in
        let newLevel := calculateVerificationLevel methods in
        let identity :=
          {| id := id identity; updatedAt := now;
             verificationLevel := newLevel; verificationMethods := methods |} in
        _ ← (if Binary64.exceedsBy10 newLevel (verificationLevel identity)
             then updateIdentityOnChain identityId newLevel now
             else Resolved tt);
        _ ← storeIdentity identity;
        Resolved (newLevel, identity)
    end).

End Operations.

(** [getIdentity] as the source has it: it logs and returns [null]. *)
Definition getIdentity_source (identityId : string)
    : promise (option UniversalCreativeID) :=
  Resolved None.

(** The closed enumeration of method types, and what the interface
    description asks the operation to turn away. *)
Definition knownTypes : list string :=
  ["biometric"; "government_id"; "social_proof"; "platform_verification";
   "community_vouching"].

Definition typeInEnumeration (method : VerificationMethod) : bool :=
  bool_decide (type method ∈ knownTypes).

(** Clamping a parsed confidence into [0,1]; nothing to clamp when the
    parse gave [NaN]. *)
Definition clampConfidence (c : spec_float) : spec_float :=
  if Binary64.ltb c (Binary64.ofZ 0) then Binary64.ofZ 0
  else if Binary64.gtb c (Binary64.ofZ 1) then Binary64.ofZ 1
  else c.

Definition confidenceUsable (method : VerificationMethod) : bool :=
  let c := clampConfidence (confidence method) in
  Binary64.notNegative c && SFleb c (Binary64.ofZ 1).

(** Erasure of a typed method. *)
Definition typeName (t : CreativeIdentity.VerificationType) : string :=
  match t with
  | CreativeIdentity.biometric => "biometric"
  | CreativeIdentity.government_id => "government_id"
  | CreativeIdentity.social_proof => "social_proof"
  | CreativeIdentity.platform_verification => "platform_verification"
  | CreativeIdentity.community_vouching => "community_vouching"
  end.

Definition statusName (s : CreativeIdentity.VerificationStatus) : string :=
  match s with
  | CreativeIdentity.verified => "verified"
  | CreativeIdentity.pending => "pending"
  | CreativeIdentity.failed => "failed"
  | CreativeIdentity.expired => "expired"
  end.

Definition erase (method : CreativeIdentity64.VerificationMethod) : VerificationMethod :=
  {| type := typeName (CreativeIdentity64.type method);
     status := statusName (CreativeIdentity64.status method);
     confidence := CreativeIdentity64.confidence method |}.

End CreativeIdentityRuntime.

(** * The cross-platform synchronisation engine and its conflict resolver *)

Module ProfileSync.

Inductive ConnectionStatus := connected | verified | expired | revoked.

Record PlatformConnection := {
  connection_platformId : string;
  platformUsername : string;
  platformUserId : string;
  connectionStatus : ConnectionStatus;
  lastSyncTimestamp : Z
}.

Record PersonalInfo := {
  displayName : string;
  personal_bio : string
}.

Record VerificationStatus := {
  platformsVerified : list string;
  verificationLevel : Z
}.

Record CreatorProfile := {
  universalId : string;
  walletAddress : string;
  creationTimestamp : Z;
  personalInfo : PersonalInfo;
  platformConnections : list PlatformConnection;
  verificationStatus : VerificationStatus;
  profile_lastSyncTimestamp : Z;
  syncVersion : Z
}.

(** [transformedData.metrics], of which the resolver reads [followerCount];
    a platform that does not report the count leaves it [undefined]. *)
Record PlatformMetrics := {
  followerCount : option Z;
  engagementRate : option Q
}.

Record TransformedPlatformData := { transformed_metrics : PlatformMetrics }.

(** The part of a result's [changes] that the resolver reads:
    [r.changes?.profile?.bio]. *)
Record ProfileChanges := { bio : option string }.
Record ChangeSet := { profile : option ProfileChanges }.

Record PlatformSyncResult := {
  platformId : string;
  success : bool;
  changes : option ChangeSet;
  metrics : option PlatformMetrics;
  error : option string;
  lastSync : Z
}.

(** A value of a result of no fixed type. *)
Inductive JsValue := JsNumber (n : Z) | JsString (s : string) | JsUndefined.

(** One entry of [conflict.values]: follower entries carry [count], bio
    entries carry [bio]; the strategies also read a [value] property. *)
Record ConflictValue := {
  platform : string;
  count : option Z;
  value_bio : option string;
  value : option string;
  timestamp : Z
}.

Record DataConflict := {
  type : string;
  field : string;
  values : list ConflictValue;
  severity : string;
  autoResolvable : bool
}.

(** The template strings of [reasoning], by template and holes. *)
Inductive Reasoning :=
  | UsedLatestValueFrom (platform : string) (timestamp : Z)
  | UsedValueFromVerifiedPlatform (platform : string)
  | UsedLongestValueFrom (platform : string).

Record ResolutionResult := {
  resolvedValue : JsValue;
  strategy : string;
  confidence : Q;
  reasoning : Reasoning
}.

(** The four classes registered by [initializeStrategies]. *)
Inductive ResolutionStrategy :=
  | LatestTimestampStrategy
  | LongestValueStrategy
  | VerifiedPlatformStrategy
  | WeightedAverageStrategy.

(** [applyResolution] and [recordConflict] have no body in the repository.
    [resolve] is followed up to them: its outcome is the shallow copy of the
    profile it made, with the calls made on it, in order. *)
Inductive ResolverCall :=
  | applyResolution (resolution : ResolutionResult)
  | recordConflict (conflict : DataConflict) (resolution : ResolutionResult).

Record ResolveOutcome := {
  resolvedProfile : CreatorProfile;
  calls : list ResolverCall
}.

Record SyncResult := {
  sync_success : bool;
  syncedPlatforms : list string;
  conflicts : list DataConflict;
  updatedFields : list string;
  sync_timestamp : Z
}.

(** [a || b] for an optional count and an optional value property. *)
Definition countOrValue (v : ConflictValue) : JsValue :=
  let other :=
    match value v with Some s => JsString s | None => JsUndefined end in
  match count v with
  | Some n => if (n =? 0)%Z then other else JsNumber n
  | None => other
  end.

(** [class LatestTimestampStrategy]: [reduce] without an initial value
    throws on an empty array. *)
Definition later (prev curr : ConflictValue) : ConflictValue :=
  if (timestamp prev <? timestamp curr)%Z then curr else prev.

(** The object literal that [LatestTimestampStrategy.resolve] returns. *)
Definition latestResolution (latest : ConflictValue) : ResolutionResult :=
  {| resolvedValue := countOrValue latest;
     strategy := "latest_timestamp";
     confidence := 0.9;
     reasoning := UsedLatestValueFrom (platform latest) (timestamp latest) |}.

Definition LatestTimestampStrategy_resolve (conflict : DataConflict)
    : result ResolutionResult :=
  match values conflict with
  | [] => Throw "Reduce of empty array with no initial value"
  | first :: rest =>
      let latest := fold_left later rest first in
      Ok (latestResolution latest)
  end.

(** [class VerifiedPlatformStrategy] *)
Definition VerifiedPlatformStrategy_resolve (conflict : DataConflict)
    (profile : CreatorProfile) : result ResolutionResult :=
  let verifiedPlatforms := platformsVerified (verificationStatus profile) in
  match List.find (fun v => bool_decide (platform v ∈ verifiedPlatforms))
          (values conflict) with
  | Some verifiedValue =>
      Ok {| resolvedValue :=
              match value verifiedValue with
              | Some s => JsString s
              | None => JsUndefined
              end;
            strategy := "verified_platform";
            confidence := 0.95;
            reasoning := UsedValueFromVerifiedPlatform (platform verifiedValue) |}
  | None => LatestTimestampStrategy_resolve conflict
  end.

(** [initializeStrategies], on the initially empty map. *)
Definition initializeStrategies : gmap string ResolutionStrategy :=
  <["engagement_variance" := WeightedAverageStrategy]>
  (<["username_conflict" := VerifiedPlatformStrategy]>
  (<["bio_conflict" := LongestValueStrategy]>
  (<["follower_count_variance" := LatestTimestampStrategy]> ∅))).

(** [r.metrics?.followerCount || 0] *)
Definition followerCountOr0 (r : PlatformSyncResult) : Z :=
  match metrics r with
  | Some m => match followerCount m with Some n => n | None => 0%Z end
  | None => 0%Z
  end.

(** [r.changes?.profile?.bio], kept when truthy: a missing link of the
    chain and the empty string both drop the result. *)
Definition changedBio (r : PlatformSyncResult) : option string :=
  c ← changes r;
  p ← profile c;
  b ← bio p;
  if String.eqb b "" then None else Some b.

Definition followerCounts (syncResults : list PlatformSyncResult)
    : list ConflictValue :=
  map (fun r => {| platform := platformId r;
                   count := Some (followerCountOr0 r);
                   value_bio := None;
                   value := None;
                   timestamp := lastSync r |}) syncResults.

Definition bioUpdates (syncResults : list PlatformSyncResult)
    : list ConflictValue :=
  omap (fun r => b ← changedBio r;
                 Some {| platform := platformId r;
                         count := None;
                         value_bio := Some b;
                         value := None;
                         timestamp := lastSync r |}) syncResults.

Definition countsOf (vs : list ConflictValue) : list Z :=
  map (fun f => default 0%Z (count f)) vs.

Definition biosOf (vs : list ConflictValue) : list string :=
  map (fun b => default "" (value_bio b)) vs.

Section Engine.

(** What an adapter fetches is platform specific. *)
Variable PlatformProfileData : Type.

Record PlatformAdapter := {
  fetchProfileData : PlatformConnection -> result PlatformProfileData;
  transformData : PlatformProfileData -> result TransformedPlatformData
}.

(** Methods and classes the document uses without giving them a body. *)
Variable hasSignificantVariance : list Z -> bool.
Variable hasDifferentValues : list string -> bool.
Variable LongestValueStrategy_resolve :
  DataConflict -> CreatorProfile -> list PlatformSyncResult
  -> result ResolutionResult.
Variable WeightedAverageStrategy_resolve :
  DataConflict -> CreatorProfile -> list PlatformSyncResult
  -> result ResolutionResult.
Variable getConflicts : ResolveOutcome -> list DataConflict.
Variable getUpdatedFields : ResolveOutcome -> list string.
Variable platformAdapters : gmap string PlatformAdapter.
Variable getCreatorProfile : string -> result CreatorProfile.
Variable updateCreatorProfile : ResolveOutcome -> result unit.
Variable detectChanges :
  PlatformConnection -> PlatformProfileData -> result ChangeSet.
Variable updatePlatformCache : string -> TransformedPlatformData -> result unit.
(** [Date.now()] when a platform's synchronisation settles, and when the
    cycle ends. *)
Variable settledAt : string -> Z.
Variable cycleEnd : Z.

(** [ConflictResolver.detectConflicts] *)
Definition detectConflicts (profile : CreatorProfile)
    (syncResults : list PlatformSyncResult) : list DataConflict :=
  let followerCounts := followerCounts syncResults in
  let conflicts :=
    if hasSignificantVariance (countsOf followerCounts)
    then [ {| type := "follower_count_variance";
              field := "metrics.followerCount";
              values := followerCounts;
              severity := "medium";
              autoResolvable := true |} ]
    else [] in
  let bioUpdates := bioUpdates syncResults in
  if (1 <? length bioUpdates)%nat && hasDifferentValues (biosOf bioUpdates)
  then conflicts ++
       [ {| type := "bio_conflict";
            field := "personalInfo.bio";
            values := bioUpdates;
            severity := "high";
            autoResolvable := false |} ]
  else conflicts.

(** [strategy.resolve(conflict, profile, syncResults)], by class. *)
Definition strategy_resolve (s : ResolutionStrategy) (conflict : DataConflict)
    (profile : CreatorProfile) (syncResults : list PlatformSyncResult)
    : result ResolutionResult :=
  match s with
  | LatestTimestampStrategy => LatestTimestampStrategy_resolve conflict
  | VerifiedPlatformStrategy => VerifiedPlatformStrategy_resolve conflict profile
  | LongestValueStrategy =>
      LongestValueStrategy_resolve conflict profile syncResults
  | WeightedAverageStrategy =>
      WeightedAverageStrategy_resolve conflict profile syncResults
  end.

(** The body of the loop of [resolve]: a conflict whose type has a
    registered strategy is resolved, applied and recorded. *)
Definition resolveConflict (profile : CreatorProfile)
    (syncResults : list PlatformSyncResult)
    (made : result (list ResolverCall)) (conflict : DataConflict)
    : result (list ResolverCall) :=
  made ← made;
  match initializeStrategies !! type conflict with
  | Some s =>
      resolution ← strategy_resolve s conflict profile syncResults;
      Ok (made ++ [applyResolution resolution; recordConflict conflict resolution])
  | None => Ok made
  end.

(** [ConflictResolver.resolve] *)
Definition resolve (profile : CreatorProfile)
    (syncResults : list PlatformSyncResult) : result ResolveOutcome :=
  let conflicts := detectConflicts profile syncResults in
  made ← fold_left (resolveConflict profile syncResults) conflicts (Ok []);
  Ok {| resolvedProfile := profile; calls := made |}.

(** [CrossPlatformSyncEngine.syncWithPlatform]: the four awaited steps of
    the [try] block, and the two object literals. *)
Definition syncWithPlatform (profile : CreatorProfile)
    (connection : PlatformConnection) (adapter : PlatformAdapter)
    : PlatformSyncResult :=
  let attempt :=
    platformData ← fetchProfileData adapter connection;
    changes ← detectChanges connection platformData;
    transformedData ← transformData adapter platformData;
    _ ← updatePlatformCache (connection_platformId connection) transformedData;
    Ok (changes, transformedData) in
  match attempt with
  | Ok (changes, transformedData) =>
      {| platformId := connection_platformId connection;
         success := true;
         changes := Some changes;
         metrics := Some (transformed_metrics transformedData);
         error := None;
         lastSync := settledAt (connection_platformId connection) |}
  | Throw message =>
      {| platformId := connection_platformId connection;
         success := false;
         changes := None;
         metrics := None;
         error := Some message;
         lastSync := settledAt (connection_platformId connection) |}
  end.

(** The callback mapped over [profile.platformConnections]. *)
Definition syncConnection (profile : CreatorProfile)
    (connection : PlatformConnection) : option PlatformSyncResult :=
  match platformAdapters !! connection_platformId connection with
  | Some adapter =>
      match connectionStatus connection with
      | connected => Some (syncWithPlatform profile connection adapter)
      | _ => None
      end
  | None => None
  end.

(** [results.filter(r => r !== null)] over the settled promises. *)
Definition validResults (profile : CreatorProfile) : list PlatformSyncResult :=
  omap (fun r => r) (map (syncConnection profile) (platformConnections profile)).

(** [CrossPlatformSyncEngine.syncCreatorProfile] *)
Definition syncCreatorProfile (creatorId : string) : result SyncResult :=
  profile ← getCreatorProfile creatorId;
  let validResults := validResults profile in
  resolved ← resolve profile validResults;
  _ ← updateCreatorProfile resolved;
  Ok {| sync_success := forallb success validResults;
        syncedPlatforms := map platformId validResults;
        conflicts := getConflicts resolved;
        updatedFields := getUpdatedFields resolved;
        sync_timestamp := cycleEnd |}.

End Engine.

End ProfileSync.

(** * The synchronisation cycle with the rejections of JavaScript

    [syncWithPlatform] and [syncCreatorProfile] once more, each awaited
    call being a promise that may reject with any value.  The records are
    those of [ProfileSync]; the conflict resolver is taken as a whole. *)

Module CrossPlatformSyncEngine.

Import Async ProfileSync.

Section Engine.

Variable PlatformProfileData : Type.

Record PlatformAdapter := {
  fetchProfileData : PlatformConnection -> promise PlatformProfileData;
  transformData : PlatformProfileData -> promise TransformedPlatformData
}.

Variable platformAdapters : gmap string PlatformAdapter.
Variable getCreatorProfile : string -> promise CreatorProfile.
Variable updateCreatorProfile : ResolveOutcome -> promise unit.
Variable detectChanges :
  PlatformConnection -> PlatformProfileData -> promise ChangeSet.
Variable updatePlatformCache : string -> TransformedPlatformData -> promise unit.
(** [conflictResolver.resolve], [getConflicts] and [getUpdatedFields] *)
Variable resolve : CreatorProfile -> list PlatformSyncResult -> promise ResolveOutcome.
Variable getConflicts : ResolveOutcome -> list DataConflict.
Variable getUpdatedFields : ResolveOutcome -> list string.
Variable settledAt : string -> Z.
Variable cycleEnd : Z.

(** The four awaited steps of the [try] block. *)
Definition fetched (connection : PlatformConnection) (adapter : PlatformAdapter)
    : promise (ChangeSet * TransformedPlatformData) :=
  platformData ← fetchProfileData adapter connection;
  changes ← detectChanges connection platformData;
  transformedData ← transformData adapter platformData;
  _ ← updatePlatformCache (connection_platformId connection) transformedData;
  Resolved (changes, transformedData).

(** [syncWithPlatform]: the [catch] block builds its object literal from
    [error.message]. *)
Definition syncWithPlatform (profile : CreatorProfile)
    (connection : PlatformConnection) (adapter : PlatformAdapter)
    : promise PlatformSyncResult :=
  match fetched connection adapter with
  | Resolved (changes, transformedData) =>
      Resolved
        {| platformId := connection_platformId connection;
           success := true;
           changes := Some changes;
           metrics := Some (transformed_metrics transformedData);
           error := None;
           lastSync := settledAt (connection_platformId connection) |}
  | Rejected error =>
      message ← messageOf error;
      Resolved
        {| platformId := connection_platformId connection;
           success := false;
           changes := None;
           metrics := None;
           error := message;
           lastSync := settledAt (connection_platformId connection) |}
  end.

(** The callback mapped over [profile.platformConnections]. *)
Definition syncConnection (profile : CreatorProfile)
    (connection : PlatformConnection) : promise (option PlatformSyncResult) :=
  match platformAdapters !! connection_platformId connection with
  | Some adapter =>
      match connectionStatus connection with
      | connected => r ← syncWithPlatform profile connection adapter; Resolved (Some r)
      | _ => Resolved None
      end
  | None => Resolved None
  end.

(** [syncCreatorProfile] *)
Definition syncCreatorProfile (creatorId : string) : promise SyncResult :=
  profile ← getCreatorProfile creatorId;
  results ← all (map (syncConnection profile) (platformConnections profile));
  let validResults := omap (fun r => r) results in
  resolved ← resolve profile validResults;
  _ ← updateCreatorProfile resolved;
  Resolved {| sync_success := forallb success validResults;
              syncedPlatforms := map platformId validResults;
              conflicts := getConflicts resolved;
              updatedFields := getUpdatedFields resolved;
              sync_timestamp := cycleEnd |}.

End Engine.

End CrossPlatformSyncEngine.

(** * The specification's formulas and the helpers it describes *)

Module Specification.

Import CreativeIdentity.

(** "Only methods with status verified and not expired contribute", and
    "expired methods must be excluded from scoring at read time": a method
    is expired once the time of reading has reached its [expiresAt]. *)
Definition isVerified (m : VerificationMethod) : bool :=
  match status m with verified => true | _ => false end.

Definition isExpired (now : Z) (m : VerificationMethod) : bool :=
  match expiresAt m with
  | Some date => (date <=? now)%Z
  | None => false
  end.

Definition contributes (now : Z) (m : VerificationMethod) : bool :=
  isVerified m && negb (isExpired now m).

(** "Contribution = weight x confidence. Sum contributions, ..." *)
Definition contribution (m : VerificationMethod) : Q :=
  weights (type m) * confidence m.

Definition sumQ (l : list Q) : Q := fold_right Qplus 0%Q l.

Definition weightedSum (now : Z) (methods : list VerificationMethod) : Q :=
  sumQ (map contribution (filter (fun m => Is_true (contributes now m)) methods)).

(** "... clamp to [0,100], floor to integer." *)
Definition clamp (lo hi x : Q) : Q :=
  if Qle_bool x lo then lo else if Qle_bool hi x then hi else x.

Definition specVerificationLevel (now : Z) (methods : list VerificationMethod) : Z :=
  Qfloor (clamp 0 100 (weightedSum now methods)).

(** "malformed confidence outside [0,1] is clamped": the formula over the
    methods with each confidence clamped first. *)
Definition clampConfidence (m : VerificationMethod) : VerificationMethod :=
  {| type := type m; status := status m; verifiedAt := verifiedAt m;
     expiresAt := expiresAt m; confidence := clamp 0 1 (confidence m);
     metadata := metadata m |}.

Definition specVerificationLevelClamped (now : Z)
    (methods : list VerificationMethod) : Z :=
  specVerificationLevel now (map clampConfidence methods).

End Specification.

(** Modelled from the spec: the helper methods and strategy classes that the
    sync document calls and never defines ([hasSignificantVariance],
    [hasDifferentValues], [LongestValueStrategy], [WeightedAverageStrategy]),
    after sections 4.3 and 4.4 of the specification. *)

Module SpecifiedHelpers.

Import ProfileSync.

Definition sumZ (l : list Z) : Z := fold_right Z.add 0%Z l.

(** Modelled from the spec: [hasSignificantVariance], "coefficient of
    variation across values exceeds a configured threshold (default 0.15)".
    With n values of sum s and sum of squares q, the population variance is
    (n q - s^2) / n^2 and the squared mean s^2 / n^2, so the coefficient
    exceeds 15/100 exactly when 10000 (n q - s^2) > 225 s^2. *)
Definition hasSignificantVariance (counts : list Z) : bool :=
  let n := Z.of_nat (length counts) in
  let s := sumZ counts in
  let q := sumZ (map (fun x => x * x)%Z counts) in
  (225 * (s * s) <? 10000 * (n * q - s * s))%Z.

Definition isSpace (c : ascii) : bool :=
  let n := nat_of_ascii c in
  (n =? 32)%nat || (n =? 9)%nat || (n =? 10)%nat || (n =? 13)%nat.

Definition lower (c : ascii) : ascii :=
  let n := nat_of_ascii c in
  if (65 <=? n)%nat && (n <=? 90)%nat then ascii_of_nat (n + 32) else c.

(** Lower case, leading and trailing white space dropped, inner runs of
    white space collapsed to one blank. *)
Fixpoint normalizeFrom (pending : bool) (started : bool) (s : string) : string :=
  match s with
  | EmptyString => EmptyString
  | String c rest =>
      if isSpace c then normalizeFrom started started rest
      else
        let tail := String (lower c) (normalizeFrom false true rest) in
        if pending then String " "%char tail else tail
  end.

Definition normalize (s : string) : string := normalizeFrom false false s.

(** Modelled from the spec: [hasDifferentValues], "values differ under
    case/whitespace-normalized comparison". *)
Definition hasDifferentValues (bios : list string) : bool :=
  match map normalize bios with
  | [] => false
  | b :: rest => negb (forallb (String.eqb b) rest)
  end.

(** Modelled from the spec: [LongestValueStrategy], "prefer the longer
    normalized string; ties broken by latest-timestamp".  The specification
    asks for a confidence to be recorded and does not say which: it is an
    argument. *)
Definition normalizedLength (v : ConflictValue) : nat :=
  String.length (normalize (default "" (value_bio v))).

Definition longer (prev curr : ConflictValue) : ConflictValue :=
  if (normalizedLength prev <? normalizedLength curr)%nat then curr
  else if (normalizedLength curr <? normalizedLength prev)%nat then prev
  else later prev curr.

Definition LongestValueStrategy_resolve (recorded : Q) (conflict : DataConflict)
    (profile : CreatorProfile) (syncResults : list PlatformSyncResult)
    : result ResolutionResult :=
  match values conflict with
  | [] => Throw "no candidate value"
  | first :: rest =>
      let longest := fold_left longer rest first in
      Ok {| resolvedValue :=
              match value_bio longest with
              | Some s => JsString s
              | None => JsUndefined
              end;
            strategy := "longest_value";
            confidence := recorded;
            reasoning := UsedLongestValueFrom (platform longest) |}
  end.

(** Modelled from the spec: the value of [WeightedAverageStrategy], "weight
    each candidate by the reporting platform's follower count (or 1 if
    absent), average, round to match field precision"; a follower count is
    a whole number, so the average is rounded to the nearest one. *)
Definition reportedFollowers (syncResults : list PlatformSyncResult)
    (p : string) : option Z :=
  r ← List.find (fun r => String.eqb (platformId r) p) syncResults;
  m ← metrics r;
  followerCount m.

Definition candidateWeight (syncResults : list PlatformSyncResult)
    (v : ConflictValue) : Z :=
  default 1%Z (reportedFollowers syncResults (platform v)).

Definition weightedAverage (conflict : DataConflict)
    (syncResults : list PlatformSyncResult) : Z :=
  let weighted :=
    sumZ (map (fun v => candidateWeight syncResults v * default 0 (count v))%Z
              (values conflict)) in
  let total := sumZ (map (candidateWeight syncResults) (values conflict)) in
  Qfloor (inject_Z weighted / inject_Z total + (1 # 2))%Q.

End SpecifiedHelpers.

(** * Notions used by the statements *)

Module Statements.


(** The initial platforms of a request and how many of them connect. *)
Definition platformsOf (request : CreativeIdentity.CreateIdentityRequest)
    : list CreativeIdentity.PlatformConnectionRequest :=
  default [] (CreativeIdentity.initialPlatforms request).

Definition connectedCount
    (connectPlatform : string -> CreativeIdentity.PlatformConnectionRequest
                       -> result CreativeIdentity.PlatformConnection)
    (identityId : string)
    (platforms : list CreativeIdentity.PlatformConnectionRequest) : nat :=
  length (filter (fun p => Is_true (succeeded (connectPlatform identityId p)))
            platforms).

(** The biometric method that [createIdentity] stores. *)
Definition biometricMethod (request : CreativeIdentity.CreateIdentityRequest)
    (c : Q) (date : Z) : CreativeIdentity.VerificationMethod :=
  {| CreativeIdentity.type := CreativeIdentity.biometric;
     CreativeIdentity.status := CreativeIdentity.verified;
     CreativeIdentity.verifiedAt := date;
     CreativeIdentity.expiresAt := None;
     CreativeIdentity.confidence := c;
     CreativeIdentity.metadata :=
       [("method",
         CreativeIdentity.biometric_type (CreativeIdentity.biometricData request));
        ("deviceInfo",
         CreativeIdentity.deviceInfo (CreativeIdentity.biometricData request))] |}.

(** A detected conflict is left for manual adjudication when no resolution
    of it was applied or recorded. *)
Definition untouched (outcome : ProfileSync.ResolveOutcome)
    (conflict : ProfileSync.DataConflict) : Prop :=
  forall resolution,
    ProfileSync.recordConflict conflict resolution ∉ ProfileSync.calls outcome.

(** The two shapes of a platform's result. *)
Definition isSnapshot (r : ProfileSync.PlatformSyncResult) : Prop :=
  ProfileSync.success r = true /\ ProfileSync.error r = None /\
  is_Some (ProfileSync.metrics r) /\ is_Some (ProfileSync.changes r).

Definition isTypedFailure (r : ProfileSync.PlatformSyncResult) : Prop :=
  ProfileSync.success r = false /\ is_Some (ProfileSync.error r) /\
  ProfileSync.metrics r = None /\ ProfileSync.changes r = None.

End Statements.

(** * Notions used by the statements on JavaScript's numbers and rejections *)

Module Statements64.

Import Async.

(** A decimal confidence as the double that holds it (numerator and
    denominator below 2^53), and a method with its confidence so held. *)
Definition ofQ (q : Q) : spec_float := Binary64.ofDecimal (Qnum q) (Z.pos (Qden q)).

Definition held (m : CreativeIdentity.VerificationMethod)
    : CreativeIdentity64.VerificationMethod :=
  {| CreativeIdentity64.type := CreativeIdentity.type m;
     CreativeIdentity64.status := CreativeIdentity.status m;
     CreativeIdentity64.verifiedAt := CreativeIdentity.verifiedAt m;
     CreativeIdentity64.expiresAt := CreativeIdentity.expiresAt m;
     CreativeIdentity64.confidence := ofQ (CreativeIdentity.confidence m);
     CreativeIdentity64.metadata := CreativeIdentity.metadata m |}.

Definition isVerified (m : CreativeIdentity64.VerificationMethod) : bool :=
  match CreativeIdentity64.status m with
  | CreativeIdentity.verified => true
  | _ => false
  end.

(** The products the loop adds, and their sum from left to right. *)
Definition contributions (methods : list CreativeIdentity64.VerificationMethod)
    : list spec_float :=
  map (fun m => Binary64.mul (CreativeIdentity64.weights (CreativeIdentity64.type m))
                  (CreativeIdentity64.confidence m))
    (filter (fun m => Is_true (isVerified m)) methods).

Definition sum (terms : list spec_float) : spec_float :=
  fold_left Binary64.add terms (Binary64.ofZ 0).

(** A method that counts has a confidence [c] with [c >= 0]. *)
Definition notNegativeWhenVerified (m : CreativeIdentity64.VerificationMethod) : Prop :=
  CreativeIdentity64.status m = CreativeIdentity.verified ->
  Binary64.notNegative (CreativeIdentity64.confidence m) = true.

(** The same method with another expiry date. *)
Definition setExpiresAt (date : option Z) (m : CreativeIdentity64.VerificationMethod)
    : CreativeIdentity64.VerificationMethod :=
  {| CreativeIdentity64.type := CreativeIdentity64.type m;
     CreativeIdentity64.status := CreativeIdentity64.status m;
     CreativeIdentity64.verifiedAt := CreativeIdentity64.verifiedAt m;
     CreativeIdentity64.expiresAt := date;
     CreativeIdentity64.confidence := CreativeIdentity64.confidence m;
     CreativeIdentity64.metadata := CreativeIdentity64.metadata m |}.

(** A level that is a whole number within the given bounds. *)
Definition between (lo hi : Z) (level : Binary64.integral) : Prop :=
  match level with
  | Binary64.Integer z => (lo <= z <= hi)%Z
  | _ => False
  end.

(** What every level is: [NaN], minus infinity, or a whole number of at
    most 100. *)
Definition capped (level : Binary64.integral) : Prop :=
  match level with
  | Binary64.NaN => True
  | Binary64.Infinity negative => negative = true
  | Binary64.Integer z => (z <= 100)%Z
  end.

(** The initial platforms of a request and how many of them connect. *)
Definition connectedCount
    (connectPlatform : string -> CreativeIdentity.PlatformConnectionRequest
                       -> promise CreativeIdentity.PlatformConnection)
    (identityId : string)
    (platforms : list CreativeIdentity.PlatformConnectionRequest) : nat :=
  length (filter (fun p => Is_true (resolved (connectPlatform identityId p)))
            platforms).

(** The biometric method that [createIdentity] stores. *)
Definition biometricMethod (request : CreativeIdentity.CreateIdentityRequest)
    (c : spec_float) (date : Z) : CreativeIdentity64.VerificationMethod :=
  {| CreativeIdentity64.type := CreativeIdentity.biometric;
     CreativeIdentity64.status := CreativeIdentity.verified;
     CreativeIdentity64.verifiedAt := date;
     CreativeIdentity64.expiresAt := None;
     CreativeIdentity64.confidence := c;
     CreativeIdentity64.metadata :=
       [("method",
         CreativeIdentity.biometric_type (CreativeIdentity.biometricData request));
        ("deviceInfo",
         CreativeIdentity.deviceInfo (CreativeIdentity.biometricData request))] |}.


(** The run-time identity after a method has been pushed and the level
    recomputed. *)
Definition appended (identity : CreativeIdentityRuntime.UniversalCreativeID)
    (m : CreativeIdentityRuntime.VerificationMethod) (date : Z)
    : CreativeIdentityRuntime.UniversalCreativeID :=
  let methods := CreativeIdentityRuntime.verificationMethods identity ++ [m] in
  {| CreativeIdentityRuntime.id := CreativeIdentityRuntime.id identity;
     CreativeIdentityRuntime.updatedAt := date;
     CreativeIdentityRuntime.verificationLevel :=
       CreativeIdentityRuntime.calculateVerificationLevel methods;
     CreativeIdentityRuntime.verificationMethods := methods |}.

(** What the interface description wants turned away. *)
Definition mustBeRejected (m : CreativeIdentityRuntime.VerificationMethod) : bool :=
  negb (CreativeIdentityRuntime.confidenceUsable m)
  || negb (CreativeIdentityRuntime.typeInEnumeration m).

(** A reason that is [null] or [undefined]. *)
Definition nullish (r : reason) : bool :=
  match r with Null | Undefined => true | _ => false end.

(** The result of a platform whose four steps resolve: the snapshot that
    carries what was fetched. *)
Definition snapshotOf (connection : ProfileSync.PlatformConnection)
    (changed : ProfileSync.ChangeSet)
    (transformed : ProfileSync.TransformedPlatformData) (settled : Z)
    : ProfileSync.PlatformSyncResult :=
  {| ProfileSync.platformId := ProfileSync.connection_platformId connection;
     ProfileSync.success := true;
     ProfileSync.changes := Some changed;
     ProfileSync.metrics := Some (ProfileSync.transformed_metrics transformed);
     ProfileSync.error := None;
     ProfileSync.lastSync := settled |}.

(** The typed failure of a platform one of whose steps rejects with a
    reason that has properties. *)
Definition failureOf (connection : ProfileSync.PlatformConnection)
    (message : option string) (settled : Z) : ProfileSync.PlatformSyncResult :=
  {| ProfileSync.platformId := ProfileSync.connection_platformId connection;
     ProfileSync.success := false;
     ProfileSync.changes := None;
     ProfileSync.metrics := None;
     ProfileSync.error := message;
     ProfileSync.lastSync := settled |}.

End Statements64.

(** * Concrete inputs *)

Module Scenarios.

Module Identity.
Import CreativeIdentity.

Definition method (t : VerificationType) (s : VerificationStatus) (c : Q)
    : VerificationMethod :=
  {| type := t; status := s; verifiedAt := 0; expiresAt := None;
     confidence := c; metadata := [] |}.

(** Scenario A and Scenario B of the specification. *)
Definition scenarioA : list VerificationMethod := [method biometric verified 0.95].
Definition scenarioB : list VerificationMethod :=
  scenarioA ++ [method platform_verification verified 1].

(** A verified method whose expiry date has passed by the time 2000, and
    two confidences whose contributions add up to 31. *)
Definition lapsed : VerificationMethod :=
  {| type := biometric; status := verified; verifiedAt := 0;
     expiresAt := Some 1000%Z; confidence := 1; metadata := [] |}.

Definition roundedDown : list VerificationMethod :=
  [method biometric verified 0.83; method social_proof verified 0.96].

Definition face : BiometricData :=
  {| biometric_type := "face"; encodedData := "ZmFjZQ==";
     biometric_confidence := 0.99; capturedAt := 0; deviceInfo := "device-1" |}.

Definition settings : PrivacySettings :=
  {| publicProfile := true; shareMetrics := true; allowDiscovery := true;
     dataRetention := 30; crossPlatformSync := true;
     biometricDataSharing := false |}.

Definition tiktokRequest : PlatformConnectionRequest :=
  {| platformId := "tiktok"; authorizationCode := "code";
     redirectUri := "https://example.org/callback" |}.

Definition request (platforms : option (list PlatformConnectionRequest))
    : CreateIdentityRequest :=
  {| biometricData := face; request_walletAddress := "0xabc";
     initialPlatforms := platforms; privacySettings := settings |}.

(** Stand-ins for the collaborators outside the repository: a verifier
    that reports a given confidence, a registration and a deployment that
    succeed, a connector that succeeds. *)
Definition verifier (c : Q) (data : BiometricData) : result BiometricVerification :=
  Ok {| verification_confidence := c |}.

Definition registrar (creatorId wallet hash : string) (date : Z)
    (privacy : PrivacySettings) : result StoryRegistration :=
  Ok {| registration_id := "story-1" |}.

Definition deployer (identityId wallet hash story : string)
    : result ContractDeployment :=
  Ok {| deployment_contractAddress := "0xc0";
        deployment_transactionHash := "0x7a" |}.

Definition connector (identityId : string) (platformReq : PlatformConnectionRequest)
    : result PlatformConnection :=
  Ok {| connection_platformId := platformId platformReq; username := "creator";
        userId := "42"; connectedAt := 1000; lastSyncAt := 1000 |}.

(** [createIdentity] with the stand-ins, the connector being left open. *)
Definition create (c : Q)
    (connectPlatform : string -> PlatformConnectionRequest -> result PlatformConnection)
    : CreateIdentityRequest -> result CreateIdentityResponse :=
  createIdentity (verifier c) registrar deployer connectPlatform
    storeIdentity_source (fun _ _ => "uci_0000000000000000") (fun _ => "hash")
    ["BACKUP"] (fun _ => "qr") "0xsigner" 1000.

End Identity.

Module Sync.
Import ProfileSync.

Definition connection (p : string) (s : ConnectionStatus) : PlatformConnection :=
  {| connection_platformId := p; platformUsername := "creator";
     platformUserId := "42"; connectionStatus := s; lastSyncTimestamp := 0 |}.

Definition tiktok := connection "tiktok" connected.
Definition instagram := connection "instagram" connected.

Definition creator : CreatorProfile :=
  {| universalId := "uci_1"; walletAddress := "0xabc"; creationTimestamp := 0;
     personalInfo := {| displayName := "Creator"; personal_bio := "Painter" |};
     platformConnections := [tiktok; instagram];
     verificationStatus := {| platformsVerified := []; verificationLevel := 10 |};
     profile_lastSyncTimestamp := 0; syncVersion := 1 |}.

Definition reported (p : string) (followers : option Z) (newBio : option string)
    (settled : Z) : PlatformSyncResult :=
  {| platformId := p; success := true;
     changes := Some {| profile := Some {| bio := newBio |} |};
     metrics := Some {| followerCount := followers; engagementRate := None |};
     error := None; lastSync := settled |}.

Definition failedResult (p message : string) (settled : Z) : PlatformSyncResult :=
  {| platformId := p; success := false; changes := None; metrics := None;
     error := Some message; lastSync := settled |}.

(** Scenario C: follower counts 1000 and 1400. *)
Definition scenarioC : list PlatformSyncResult :=
  [reported "tiktok" (Some 1000%Z) None 1; reported "instagram" (Some 1400%Z) None 2].

Definition followerConflict : DataConflict :=
  {| type := "follower_count_variance"; field := "metrics.followerCount";
     values := followerCounts scenarioC; severity := "medium";
     autoResolvable := true |}.

(** Scenario D: two platforms report different bios. *)
Definition scenarioD : list PlatformSyncResult :=
  [reported "tiktok" None (Some "Painter of seas") 1;
   reported "instagram" None (Some "Painter and dreamer") 2].

Definition bioConflict : DataConflict :=
  {| type := "bio_conflict"; field := "personalInfo.bio";
     values := bioUpdates scenarioD; severity := "high";
     autoResolvable := false |}.

(** The outcome of Scenario D when the longest-value strategy is the one
    the specification describes, recording the confidence 1. *)
Definition longestBio : ResolutionResult :=
  {| resolvedValue := JsString "Painter and dreamer";
     strategy := "longest_value"; confidence := 1;
     reasoning := UsedLongestValueFrom "instagram" |}.

Definition scenarioD_outcome : ResolveOutcome :=
  {| resolvedProfile := creator;
     calls := [applyResolution longestBio; recordConflict bioConflict longestBio] |}.

(** One platform reports 1000 followers, the fetch of the other failed. *)
Definition oneFailed : list PlatformSyncResult :=
  [reported "tiktok" (Some 1000%Z) None 1; failedResult "instagram" "rate limited" 2].

Definition phantomConflict : DataConflict :=
  {| type := "follower_count_variance"; field := "metrics.followerCount";
     values := followerCounts oneFailed; severity := "medium";
     autoResolvable := true |}.

Definition detect : CreatorProfile -> list PlatformSyncResult -> list DataConflict :=
  detectConflicts SpecifiedHelpers.hasSignificantVariance
    SpecifiedHelpers.hasDifferentValues.

(** An engine with two adapters: what TikTok fetches is a follower count,
    Instagram's fetch throws. *)
Definition tiktokAdapter : PlatformAdapter Z :=
  {| fetchProfileData := fun _ => Ok 1000%Z;
     transformData := fun followers =>
       Ok {| transformed_metrics :=
               {| followerCount := Some followers; engagementRate := None |} |} |}.

Definition instagramAdapter : PlatformAdapter Z :=
  {| fetchProfileData := fun _ => Throw "rate limited";
     transformData := fun followers =>
       Ok {| transformed_metrics :=
               {| followerCount := Some followers; engagementRate := None |} |} |}.

Definition adapters : gmap string (PlatformAdapter Z) :=
  <["instagram" := instagramAdapter]> (<["tiktok" := tiktokAdapter]> ∅).

Definition settledAt (p : string) : Z := if String.eqb p "tiktok" then 1%Z else 2%Z.

Definition recordedConflicts (outcome : ResolveOutcome) : list DataConflict :=
  omap (fun call => match call with
                    | recordConflict conflict _ => Some conflict
                    | applyResolution _ => None
                    end) (calls outcome).

(** One cycle of the engine over these adapters.  The resolver's
    [getConflicts] is taken to list the recorded conflicts and
    [getUpdatedFields] to list nothing; the stores succeed. *)
Definition sync : string -> result SyncResult :=
  syncCreatorProfile Z SpecifiedHelpers.hasSignificantVariance
    SpecifiedHelpers.hasDifferentValues
    (SpecifiedHelpers.LongestValueStrategy_resolve 1)
    (fun _ _ _ => Throw "WeightedAverageStrategy is not defined")
    recordedConflicts (fun _ => []) adapters (fun _ => Ok creator)
    (fun _ => Ok tt) (fun _ _ => Ok {| profile := None |}) (fun _ _ => Ok tt)
    settledAt 3.

End Sync.

End Scenarios.

(** * Concrete inputs on JavaScript's numbers and rejections *)

Module Scenarios64.

Module Identity.
Import Async CreativeIdentity64.

Definition method (t : CreativeIdentity.VerificationType)
    (s : CreativeIdentity.VerificationStatus) (c : spec_float) : VerificationMethod :=
  {| type := t; status := s; verifiedAt := 0; expiresAt := None;
     confidence := c; metadata := [] |}.

(** Scenario A and Scenario B of the specification. *)
Definition scenarioA : list VerificationMethod :=
  [method CreativeIdentity.biometric CreativeIdentity.verified
     (Binary64.ofDecimal 95 100)].
Definition scenarioB : list VerificationMethod :=
  scenarioA ++ [method CreativeIdentity.platform_verification
                  CreativeIdentity.verified (Binary64.ofZ 1)].

(** Stand-ins for the collaborators outside the repository: a verifier
    that reports a given confidence, a registration and a deployment that
    resolve, a connector that resolves. *)
Definition verifier (c : spec_float) (data : CreativeIdentity.BiometricData)
    : promise BiometricVerification :=
  Resolved {| verification_confidence := c |}.

Definition registrar (creatorId wallet hash : string) (date : Z)
    (privacy : CreativeIdentity.PrivacySettings)
    : promise CreativeIdentity.StoryRegistration :=
  Resolved {| CreativeIdentity.registration_id := "story-1" |}.

Definition deployer (identityId wallet hash story : string)
    : promise CreativeIdentity.ContractDeployment :=
  Resolved {| CreativeIdentity.deployment_contractAddress := "0xc0";
              CreativeIdentity.deployment_transactionHash := "0x7a" |}.

Definition connector (identityId : string)
    (platformReq : CreativeIdentity.PlatformConnectionRequest)
    : promise CreativeIdentity.PlatformConnection :=
  Resolved {| CreativeIdentity.connection_platformId :=
                CreativeIdentity.platformId platformReq;
              CreativeIdentity.username := "creator";
              CreativeIdentity.userId := "42";
              CreativeIdentity.connectedAt := 1000;
              CreativeIdentity.lastSyncAt := 1000 |}.


(** [createIdentity] with the stand-ins, the connector being left open. *)
Definition create (c : spec_float)
    (connectPlatform : string -> CreativeIdentity.PlatformConnectionRequest
                       -> promise CreativeIdentity.PlatformConnection)
    : CreativeIdentity.CreateIdentityRequest -> promise CreateIdentityResponse :=
  createIdentity (verifier c) registrar deployer connectPlatform
    storeIdentity_source (fun _ _ => "uci_0000000000000000") (fun _ => "hash")
    ["BACKUP"] (fun _ => "qr") "0xsigner" 1000.

Definition storedIdentity : UniversalCreativeID :=
  {| id := "uci_1"; version := 1; createdAt := 0; updatedAt := 0;
     identity_status := CreativeIdentity.identity_pending; biometricHash := "hash";
     walletAddress := "0xabc"; publicKey := "0xsigner";
     verificationLevel := Binary64.Integer 10; verificationMethods := scenarioA;
     connectedPlatforms := ∅; contentCredentials := [];
     authenticityScore := 10 |}.

(** [updateVerificationLevel] over a store that holds [storedIdentity]. *)
Definition update
    : string -> VerificationMethod -> promise (Binary64.integral * UniversalCreativeID) :=
  updateVerificationLevel storeIdentity_source (fun _ => Resolved (Some storedIdentity))
    updateIdentityOnChain_source 1000.

End Identity.

Module Runtime.
Import Async CreativeIdentityRuntime.

(** A confidence that could not be parsed, and a type outside the
    enumeration. *)
Definition unparsed : VerificationMethod :=
  {| type := "government_id"; status := "verified"; confidence := S754_nan |}.

Definition passport : VerificationMethod :=
  {| type := "passport"; status := "verified"; confidence := Binary64.ofDecimal 1 2 |}.

End Runtime.

Module Sync.
Import Async ProfileSync CrossPlatformSyncEngine Scenarios.Sync.

(** An adapter whose fetch resolves to a follower count, and one whose
    fetch rejects with a given reason. *)
Definition answering (followers : Z) : PlatformAdapter Z :=
  {| fetchProfileData := fun _ => Resolved followers;
     transformData := fun followers =>
       Resolved {| transformed_metrics :=
                     {| followerCount := Some followers; engagementRate := None |} |} |}.

Definition rejecting (r : reason) : PlatformAdapter Z :=
  {| fetchProfileData := fun _ => Rejected r;
     transformData := fun followers =>
       Resolved {| transformed_metrics :=
                     {| followerCount := Some followers; engagementRate := None |} |} |}.

Definition adaptersWith (r : reason) : gmap string (PlatformAdapter Z) :=
  <["instagram" := rejecting r]> (<["tiktok" := answering 1000]> ∅).

Definition unchanged (connection : PlatformConnection) (data : Z) : promise ChangeSet :=
  Resolved {| profile := None |}.

Definition cached (platformId : string) (data : TransformedPlatformData)
    : promise unit :=
  Resolved tt.

(** The resolver of [ProfileSync] with the helpers of the specification. *)
Definition resolver (profile : CreatorProfile) (syncResults : list PlatformSyncResult)
    : promise ResolveOutcome :=
  ofResult
    (resolve SpecifiedHelpers.hasSignificantVariance
       SpecifiedHelpers.hasDifferentValues
       (SpecifiedHelpers.LongestValueStrategy_resolve 1)
       (fun _ _ _ => Throw "WeightedAverageStrategy is not defined")
       profile syncResults).

(** One cycle over TikTok, which answers, and Instagram, whose fetch
    rejects with the given reason. *)
Definition syncWhen (r : reason) : string -> promise SyncResult :=
  syncCreatorProfile Z (adaptersWith r) (fun _ => Resolved creator)
    (fun _ => Resolved tt) unchanged cached resolver recordedConflicts
    (fun _ => []) settledAt 3.

End Sync.

End Scenarios64.

(** * Further parts of the repository

    What follows embeds the rest of the code: the content credentials and
    the backup codes of [CreativeIdentity.ts]; of the architecture
    document, the helpers of the TikTok adapter, the priority of a webhook,
    the verification oracle network and the three Solidity contracts; and
    the shard routing of the database script.

    - A JavaScript string is a sequence of 8-bit characters.
    - A contract is a function from a call context and a storage to a
      [result]: a revert is a [Throw] and leaves the storage as it was.
      [uint256], [bytes32] and [address] values are integers; the checked
      arithmetic of Solidity 0.8 is written out. *)

(** * CreativeIdentity.ts: content credentials and backup codes *)

Module CreativeIdentityContent.

Inductive CredentialStatus :=
  | credential_verified | credential_pending | credential_disputed | credential_fake.

(** [interface AuthenticityProof], as far as the class reads it. *)
Record AuthenticityProof := {
  biometricMatch : spec_float;
  metadataConsistency : spec_float;
  overallScore : spec_float;
  riskLevel : string
}.

(** [interface ContentCredential]; the manifest is opaque to the class. *)
Record ContentCredential := {
  id : string;
  contentHash : string;
  contentType : string;
  c2paManifest : string;
  createdAt : Z;
  creatorId : string;
  originalPlatform : string;
  authenticityProof : AuthenticityProof;
  verificationStatus : CredentialStatus;
  blockchainTxHash : option string;
  ipfsHash : option string
}.

Section Operations.

Import Async.

(** The SHA-256 digest in hexadecimal, [crypto.randomUUID], the clock, the
    content authenticator (a class outside the repository) and the private
    methods that reach IPFS, the chain and the database. *)
Variable sha256Hex : string -> string.
Variable randomUUID : string.
Variable now : Z.
Variable verifyAuthenticity :
  string -> string -> string -> string -> promise AuthenticityProof.
Variable generateC2PAManifest :
  string -> string -> string -> Z -> AuthenticityProof -> promise string.
Variable storeContentMetadata : string -> string -> AuthenticityProof -> promise string.
Variable registerContentOnChain :
  string -> string -> string -> spec_float -> promise string.
Variable addContentCredential : string -> ContentCredential -> promise unit.

Definition verifyContentAuthenticity (identityId contentData contentType
    platformOrigin : string) : promise ContentCredential :=
  rethrow "Content verification failed: " (
    let contentHash := sha256Hex contentData in
    authenticityProof ←
      verifyAuthenticity contentData contentType identityId platformOrigin;
    c2paManifest ←
      generateC2PAManifest contentHash identityId contentType now authenticityProof;
    ipfsHash ← storeContentMetadata contentHash c2paManifest authenticityProof;
    blockchainTx ←
      registerContentOnChain identityId contentHash ipfsHash
        (overallScore authenticityProof);
    let credential :=
      {| id := randomUUID;
         contentHash := contentHash;
         contentType := contentType;
         c2paManifest := c2paManifest;
         createdAt := now;
         creatorId := identityId;
         originalPlatform := platformOrigin;
         authenticityProof := authenticityProof;
         verificationStatus :=
           if Binary64.gtb (overallScore authenticityProof) (Binary64.ofZ 80)
           then credential_verified else credential_pending;
         blockchainTxHash := Some blockchainTx;
         ipfsHash := Some ipfsHash |} in
    _ ← addContentCredential identityId credential;
    Resolved credential).

End Operations.

(** [Buffer.toString('hex')] and [String.toUpperCase] on its output. *)
Definition hexDigit (n : N) : ascii :=
  if (n <? 10)%N then ascii_of_N (48 + n) else ascii_of_N (87 + n).

Fixpoint toHex (bytes : list Byte.byte) : string :=
  match bytes with
  | [] => EmptyString
  | b :: rest =>
      String (hexDigit (Byte.to_N b / 16)) (String (hexDigit (Byte.to_N b mod 16))
        (toHex rest))
  end.

Definition upperChar (c : ascii) : ascii :=
  let n := N_of_ascii c in
  if (97 <=? n)%N && (n <=? 122)%N then ascii_of_N (n - 32) else c.

Fixpoint toUpperCase (s : string) : string :=
  match s with
  | EmptyString => EmptyString
  | String c rest => String (upperChar c) (toUpperCase rest)
  end.

(** [generateBackupCodes]: the loop runs for [i] from 0 to 9 and pushes one
    code per turn; [randomBytes i n] is what [crypto.randomBytes(n)] yields
    on the turn [i]. *)
Definition generateBackupCodes (randomBytes : nat -> nat -> list Byte.byte)
    : list string :=
  fold_left (fun codes i => codes ++ [toUpperCase (toHex (randomBytes i 8%nat))])
    (seq 0 10) [].

End CreativeIdentityContent.

(** * The TikTok adapter's helpers *)

Module TikTokAdapter.

(** The class [\w] of a regular expression without the unicode flag. *)
Definition isWordChar (c : ascii) : bool :=
  let n := N_of_ascii c in
  ((48 <=? n)%N && (n <=? 57)%N) || ((65 <=? n)%N && (n <=? 90)%N)
  || (n =? 95)%N || ((97 <=? n)%N && (n <=? 122)%N).

(** [[\w]+] is greedy and nothing follows it in the pattern: it takes the
    longest run of word characters.  [wordPrefix s] is that run and what
    comes after it. *)
Fixpoint wordPrefix (s : string) : string * string :=
  match s with
  | EmptyString => (EmptyString, EmptyString)
  | String c rest =>
      if isWordChar c
      then let (word, after) := wordPrefix rest in (String c word, after)
      else (EmptyString, s)
  end.

(** One attempt of [/#[\w]+/] at the start of [s]: the match and what comes
    after it. *)
Definition matchHashtag (s : string) : option (string * string) :=
  match s with
  | String "#" rest =>
      match wordPrefix rest with
      | (EmptyString, _) => None
      | (word, after) => Some (String "#" word, after)
      end
  | _ => None
  end.

(** [String.prototype.match] with the flag [g]: the pattern is tried at the
    current index; after a match the search goes on behind it, otherwise
    one character further.  No step goes back, so the length of the string
    bounds the number of steps. *)
Fixpoint matchAll (steps : nat) (s : string) : list string :=
  match steps with
  | O => []
  | S steps =>
      match matchHashtag s with
      | Some (tag, after) => tag :: matchAll steps after
      | None =>
          match s with
          | EmptyString => []
          | String _ rest => matchAll steps rest
          end
      end
  end.

(** [extractHashtags]: [description.match(/#[\w]+/g) || []]; [match] gives
    [null] when nothing matches. *)
Definition extractHashtags (description : string) : list string :=
  matchAll (S (String.length description)) description.

(** The counters of a content item that [calculateAvgPerformance] reads. *)
Record ContentItem := {
  likeCount : spec_float;
  shareCount : spec_float;
  commentCount : spec_float
}.

(** [item.likeCount + item.shareCount + item.commentCount] *)
Definition engagement (item : ContentItem) : spec_float :=
  Binary64.add (Binary64.add (likeCount item) (shareCount item)) (commentCount item).

Definition calculateAvgPerformance (content : list ContentItem) : spec_float :=
  let totalEngagement :=
    fold_left (fun sum item => Binary64.add sum (engagement item)) content
      (Binary64.ofZ 0) in
  Binary64.div totalEngagement (Binary64.ofZ (Z.of_nat (length content))).

End TikTokAdapter.

(** * The real-time service: the priority of a webhook *)

Module RealtimeSync.

(** What [priorityMap[webhookData.type] || 5] evaluates to: a number, or,
    for a key that the object literal inherits, the inherited member. *)
Inductive Priority := priority (n : Z) | inheritedMember (name : string).

Definition priorityMap : list (string * Z) :=
  [("follower_milestone", 9%Z); ("viral_content", 8%Z); ("profile_update", 7%Z);
   ("new_content", 6%Z); ("engagement_spike", 5%Z); ("metrics_update", 3%Z)].

(** The property names that every object literal inherits from
    [Object.prototype]. *)
Definition objectPrototype : list string :=
  ["constructor"; "__defineGetter__"; "__defineSetter__"; "hasOwnProperty";
   "__lookupGetter__"; "__lookupSetter__"; "isPrototypeOf";
   "propertyIsEnumerable"; "toString"; "valueOf"; "__proto__";
   "toLocaleString"].

Fixpoint ownProperty (key : string) (entries : list (string * Z)) : option Z :=
  match entries with
  | [] => None
  | (k, v) :: rest => if String.eqb k key then Some v else ownProperty key rest
  end.

(** [calculatePriority], by the [type] of the webhook data. *)
Definition calculatePriority (type : string) : Priority :=
  match ownProperty type priorityMap with
  | Some n => if (n =? 0)%Z then priority 5 else priority n
  | None =>
      if bool_decide (type ∈ objectPrototype) then inheritedMember type
      else priority 5
  end.

End RealtimeSync.

(** * The verification oracle network *)

Module OracleNetwork.

Record VerificationResult := {
  oracle : string;
  contentHash : string;
  isAuthentic : bool;
  confidence : Q;
  timestamp : Z
}.

(** What [analyzeForDeepfake] resolves to. *)
Record DeepfakeAnalysis := {
  analysis_confidence : Q;
  faceConsistency : Q;
  artificialArtifacts : Q;
  temporalConsistency : Q
}.

(** [Promise.all] over promises that may reject: the values in order, or a
    rejection (of the promises that reject, the one taken here is the first
    of the array). *)
Fixpoint all {A} (promises : list (result A)) : result (list A) :=
  match promises with
  | [] => Ok []
  | p :: rest =>
      match p with
      | Ok a => match all rest with Ok l => Ok (a :: l) | Throw m => Throw m end
      | Throw m => Throw m
      end
  end.

Section Network.

Variable ContentData : Type.

(** [Oracle.verify] *)
Definition Oracle := string -> ContentData -> result VerificationResult.

(** [DeepfakeDetectionOracle.analyzeForDeepfake], as the source has it. *)
Definition analyzeForDeepfake (contentData : ContentData) : result DeepfakeAnalysis :=
  Ok {| analysis_confidence := 0.92;
        faceConsistency := 0.95;
        artificialArtifacts := 0.03;
        temporalConsistency := 0.89 |}.

(** [DeepfakeDetectionOracle.verify], over the analysis it awaits. *)
Variable now : Z.

Definition DeepfakeDetectionOracle_verify
    (analyze : ContentData -> result DeepfakeAnalysis) : Oracle :=
  fun contentHash contentData =>
    analysis ← analyze contentData;
    Ok {| oracle := "deepfake_detection";
          contentHash := contentHash;
          isAuthentic := Qltb 0.85 (analysis_confidence analysis);
          confidence := analysis_confidence analysis;
          timestamp := now |}.

(** The three oracle classes that the document names without a body. *)
Variable MetadataAnalysisOracle_verify : Oracle.
Variable SocialVerificationOracle_verify : Oracle.
Variable ContentSimilarityOracle_verify : Oracle.

(** [initializeOracles], on the initially empty map. *)
Definition initializeOracles : gmap string Oracle :=
  <["content_similarity" := ContentSimilarityOracle_verify]>
  (<["social_verification" := SocialVerificationOracle_verify]>
  (<["metadata_analysis" := MetadataAnalysisOracle_verify]>
  (<["deepfake_detection" := DeepfakeDetectionOracle_verify analyzeForDeepfake]>
   ∅))).

(** The callback mapped over [verificationTypes]. *)
Definition verifyWith (contentHash : string) (contentData : ContentData)
    (type : string) : result (option VerificationResult) :=
  match initializeOracles !! type with
  | Some oracle => r ← oracle contentHash contentData; Ok (Some r)
  | None => Ok None
  end.

Definition aggregateResults (results : list VerificationResult)
    : list VerificationResult :=
  results.

Definition verifyContent (contentHash : string) (contentData : ContentData)
    (verificationTypes : list string) : result (list VerificationResult) :=
  oracleResults ← all (map (verifyWith contentHash contentData) verificationTypes);
  Ok (aggregateResults (omap (fun r => r) oracleResults)).

End Network.

End OracleNetwork.

(** * The contracts

    A transaction runs one external function on the storage of a contract:
    it returns the storage it leaves and the events it emits, or reverts
    (and then leaves no trace).  A mapping is a finite map that reads as the
    zero value where nothing was written. *)

Module Solidity.

Local Open Scope Z_scope.

Definition address := Z.
Definition bytes32 := Z.
Definition bytes := list Byte.byte.

Definition MAX_UINT256 : Z := 2 ^ 256 - 1.

(** [msg.sender], [msg.value] (in wei) and [block.timestamp]. *)
Record Context := {
  msg_sender : address;
  msg_value : Z;
  block_timestamp : Z
}.

(** [require(condition, reason)] *)
Definition require (condition : bool) (reason : string) : result unit :=
  if condition then Ok tt else Throw reason.

(** A function that is not [payable] reverts on a call that carries
    value. *)
Definition nonpayable (ctx : Context) : result unit :=
  require (msg_value ctx =? 0) "".

(** Arithmetic on [uint256] since 0.8: an overflow and a division by zero
    panic. *)
Definition add (a b : Z) : result Z :=
  if (a + b <=? MAX_UINT256) then Ok (a + b) else Throw "Panic(0x11)".

Definition mul (a b : Z) : result Z :=
  if (a * b <=? MAX_UINT256) then Ok (a * b) else Throw "Panic(0x11)".

Definition div (a b : Z) : result Z :=
  if (b =? 0) then Throw "Panic(0x12)" else Ok (a / b).

(** [0.01 ether] *)
Definition challengeStake : Z := 10 ^ 16.

End Solidity.

(** ** [contract CreativeIdentityRegistry]

    The contract never reads the owner that [Ownable] keeps, and
    [addContentProof], the one [nonReentrant] function, calls no other
    contract: the two inherited slots are left out. *)

Module CreativeIdentityRegistry.
Import Solidity.

Local Open Scope Z_scope.

Record ContentProof := {
  contentHash : bytes32;
  timestamp : Z;
  platformOrigin : string;
  creator : address;
  isAuthentic : bool;
  verificationScore : Z
}.

Record CreatorIdentity := {
  walletAddress : address;
  identityHash : string;
  verificationLevel : Z;
  creationTimestamp : Z;
  lastUpdateTimestamp : Z;
  isActive : bool;
  platformConnections : gmap string bool;
  contentProofs : gmap bytes32 ContentProof
}.

Record VerificationOracle := {
  oracleAddress : address;
  reputation : Z;
  oracle_isActive : bool;
  specialization : string
}.

Record Storage := {
  creators : gmap address CreatorIdentity;
  contentRegistry : gmap bytes32 ContentProof;
  verificationOracles : gmap address VerificationOracle;
  balance : Z
}.

Inductive Event :=
  | IdentityRegistered (creator : address) (identityHash : string)
  | IdentityVerified (creator : address) (verificationLevel : Z)
  | ContentProofAdded (contentHash : bytes32) (creator : address)
  | PlatformConnected (creator : address) (platform : string)
  | VerificationChallenged (contentHash : bytes32) (challenger : address).

(** The zero values, and the reads [creators[a]], [contentRegistry[h]] and
    [verificationOracles[a]]. *)
Definition noProof : ContentProof :=
  {| contentHash := 0; timestamp := 0; platformOrigin := ""; creator := 0;
     isAuthentic := false; verificationScore := 0 |}.

Definition noCreator : CreatorIdentity :=
  {| walletAddress := 0; identityHash := ""; verificationLevel := 0;
     creationTimestamp := 0; lastUpdateTimestamp := 0; isActive := false;
     platformConnections := ∅; contentProofs := ∅ |}.

Definition noOracle : VerificationOracle :=
  {| oracleAddress := 0; reputation := 0; oracle_isActive := false;
     specialization := "" |}.

Definition creatorAt (s : Storage) (a : address) : CreatorIdentity :=
  default noCreator (creators s !! a).

Definition proofAt (s : Storage) (h : bytes32) : ContentProof :=
  default noProof (contentRegistry s !! h).

Definition oracleAt (s : Storage) (a : address) : VerificationOracle :=
  default noOracle (verificationOracles s !! a).

(** The storage right after deployment. *)
Definition deployed : Storage :=
  {| creators := ∅; contentRegistry := ∅; verificationOracles := ∅; balance := 0 |}.

Section Contract.

(** [keccak256(abi.encodePacked(contentHash, platformOrigin, msg.sender))
    .toEthSignedMessageHash().recover(signature)]; the library's [recover]
    reverts on a malformed signature. *)
Variable recoverSigner : bytes32 -> string -> address -> bytes -> result address.

Definition registerCreator (ctx : Context) (_identityHash : string) (s : Storage)
    : result (Storage * list Event) :=
  _ ← nonpayable ctx;
  let sender := msg_sender ctx in
  _ ← require (negb (isActive (creatorAt s sender))) "Creator already registered";
  let registered :=
    {| walletAddress := sender;
       identityHash := _identityHash;
       verificationLevel := 10;
       creationTimestamp := block_timestamp ctx;
       lastUpdateTimestamp := block_timestamp ctx;
       isActive := true;
       platformConnections := platformConnections (creatorAt s sender);
       contentProofs := contentProofs (creatorAt s sender) |} in
  Ok ({| creators := <[sender := registered]> (creators s);
         contentRegistry := contentRegistry s;
         verificationOracles := verificationOracles s;
         balance := balance s |},
      [IdentityRegistered sender _identityHash]).

Definition addContentProof (ctx : Context) (_contentHash : bytes32)
    (_platformOrigin : string) (_signature : bytes) (s : Storage)
    : result (Storage * list Event) :=
  _ ← nonpayable ctx;
  let sender := msg_sender ctx in
  _ ← require (isActive (creatorAt s sender)) "Creator not registered";
  recoveredSigner ← recoverSigner _contentHash _platformOrigin sender _signature;
  _ ← require (recoveredSigner =? sender) "Invalid signature";
  _ ← require (timestamp (proofAt s _contentHash) =? 0)
        "Content already registered";
  let newProof :=
    {| contentHash := _contentHash;
       timestamp := block_timestamp ctx;
       platformOrigin := _platformOrigin;
       creator := sender;
       isAuthentic := true;
       verificationScore := verificationLevel (creatorAt s sender) |} in
  let owner := creatorAt s sender in
  let owner :=
    {| walletAddress := walletAddress owner;
       identityHash := identityHash owner;
       verificationLevel := verificationLevel owner;
       creationTimestamp := creationTimestamp owner;
       lastUpdateTimestamp := lastUpdateTimestamp owner;
       isActive := isActive owner;
       platformConnections := platformConnections owner;
       contentProofs := <[_contentHash := newProof]> (contentProofs owner) |} in
  Ok ({| creators := <[sender := owner]> (creators s);
         contentRegistry := <[_contentHash := newProof]> (contentRegistry s);
         verificationOracles := verificationOracles s;
         balance := balance s |},
      [ContentProofAdded _contentHash sender]).

(** [_validatePlatformProof] is [pure] and returns [true]. *)
Definition _validatePlatformProof (_creator : address) (_platform : string)
    (_proof : bytes) : bool :=
  true.

Definition verifyPlatformConnection (ctx : Context) (_creator : address)
    (_platform : string) (_platformProof : bytes) (s : Storage)
    : result (Storage * list Event) :=
  _ ← nonpayable ctx;
  _ ← require (oracle_isActive (oracleAt s (msg_sender ctx))) "Not authorized oracle";
  _ ← require (isActive (creatorAt s _creator)) "Creator not registered";
  let isValid := _validatePlatformProof _creator _platform _platformProof in
  _ ← require isValid "Invalid platform proof";
  let connected := creatorAt s _creator in
  level ← add (verificationLevel connected) 10;
  let connected :=
    {| walletAddress := walletAddress connected;
       identityHash := identityHash connected;
       verificationLevel := level;
       creationTimestamp := creationTimestamp connected;
       lastUpdateTimestamp := block_timestamp ctx;
       isActive := isActive connected;
       platformConnections := <[_platform := true]> (platformConnections connected);
       contentProofs := contentProofs connected |} in
  Ok ({| creators := <[_creator := connected]> (creators s);
         contentRegistry := contentRegistry s;
         verificationOracles := verificationOracles s;
         balance := balance s |},
      [PlatformConnected _creator _platform]).

(** [_initiateVerificationProcess] has an empty body.  The value sent with
    the call is the contract's from then on. *)
Definition challengeContent (ctx : Context) (_contentHash : bytes32) (s : Storage)
    : result (Storage * list Event) :=
  _ ← require (challengeStake <=? msg_value ctx) "Insufficient challenge stake";
  _ ← require (isAuthentic (proofAt s _contentHash))
        "Content not verified as authentic";
  Ok ({| creators := creators s;
         contentRegistry := contentRegistry s;
         verificationOracles := verificationOracles s;
         balance := balance s + msg_value ctx |},
      [VerificationChallenged _contentHash (msg_sender ctx)]).

(** The view functions. *)
Definition getCreatorVerificationLevel (s : Storage) (_creator : address) : Z :=
  verificationLevel (creatorAt s _creator).

Definition isContentAuthentic (s : Storage) (_contentHash : bytes32) : bool * Z :=
  let proof := proofAt s _contentHash in
  (isAuthentic proof, verificationScore proof).

Definition isPlatformConnected (s : Storage) (_creator : address)
    (_platform : string) : bool :=
  default false (platformConnections (creatorAt s _creator) !! _platform).

(** The external functions that change the state, and the states that a
    sequence of transactions reaches from the deployment. *)
Inductive Call :=
  | call_registerCreator (_identityHash : string)
  | call_addContentProof (_contentHash : bytes32) (_platformOrigin : string)
      (_signature : bytes)
  | call_verifyPlatformConnection (_creator : address) (_platform : string)
      (_platformProof : bytes)
  | call_challengeContent (_contentHash : bytes32).

Definition execute (ctx : Context) (call : Call) (s : Storage)
    : result (Storage * list Event) :=
  match call with
  | call_registerCreator h => registerCreator ctx h s
  | call_addContentProof h origin signature =>
      addContentProof ctx h origin signature s
  | call_verifyPlatformConnection c platform proof =>
      verifyPlatformConnection ctx c platform proof s
  | call_challengeContent h => challengeContent ctx h s
  end.

Inductive reachable : Storage -> Prop :=
  | reachable_deployed : reachable deployed
  | reachable_step s ctx call s' events :
      reachable s -> 0 <= msg_value ctx ->
      execute ctx call s = Ok (s', events) -> reachable s'.

End Contract.

(** What holds of every state that transactions reach: no oracle was ever
    written, a creator that was written is active at the base level with
    no platform, and a proof that was written carries that level. *)
Definition invariant (s : Storage) : Prop :=
  verificationOracles s = ∅ /\
  (forall a c, creators s !! a = Some c ->
     isActive c = true /\ verificationLevel c = 10 /\ platformConnections c = ∅) /\
  (forall h p, contentRegistry s !! h = Some p ->
     isAuthentic p = true /\ verificationScore p = 10).

End CreativeIdentityRegistry.

(** ** [contract ContentAuthenticityEngine] *)

Module ContentAuthenticityEngine.
Import Solidity.

Local Open Scope Z_scope.

Record AuthenticityProof := {
  contentHash : bytes32;
  metadataHash : bytes32;
  creator : address;
  creationTimestamp : Z;
  verificationMethods : list string;
  confidenceScore : Z;
  isVerified : bool
}.

Record VerificationOracle := {
  oracle : address;
  specialty : string;
  accuracy : Z;
  totalVerifications : Z
}.

Record Storage := {
  authenticityProofs : gmap bytes32 AuthenticityProof;
  oracles : gmap address VerificationOracle;
  oracleVotes : gmap (bytes32 * address) bool;
  oracleVoteCount : gmap bytes32 Z
}.

Inductive Event :=
  | AuthenticityProofSubmitted (contentHash : bytes32) (creator : address)
  | OracleVerification (contentHash : bytes32) (oracle : address) (authentic : bool)
  | AuthenticityConfirmed (contentHash : bytes32) (confidenceScore : Z).

Definition noProof : AuthenticityProof :=
  {| contentHash := 0; metadataHash := 0; creator := 0; creationTimestamp := 0;
     verificationMethods := []; confidenceScore := 0; isVerified := false |}.

Definition noOracle : VerificationOracle :=
  {| oracle := 0; specialty := ""; accuracy := 0; totalVerifications := 0 |}.

Definition proofAt (s : Storage) (h : bytes32) : AuthenticityProof :=
  default noProof (authenticityProofs s !! h).

Definition oracleAt (s : Storage) (a : address) : VerificationOracle :=
  default noOracle (oracles s !! a).

Definition votedAt (s : Storage) (h : bytes32) (a : address) : bool :=
  default false (oracleVotes s !! (h, a)).

Definition votesAt (s : Storage) (h : bytes32) : Z :=
  default 0 (oracleVoteCount s !! h).

Definition deployed : Storage :=
  {| authenticityProofs := ∅; oracles := ∅; oracleVotes := ∅;
     oracleVoteCount := ∅ |}.

Definition submitForVerification (ctx : Context) (_contentHash _metadataHash : bytes32)
    (_verificationMethods : list string) (s : Storage)
    : result (Storage * list Event) :=
  _ ← nonpayable ctx;
  _ ← require (contentHash (proofAt s _contentHash) =? 0) "Already submitted";
  let submitted :=
    {| contentHash := _contentHash;
       metadataHash := _metadataHash;
       creator := msg_sender ctx;
       creationTimestamp := block_timestamp ctx;
       verificationMethods := _verificationMethods;
       confidenceScore := 0;
       isVerified := false |} in
  Ok ({| authenticityProofs := <[_contentHash := submitted]> (authenticityProofs s);
         oracles := oracles s;
         oracleVotes := oracleVotes s;
         oracleVoteCount := oracleVoteCount s |},
      [AuthenticityProofSubmitted _contentHash (msg_sender ctx)]).

Definition _finalizeVerification (_contentHash : bytes32) (s : Storage)
    : Storage * list Event :=
  let proof := proofAt s _contentHash in
  let proof :=
    {| contentHash := contentHash proof;
       metadataHash := metadataHash proof;
       creator := creator proof;
       creationTimestamp := creationTimestamp proof;
       verificationMethods := verificationMethods proof;
       confidenceScore := 85;
       isVerified := true |} in
  ({| authenticityProofs := <[_contentHash := proof]> (authenticityProofs s);
      oracles := oracles s;
      oracleVotes := oracleVotes s;
      oracleVoteCount := oracleVoteCount s |},
   [AuthenticityConfirmed _contentHash 85]).

Definition verifyContent (ctx : Context) (_contentHash : bytes32) (_authentic : bool)
    (_confidenceScore : Z) (_analysis : string) (s : Storage)
    : result (Storage * list Event) :=
  _ ← nonpayable ctx;
  let sender := msg_sender ctx in
  _ ← require (negb (oracle (oracleAt s sender) =? 0)) "Not authorized oracle";
  _ ← require (negb (contentHash (proofAt s _contentHash) =? 0))
        "Content not submitted";
  _ ← require (negb (votedAt s _contentHash sender)) "Already voted";
  votes ← add (votesAt s _contentHash) 1;
  verifications ← add (totalVerifications (oracleAt s sender)) 1;
  let voter :=
    {| oracle := oracle (oracleAt s sender);
       specialty := specialty (oracleAt s sender);
       accuracy := accuracy (oracleAt s sender);
       totalVerifications := verifications |} in
  let s :=
    {| authenticityProofs := authenticityProofs s;
       oracles := <[sender := voter]> (oracles s);
       oracleVotes := <[(_contentHash, sender) := true]> (oracleVotes s);
       oracleVoteCount := <[_contentHash := votes]> (oracleVoteCount s) |} in
  let voted := [OracleVerification _contentHash sender _authentic] in
  if 3 <=? votesAt s _contentHash then
    let (s, confirmed) := _finalizeVerification _contentHash s in
    Ok (s, voted ++ confirmed)
  else Ok (s, voted).

Inductive Call :=
  | call_submitForVerification (_contentHash _metadataHash : bytes32)
      (_verificationMethods : list string)
  | call_verifyContent (_contentHash : bytes32) (_authentic : bool)
      (_confidenceScore : Z) (_analysis : string).

Definition execute (ctx : Context) (call : Call) (s : Storage)
    : result (Storage * list Event) :=
  match call with
  | call_submitForVerification h m methods => submitForVerification ctx h m methods s
  | call_verifyContent h authentic score analysis =>
      verifyContent ctx h authentic score analysis s
  end.

Inductive reachable : Storage -> Prop :=
  | reachable_deployed : reachable deployed
  | reachable_step s ctx call s' events :
      reachable s -> execute ctx call s = Ok (s', events) -> reachable s'.

(** What holds of every state that transactions reach. *)
Definition invariant (s : Storage) : Prop :=
  oracles s = ∅ /\
  forall h p, authenticityProofs s !! h = Some p ->
    contentHash p = h /\ isVerified p = false /\ confidenceScore p = 0.

End ContentAuthenticityEngine.

(** ** [contract CreatorReputationSystem] *)

Module CreatorReputationSystem.
Import Solidity.

Local Open Scope Z_scope.

Record ReputationScore := {
  authenticityScore : Z;
  collaborationScore : Z;
  communityScore : Z;
  consistencyScore : Z;
  totalScore : Z;
  lastUpdated : Z;
  totalInteractions : Z
}.

Record CollaborationRecord := {
  collaborator : address;
  projectHash : bytes32;
  rating : Z;
  feedback : string;
  timestamp : Z
}.

Record Storage := {
  reputationScores : gmap address ReputationScore;
  collaborationHistory : gmap address (list CollaborationRecord);
  hasRated : gmap (address * address) bool
}.

Inductive Event :=
  | ReputationUpdated (creator : address) (newScore : Z)
  | CollaborationRated (creator rater : address) (rating : Z).

Definition noScore : ReputationScore :=
  {| authenticityScore := 0; collaborationScore := 0; communityScore := 0;
     consistencyScore := 0; totalScore := 0; lastUpdated := 0;
     totalInteractions := 0 |}.

Definition scoreAt (s : Storage) (a : address) : ReputationScore :=
  default noScore (reputationScores s !! a).

Definition historyAt (s : Storage) (a : address) : list CollaborationRecord :=
  default [] (collaborationHistory s !! a).

Definition ratedAt (s : Storage) (creator rater : address) : bool :=
  default false (hasRated s !! (creator, rater)).

Definition deployed : Storage :=
  {| reputationScores := ∅; collaborationHistory := ∅; hasRated := ∅ |}.

Definition set_score (a : address) (rep : ReputationScore) (s : Storage) : Storage :=
  {| reputationScores := <[a := rep]> (reputationScores s);
     collaborationHistory := collaborationHistory s;
     hasRated := hasRated s |}.

Section Contract.

(** The contract names [authenticityContract] without declaring it: it is
    taken as a constant address. *)
Variable authenticityContract : address.

Definition _recalculateTotal (ctx : Context) (_creator : address) (s : Storage)
    : result (Storage * list Event) :=
  let rep := scoreAt s _creator in
  a ← mul (authenticityScore rep) 40;
  b ← mul (collaborationScore rep) 25;
  ab ← add a b;
  c ← mul (communityScore rep) 20;
  abc ← add ab c;
  d ← mul (consistencyScore rep) 15;
  abcd ← add abc d;
  total ← div abcd 100;
  let rep :=
    {| authenticityScore := authenticityScore rep;
       collaborationScore := collaborationScore rep;
       communityScore := communityScore rep;
       consistencyScore := consistencyScore rep;
       totalScore := total;
       lastUpdated := block_timestamp ctx;
       totalInteractions := totalInteractions rep |} in
  Ok (set_score _creator rep s, [ReputationUpdated _creator total]).

Definition updateAuthenticityScore (ctx : Context) (_creator : address) (_score : Z)
    (s : Storage) : result (Storage * list Event) :=
  _ ← nonpayable ctx;
  _ ← require (msg_sender ctx =? authenticityContract) "Unauthorized";
  let rep := scoreAt s _creator in
  let rep :=
    {| authenticityScore := _score;
       collaborationScore := collaborationScore rep;
       communityScore := communityScore rep;
       consistencyScore := consistencyScore rep;
       totalScore := totalScore rep;
       lastUpdated := block_timestamp ctx;
       totalInteractions := totalInteractions rep |} in
  _recalculateTotal ctx _creator (set_score _creator rep s).

(** The loop [totalRating += history[i].rating]. *)
Definition addRating (totalRating : result Z) (record : CollaborationRecord)
    : result Z :=
  totalRating ← totalRating;
  add totalRating (rating record).

Definition _updateCollaborationScore (ctx : Context) (_creator : address)
    (s : Storage) : result (Storage * list Event) :=
  let history := historyAt s _creator in
  if (length history =? 0)%nat then Ok (s, [])
  else
    totalRating ← fold_left addRating history (Ok 0);
    scaled ← mul totalRating 1000;
    stars ← mul (Z.of_nat (length history)) 5;
    avgRating ← div scaled stars;
    let rep := scoreAt s _creator in
    let rep :=
      {| authenticityScore := authenticityScore rep;
         collaborationScore := avgRating;
         communityScore := communityScore rep;
         consistencyScore := consistencyScore rep;
         totalScore := totalScore rep;
         lastUpdated := lastUpdated rep;
         totalInteractions := totalInteractions rep |} in
    _recalculateTotal ctx _creator (set_score _creator rep s).

Definition rateCollaboration (ctx : Context) (_creator : address)
    (_projectHash : bytes32) (_rating : Z) (_feedback : string) (s : Storage)
    : result (Storage * list Event) :=
  _ ← nonpayable ctx;
  _ ← require ((1 <=? _rating) && (_rating <=? 5)) "Invalid rating";
  _ ← require (negb (ratedAt s _creator (msg_sender ctx))) "Already rated";
  let record :=
    {| collaborator := msg_sender ctx;
       projectHash := _projectHash;
       rating := _rating;
       feedback := _feedback;
       timestamp := block_timestamp ctx |} in
  let s :=
    {| reputationScores := reputationScores s;
       collaborationHistory :=
         <[_creator := historyAt s _creator ++ [record]]> (collaborationHistory s);
       hasRated := <[(_creator, msg_sender ctx) := true]> (hasRated s) |} in
  '(s, updated) ← _updateCollaborationScore ctx _creator s;
  Ok (s, updated ++ [CollaborationRated _creator (msg_sender ctx) _rating]).

Inductive Call :=
  | call_updateAuthenticityScore (_creator : address) (_score : Z)
  | call_rateCollaboration (_creator : address) (_projectHash : bytes32)
      (_rating : Z) (_feedback : string).

Definition execute (ctx : Context) (call : Call) (s : Storage)
    : result (Storage * list Event) :=
  match call with
  | call_updateAuthenticityScore c score => updateAuthenticityScore ctx c score s
  | call_rateCollaboration c project rating feedback =>
      rateCollaboration ctx c project rating feedback s
  end.

(** A [uint256] argument is a number from 0 to [MAX_UINT256]. *)
Definition wellFormed (call : Call) : Prop :=
  match call with
  | call_updateAuthenticityScore _ score => 0 <= score <= MAX_UINT256
  | call_rateCollaboration _ _ rating _ => 0 <= rating <= MAX_UINT256
  end.

Inductive reachable : Storage -> Prop :=
  | reachable_deployed : reachable deployed
  | reachable_step s ctx call s' events :
      reachable s -> wellFormed call ->
      execute ctx call s = Ok (s', events) -> reachable s'.

End Contract.

(** The sum of the ratings of a history. *)
Definition ratingSum (history : list CollaborationRecord) : Z :=
  fold_right (fun record sum => rating record + sum) 0 history.

(** What holds of every state that transactions reach, creator by
    creator. *)
Definition invariant (s : Storage) : Prop :=
  forall a,
    let rep := scoreAt s a in
    let history := historyAt s a in
    Forall (fun record => 1 <= rating record <= 5) history /\
    NoDup (map collaborator history) /\
    (forall rater, ratedAt s a rater = true <-> rater ∈ map collaborator history) /\
    collaborationScore rep
    = (if decide (history = []) then 0
       else ratingSum history * 1000 / (Z.of_nat (length history) * 5)) /\
    communityScore rep = 0 /\ consistencyScore rep = 0 /\
    totalInteractions rep = 0 /\
    totalScore rep
    = (authenticityScore rep * 40 + collaborationScore rep * 25) / 100.

End CreatorReputationSystem.

(** * The shard of a user *)

Module Sharding.

Local Open Scope Z_scope.

(** [bits::bit(32)::int]: the 32 bits read as a signed integer. *)
Definition bit32_to_int (bits : Z) : Z :=
  if bits <? 2 ^ 31 then bits else bits - 2 ^ 32.

Section Shards.

(** The first eight hexadecimal digits of [md5(user_uuid::text)], as a
    number. *)
Variable md5_prefix : string -> Z.

Definition get_user_shard (user_uuid : string) : Z :=
  bit32_to_int (md5_prefix user_uuid).

Definition get_shard_connection (user_uuid : string) : string :=
  let shard_key := get_user_shard user_uuid in
  if (0 <=? shard_key) && (shard_key <=? 536870911) then "shard_01"
  else if (536870912 <=? shard_key) && (shard_key <=? 1073741823) then "shard_02"
  else if (1073741824 <=? shard_key) && (shard_key <=? 1610612735) then "shard_03"
  else "shard_04".

End Shards.

End Sharding.


(** * Notions used by the further statements *)

Module MoreStatements.

(** The methods that count, and the weight they could bring at most. *)
Definition verifiedOnly (methods : list CreativeIdentity.VerificationMethod)
    : list CreativeIdentity.VerificationMethod :=
  filter (fun m => Is_true (Specification.isVerified m)) methods.



(** The requests of a creation whose connection succeeds. *)
Definition connectedRequests
    (connectPlatform : string -> CreativeIdentity.PlatformConnectionRequest
                       -> result CreativeIdentity.PlatformConnection)
    (identityId : string)
    (platforms : list CreativeIdentity.PlatformConnectionRequest)
    : list CreativeIdentity.PlatformConnectionRequest :=
  filter (fun p => Is_true (succeeded (connectPlatform identityId p))) platforms.

(** The counters of a content item are numbers that are not negative. *)
Definition countsNotNegative (item : TikTokAdapter.ContentItem) : Prop :=
  Binary64.notNegative (TikTokAdapter.likeCount item) = true /\
  Binary64.notNegative (TikTokAdapter.shareCount item) = true /\
  Binary64.notNegative (TikTokAdapter.commentCount item) = true.

(** The characters of an upper-case hexadecimal numeral. *)
Definition isUpperHex (c : ascii) : bool :=
  let n := N_of_ascii c in
  ((48 <=? n)%N && (n <=? 57)%N) || ((65 <=? n)%N && (n <=? 70)%N).

Fixpoint allChars (p : ascii -> bool) (s : string) : bool :=
  match s with
  | EmptyString => true
  | String c rest => p c && allChars p rest
  end.

(** The connections that [syncCreatorProfile] synchronises: those with a
    registered adapter and the status connected. *)
Definition synchronised {A} (platformAdapters : gmap string A)
    (connection : ProfileSync.PlatformConnection) : bool :=
  match platformAdapters !! ProfileSync.connection_platformId connection,
        ProfileSync.connectionStatus connection with
  | Some _, ProfileSync.connected => true
  | _, _ => false
  end.

(** The value [latest.count || latest.value] of a follower entry. *)
Definition truthyCount (n : Z) : ProfileSync.JsValue :=
  if (n =? 0)%Z then ProfileSync.JsUndefined else ProfileSync.JsNumber n.

(** The four awaited steps of [syncWithPlatform] all return. *)
Definition stepsReturn {PlatformProfileData : Type}
    (detectChanges : ProfileSync.PlatformConnection -> PlatformProfileData
                     -> result ProfileSync.ChangeSet)
    (updatePlatformCache : string -> ProfileSync.TransformedPlatformData
                           -> result unit)
    (connection : ProfileSync.PlatformConnection)
    (adapter : ProfileSync.PlatformAdapter PlatformProfileData) : Prop :=
  exists data changed transformed,
    ProfileSync.fetchProfileData _ adapter connection = Ok data /\
    detectChanges connection data = Ok changed /\
    ProfileSync.transformData _ adapter data = Ok transformed /\
    updatePlatformCache (ProfileSync.connection_platformId connection) transformed
    = Ok tt.

Fixpoint countChar (c : ascii) (s : string) : nat :=
  match s with
  | EmptyString => 0
  | String c' rest => (if Ascii.eqb c c' then 1 else 0) + countChar c rest
  end.

(** A text is the mark [#] followed by at least one word character, and
    by word characters only. *)
Definition isHashtag (tag : string) : Prop :=
  exists c word,
    tag = String "#" (String c word) /\
    TikTokAdapter.isWordChar c = true /\
    allChars TikTokAdapter.isWordChar word = true.

(** A description has the mark [#] directly followed by a word character. *)
Definition hasHashtag (description : string) : Prop :=
  exists before c after,
    description = before +:+ String "#" (String c after) /\
    TikTokAdapter.isWordChar c = true.

(** The requested verification types that have an oracle. *)
Definition served {A} (oracles : gmap string A) (types : list string)
    : list string :=
  filter (fun type => is_Some (oracles !! type)) types.

(** The storage that a transaction leaves, if it does not revert. *)
Definition storageOf {S E} (r : result (S * E)) : option S :=
  match r with
  | Ok (s, _) => Some s
  | Throw _ => None
  end.

End MoreStatements.

(** * Further concrete inputs *)

Module MoreScenarios.

Module Identity.
Import CreativeIdentity Scenarios.Identity.

Definition youtubeRequest : PlatformConnectionRequest :=
  {| platformId := "youtube"; authorizationCode := "code";
     redirectUri := "https://example.org/callback" |}.

Definition twoPlatforms : CreateIdentityRequest :=
  request (Some [tiktokRequest; youtubeRequest]).

Definition connectionTo (p : string) : PlatformConnection :=
  {| connection_platformId := p; username := "creator"; userId := "42";
     connectedAt := 1000; lastSyncAt := 1000 |}.

(** What [create 0.95] returns for [twoPlatforms] when both platforms
    connect, and when the connector is the one of the source. *)
Definition createdIdentity (level : Z) (platforms : gmap string PlatformConnection)
    : UniversalCreativeID :=
  {| id := "uci_0000000000000000"; version := 1; createdAt := 1000;
     updatedAt := 1000; identity_status := identity_pending;
     biometricHash := "hash"; walletAddress := "0xabc"; publicKey := "0xsigner";
     verificationLevel := level;
     verificationMethods := [Statements.biometricMethod twoPlatforms 0.95 1000];
     connectedPlatforms := platforms; contentCredentials := [];
     authenticityScore := 10 |}.

Definition responseWith (i : UniversalCreativeID) : CreateIdentityResponse :=
  {| identity := i; transactionHash := "0x7a"; contractAddress := "0xc0";
     qrCode := "qr"; backupCodes := ["BACKUP"] |}.

Definition connectedResponse : CreateIdentityResponse :=
  responseWith
    (createdIdentity 30
       (<["youtube" := connectionTo "youtube"]>
          (<["tiktok" := connectionTo "tiktok"]> ∅))).

Definition bareResponse : CreateIdentityResponse :=
  responseWith (createdIdentity 10 ∅).



(** A random source that yields zero bytes. *)
Definition zeroBytes (turn n : nat) : list Byte.byte := repeat Byte.x00 n.

End Identity.

Module Sync.
Import ProfileSync Scenarios.Sync.

(** The engine of [Scenarios.Sync] when every fetch comes with a changed
    bio. *)
Definition bioChanged (connection : PlatformConnection) (data : Z)
    : result ChangeSet :=
  Ok {| profile := Some {| bio := Some "Painter of seas" |} |}.

Definition tiktokBio : ConflictValue :=
  {| platform := "tiktok"; count := None; value_bio := Some "Painter of seas";
     value := None; timestamp := 1 |}.

Definition acceptCache (platformId : string) (data : TransformedPlatformData)
    : result unit :=
  Ok tt.

Definition instagramLatest : PlatformSyncResult :=
  reported "instagram" (Some 1400%Z) None 2.

(** Two videos and their counters. *)
Definition videos : list TikTokAdapter.ContentItem :=
  [ {| TikTokAdapter.likeCount := Binary64.ofZ 10;
       TikTokAdapter.shareCount := Binary64.ofZ 2;
       TikTokAdapter.commentCount := Binary64.ofZ 3 |};
    {| TikTokAdapter.likeCount := Binary64.ofZ 4;
       TikTokAdapter.shareCount := Binary64.ofZ 0;
       TikTokAdapter.commentCount := Binary64.ofZ 1 |} ].

End Sync.

Module Contracts.
Import Solidity.

Local Open Scope Z_scope.

Definition alice : address := 1.
Definition bob : address := 2.

Definition call (sender : address) (value time : Z) : Context :=
  {| msg_sender := sender; msg_value := value; block_timestamp := time |}.

(** A signature check that every signature passes. *)
Definition anySignature (h : bytes32) (origin : string) (sender : address)
    (signature : bytes) : result address :=
  Ok sender.

(** The registry after alice has registered, and after she has added the
    proof of the content 7. *)
Definition aliceIdentity (proofs : gmap bytes32 CreativeIdentityRegistry.ContentProof)
    : CreativeIdentityRegistry.CreatorIdentity :=
  {| CreativeIdentityRegistry.walletAddress := alice;
     CreativeIdentityRegistry.identityHash := "QmAlice";
     CreativeIdentityRegistry.verificationLevel := 10;
     CreativeIdentityRegistry.creationTimestamp := 100;
     CreativeIdentityRegistry.lastUpdateTimestamp := 100;
     CreativeIdentityRegistry.isActive := true;
     CreativeIdentityRegistry.platformConnections := ∅;
     CreativeIdentityRegistry.contentProofs := proofs |}.

Definition registered : CreativeIdentityRegistry.Storage :=
  {| CreativeIdentityRegistry.creators := <[alice := aliceIdentity ∅]> ∅;
     CreativeIdentityRegistry.contentRegistry := ∅;
     CreativeIdentityRegistry.verificationOracles := ∅;
     CreativeIdentityRegistry.balance := 0 |}.

Definition proof7 : CreativeIdentityRegistry.ContentProof :=
  {| CreativeIdentityRegistry.contentHash := 7;
     CreativeIdentityRegistry.timestamp := 200;
     CreativeIdentityRegistry.platformOrigin := "tiktok";
     CreativeIdentityRegistry.creator := alice;
     CreativeIdentityRegistry.isAuthentic := true;
     CreativeIdentityRegistry.verificationScore := 10 |}.

Definition withProof : CreativeIdentityRegistry.Storage :=
  {| CreativeIdentityRegistry.creators :=
       <[alice := aliceIdentity (<[7 := proof7]> ∅)]> (<[alice := aliceIdentity ∅]> ∅);
     CreativeIdentityRegistry.contentRegistry := <[7 := proof7]> ∅;
     CreativeIdentityRegistry.verificationOracles := ∅;
     CreativeIdentityRegistry.balance := 0 |}.

(** The authenticity engine after alice has submitted the content 7. *)
Definition submitted : ContentAuthenticityEngine.Storage :=
  {| ContentAuthenticityEngine.authenticityProofs :=
       <[7 := {| ContentAuthenticityEngine.contentHash := 7;
                 ContentAuthenticityEngine.metadataHash := 8;
                 ContentAuthenticityEngine.creator := alice;
                 ContentAuthenticityEngine.creationTimestamp := 100;
                 ContentAuthenticityEngine.verificationMethods :=
                   ["camera_signature"];
                 ContentAuthenticityEngine.confidenceScore := 0;
                 ContentAuthenticityEngine.isVerified := false |}]> ∅;
     ContentAuthenticityEngine.oracles := ∅;
     ContentAuthenticityEngine.oracleVotes := ∅;
     ContentAuthenticityEngine.oracleVoteCount := ∅ |}.

(** A hash whose first eight digits are b2d05e00. *)
Definition prefixOf (user_uuid : string) : Z := 3000000000.

End Contracts.

End MoreScenarios.

(** * The verification level *)

Section VerificationLevel.

Import CreativeIdentity Specification Statements Scenarios.Identity.


End VerificationLevel.

(** * Doubles: rounding keeps sign, validity and order *)

Section Doubles.
Local Open Scope Z_scope.

Local Abbreviation prec := 53.
Local Abbreviation emax := 1024.

Lemma digits2_size m : digits2_pos m = Pos.size m.
Proof. induction m; cbn; congruence. Qed.

Lemma digits_bounds (m : positive) :
  2 ^ (Z.pos (digits2_pos m) - 1) <= Z.pos m < 2 ^ Z.pos (digits2_pos m).
Proof.
  rewrite digits2_size. split.
  - pose proof (Pos.size_le m) as H.
    assert (Z.pos (2 ^ Pos.size m) <= Z.pos m~0) as H' by exact H.
    rewrite Pos2Z.inj_pow in H'.
    replace (Z.pos (Pos.size m)) with (Z.succ (Z.pos (Pos.size m) - 1)) in H' by lia.
    rewrite Z.pow_succ_r in H' by lia. lia.
  - pose proof (Pos.size_gt m) as H.
    assert (Z.pos m < Z.pos (2 ^ Pos.size m)) as H' by exact H.
    rewrite Pos2Z.inj_pow in H'. exact H'.
Qed.

Lemma digits_unique (m : positive) d :
  2 ^ (d - 1) <= Z.pos m < 2 ^ d -> Z.pos (digits2_pos m) = d.
Proof.
  intros [Hl Hu]. destruct (digits_bounds m) as [Hl' Hu'].
  assert (0 < d).
  { destruct (Z.lt_trichotomy 0 d) as [?|[<-|Hn]]; [assumption|cbn in Hu; lia|].
    rewrite Z.pow_neg_r in Hu by lia. lia. }
  assert (d - 1 < Z.pos (digits2_pos m)).
  { apply (Z.pow_lt_mono_r_iff 2); lia. }
  assert (Z.pos (digits2_pos m) - 1 < d).
  { apply (Z.pow_lt_mono_r_iff 2); lia. }
  lia.
Qed.

Lemma shr_1_m r : 0 <= shr_m r -> shr_m (shr_1 r) = shr_m r / 2.
Proof.
  destruct r as [m r s]. cbn [shr_m]. intros H.
  destruct m as [|[p|p|]|p]; cbn [shr_1 shr_m]; try lia; try reflexivity.
  - apply Z.div_unique with 1; lia.
  - apply Z.div_unique with 0; lia.
Qed.

Lemma shr_1_nonneg r : 0 <= shr_m r -> 0 <= shr_m (shr_1 r).
Proof.
  intros H. rewrite shr_1_m by exact H. apply Z.div_pos; lia.
Qed.

Lemma iter_shr_1_nonneg p : forall r,
  0 <= shr_m r -> 0 <= shr_m (SpecFloat.iter_pos shr_1 p r).
Proof.
  induction p as [p IH|p IH|]; intros r H; cbn [SpecFloat.iter_pos];
    auto using shr_1_nonneg.
Qed.

Lemma pow2_xI (p : positive) : 2 ^ Z.pos p~1 = 2 * 2 ^ Z.pos p * 2 ^ Z.pos p.
Proof.
  replace (Z.pos p~1) with (1 + Z.pos p + Z.pos p) by lia.
  rewrite !Z.pow_add_r by lia. reflexivity.
Qed.

Lemma pow2_xO (p : positive) : 2 ^ Z.pos p~0 = 2 ^ Z.pos p * 2 ^ Z.pos p.
Proof.
  replace (Z.pos p~0) with (Z.pos p + Z.pos p) by lia.
  rewrite !Z.pow_add_r by lia. reflexivity.
Qed.

Lemma iter_shr_1_m p : forall r,
  0 <= shr_m r -> shr_m (SpecFloat.iter_pos shr_1 p r) = shr_m r / 2 ^ Z.pos p.
Proof.
  induction p as [p IH|p IH|]; intros r H; cbn [SpecFloat.iter_pos].
  - rewrite IH by auto using iter_shr_1_nonneg, shr_1_nonneg.
    rewrite IH by auto using shr_1_nonneg.
    rewrite shr_1_m by exact H.
    rewrite !Z.div_div by (try apply Z.pow_pos_nonneg; lia).
    rewrite pow2_xI. f_equal. lia.
  - rewrite IH by auto using iter_shr_1_nonneg.
    rewrite IH by exact H.
    rewrite !Z.div_div by (try apply Z.pow_pos_nonneg; lia).
    rewrite pow2_xO. reflexivity.
  - rewrite shr_1_m by exact H. reflexivity.
Qed.

(** Shifting by [n] when [0 <= n]: the mantissa is divided by [2 ^ n] and
    the exponent raised by [n]. *)
Lemma shr_spec r e n :
  0 <= shr_m r -> 0 <= n ->
  shr_m (fst (shr r e n)) = shr_m r / 2 ^ n /\ snd (shr r e n) = e + n.
Proof.
  intros Hm Hn. destruct n as [|p|p]; cbn [shr fst snd]; try lia.
  - rewrite Z.div_1_r. lia.
  - rewrite iter_shr_1_m by exact Hm. lia.
Qed.

Lemma round_nearest_even_bounds m l :
  m <= round_nearest_even m l <= m + 1.
Proof.
  destruct l as [|[]]; cbn; try lia. destruct (Z.even m); lia.
Qed.

Lemma shr_m_of_loc m l : shr_m (shr_record_of_loc m l) = m.
Proof. destruct l as [|[]]; reflexivity. Qed.

Lemma fexp_eq x : fexp prec emax x = Z.max (x - 53) (-1074).
Proof. reflexivity. Qed.

Lemma digits_le (q : positive) k : Z.pos q < 2 ^ k -> Z.pos (digits2_pos q) <= k.
Proof.
  intros H. destruct (digits_bounds q) as [Hl _].
  assert (Z.pos (digits2_pos q) - 1 < k); [|lia].
  destruct (Z.le_gt_cases 0 k) as [Hk|Hk].
  - apply (Z.pow_lt_mono_r_iff 2); lia.
  - rewrite Z.pow_neg_r in H by lia. lia.
Qed.

(** Rounding an exact mantissa that needs no shift to the left: the result
    has the sign asked for and is a valid double, and its value is at least
    the truncated one. *)
Lemma round_exact_shape s (m : positive) e :
  e <= fexp prec emax (Z.pos (digits2_pos m) + e) ->
  match binary_round_aux prec emax s (Z.pos m) e loc_Exact with
  | S754_zero s' =>
      s' = s /\ Z.pos m / 2 ^ (fexp prec emax (Z.pos (digits2_pos m) + e) - e) = 0
  | S754_infinity s' => s' = s
  | S754_nan => False
  | S754_finite s' m3 e3 =>
      s' = s /\ bounded prec emax m3 e3 = true /\
      fexp prec emax (Z.pos (digits2_pos m) + e) <= e3 /\
      Z.pos m / 2 ^ (fexp prec emax (Z.pos (digits2_pos m) + e) - e)
      <= Z.pos m3 * 2 ^ (e3 - fexp prec emax (Z.pos (digits2_pos m) + e))
  end.
Proof.
  remember (Z.pos (digits2_pos m)) as d eqn:Hd.
  remember (fexp prec emax (d + e)) as E eqn:HE. rewrite fexp_eq in HE.
  intros Hn. unfold binary_round_aux.
  destruct (shr_fexp prec emax (Z.pos m) e loc_Exact) as [mrs1 e1] eqn:H1.
  unfold shr_fexp in H1. cbn [Zdigits2 shr_record_of_loc] in H1.
  rewrite <- Hd, fexp_eq, <- HE in H1.
  destruct (shr_spec {| shr_m := Z.pos m; shr_r := false; shr_s := false |} e (E - e))
    as [Hm1 He1]; [cbn; lia | lia |].
  rewrite H1 in Hm1, He1. cbn [fst snd shr_m] in Hm1, He1.
  replace (e + (E - e)) with E in He1 by lia. subst e1. clear H1.
  remember (Z.pos m / 2 ^ (E - e)) as m1 eqn:Hm1def.
  pose proof (round_nearest_even_bounds (shr_m mrs1) (loc_of_shr_record mrs1)) as Hm2.
  remember (round_nearest_even (shr_m mrs1) (loc_of_shr_record mrs1)) as m2 eqn:Hm2def.
  rewrite Hm1 in Hm2. clear Hm2def Hm1 mrs1.
  assert (0 < 2 ^ (E - e)) as Hpow by (apply Z.pow_pos_nonneg; lia).
  assert (0 <= m1) as Hm1pos by (subst m1; apply Z.div_pos; lia).
  destruct (digits_bounds m) as [Hdl Hdu]. rewrite <- Hd in Hdl, Hdu.
  destruct (shr_fexp prec emax m2 E loc_Exact) as [mrs2 e2] eqn:H2.
  unfold shr_fexp in H2. cbn [shr_record_of_loc] in H2. rewrite fexp_eq in H2.
  destruct m2 as [|q|q]; [| |lia].
  - (* the rounded mantissa is zero *)
    assert (shr_m mrs2 = 0) as ->.
    { destruct (Z.max (Zdigits2 0 + E - 53) (-1074) - E) as [|k|k]; cbn [shr] in H2;
        injection H2 as <- <-; try reflexivity.
      rewrite iter_shr_1_m by (cbn; lia). reflexivity. }
    split; [reflexivity | lia].
  - cbn [Zdigits2] in H2.
    destruct (Z.le_gt_cases (-1074) (d + e - 53)) as [Hnormal|Hsub].
    + (* normal range: the truncated mantissa has 53 digits *)
      assert (E = d + e - 53) as HEv by lia. clear HE.
      assert (E - e = d - 53) as Hshift by lia. rewrite Hshift in *.
      assert (2 ^ 52 <= m1) as Hlow.
      { subst m1. replace (2 ^ 52) with (2 ^ (d - 1) / 2 ^ (d - 53)).
        - apply Z.div_le_mono; lia.
        - rewrite <- Z.pow_sub_r by lia. f_equal. lia. }
      assert (m1 < 2 ^ 53) as Hhigh.
      { subst m1. apply Z.div_lt_upper_bound; [lia|].
        rewrite <- Z.pow_add_r by lia. replace (d - 53 + 53) with d by lia. exact Hdu. }
      destruct (Z.eq_dec (Z.pos q) (2 ^ 53)) as [Htop|Htop].
      * assert (q = 9007199254740992%positive) as -> by (apply Pos2Z.inj; exact Htop).
        change (Z.pos (digits2_pos 9007199254740992)) with 54 in H2.
        replace (Z.max (54 + E - 53) (-1074) - E) with 1 in H2 by lia.
        cbn in H2. injection H2 as <- <-. cbn [shr_m].
        destruct (E + 1 <=? emax - prec) eqn:Hb; [|reflexivity].
        split; [reflexivity|]. split.
        { unfold bounded, canonical_mantissa. rewrite Hb, fexp_eq.
          change (Z.pos (digits2_pos 4503599627370496)) with 53.
          rewrite andb_true_r. apply Z.eqb_eq. lia. }
        split; [lia|].
        replace (E + 1 - E) with 1 by lia.
        change (Z.pos 4503599627370496 * 2 ^ 1) with (2 ^ 53). lia.
      * assert (Z.pos (digits2_pos q) = 53) as Hdq
          by (apply digits_unique; change (53 - 1) with 52; lia).
        rewrite Hdq in H2.
        replace (Z.max (53 + E - 53) (-1074) - E) with 0 in H2 by lia.
        cbn [shr] in H2. injection H2 as <- <-. cbn [shr_m].
        destruct (E <=? emax - prec) eqn:Hb; [|reflexivity].
        split; [reflexivity|]. split.
        { unfold bounded, canonical_mantissa. rewrite Hb, fexp_eq, Hdq.
          rewrite andb_true_r. apply Z.eqb_eq. lia. }
        split; [lia|]. rewrite Z.sub_diag. change (2 ^ 0) with 1. lia.
    + (* subnormal range: no more than 52 digits are left *)
      assert (E = -1074) as HEv by lia. clear HE.
      assert (m1 < 2 ^ 52) as Hhigh.
      { subst m1. apply Z.div_lt_upper_bound; [lia|].
        rewrite <- Z.pow_add_r by lia.
        apply Z.lt_le_trans with (2 ^ d); [exact Hdu|].
        apply Z.pow_le_mono_r; lia. }
      assert (Z.pos (digits2_pos q) <= 53) as Hdq.
      { apply digits_le. assert (2 ^ 52 < 2 ^ 53) by reflexivity. lia. }
      replace (Z.max (Z.pos (digits2_pos q) + E - 53) (-1074) - E) with 0 in H2 by lia.
      cbn [shr] in H2. injection H2 as <- <-. cbn [shr_m].
      destruct (E <=? emax - prec) eqn:Hb; [|reflexivity].
      split; [reflexivity|]. split.
      { unfold bounded, canonical_mantissa. rewrite Hb, fexp_eq.
        rewrite andb_true_r. apply Z.eqb_eq. lia. }
      split; [lia|]. rewrite Z.sub_diag. change (2 ^ 0) with 1. lia.
Qed.

Lemma shl_align_spec (m : positive) e e' :
  let '(m', e'') := shl_align m e e' in
  e'' = Z.min e e' /\ Z.pos m' = Z.pos m * 2 ^ (e - e'').
Proof.
  unfold shl_align. destruct (e' - e) as [|k|k] eqn:Ek.
  - split; [lia|]. rewrite Z.sub_diag. change (2 ^ 0) with 1. lia.
  - split; [lia|]. rewrite Z.sub_diag. change (2 ^ 0) with 1. lia.
  - split; [lia|]. change (Pos.iter xO m k) with (shift_pos k m).
    rewrite shift_pos_correct, Z.pow_pos_fold.
    replace (e - e') with (Z.pos k) by lia. lia.
Qed.

Lemma digits_shift (m m' : positive) k :
  0 <= k -> Z.pos m' = Z.pos m * 2 ^ k ->
  Z.pos (digits2_pos m') = Z.pos (digits2_pos m) + k.
Proof.
  intros Hk Hm. apply digits_unique. rewrite Hm.
  destruct (digits_bounds m) as [Hl Hu].
  assert (0 < 2 ^ k) by (apply Z.pow_pos_nonneg; lia).
  replace (Z.pos (digits2_pos m) + k - 1) with (Z.pos (digits2_pos m) - 1 + k) by lia.
  rewrite !Z.pow_add_r by lia. split; nia.
Qed.

(** [binary_round] first brings the mantissa to the exponent of the format
    when it is too short, and then rounds. *)
Lemma binary_round_aligned s (M : positive) ez :
  exists (mz : positive) e,
    binary_round prec emax s M ez = binary_round_aux prec emax s (Z.pos mz) e loc_Exact /\
    e = Z.min ez (fexp prec emax (Z.pos (digits2_pos M) + ez)) /\
    Z.pos mz = Z.pos M * 2 ^ (ez - e) /\
    Z.pos (digits2_pos mz) + e = Z.pos (digits2_pos M) + ez.
Proof.
  unfold binary_round.
  pose proof (shl_align_spec M ez (fexp prec emax (Z.pos (digits2_pos M) + ez))) as H.
  destruct (shl_align M ez _) as [mz e]. destruct H as [He Hm].
  exists mz, e. split; [reflexivity|]. split; [exact He|]. split; [exact Hm|].
  rewrite (digits_shift M mz (ez - e)) by (try exact Hm; lia). lia.
Qed.

(** The sum of two valid doubles that are not negative, at least one of
    them positive: never [NaN], never a zero, and not below the first. *)
Lemma binary_round_lower (M : positive) ez (mx : positive) ex :
  -1074 <= ez -> ez <= ex ->
  fexp prec emax (Z.pos (digits2_pos mx) + ex) = ex ->
  Z.pos mx * 2 ^ (ex - ez) <= Z.pos M ->
  match binary_round prec emax false M ez with
  | S754_infinity s => s = false
  | S754_finite s m3 e3 =>
      s = false /\ bounded prec emax m3 e3 = true /\
      ex <= e3 /\ Z.pos mx <= Z.pos m3 * 2 ^ (e3 - ex)
  | _ => False
  end.
Proof.
  intros Hez Hex Hcan Hle.
  destruct (binary_round_aligned false M ez) as (mz & e & -> & He & Hmz & Hd).
  rewrite fexp_eq in He, Hcan.
  pose proof (round_exact_shape false mz e) as Hshape.
  rewrite Hd, fexp_eq in Hshape.
  remember (Z.max (Z.pos (digits2_pos M) + ez - 53) (-1074)) as T eqn:HT.
  specialize (Hshape ltac:(lia)).
  destruct (digits_bounds mx) as [Hxl Hxu]. destruct (digits_bounds mz) as [Hzl Hzu].
  remember (Z.pos (digits2_pos mx)) as dx eqn:Hdx.
  remember (Z.pos (digits2_pos mz)) as dz eqn:Hdz.
  remember (Z.pos (digits2_pos M)) as dM eqn:HdM.
  assert (0 < dx) by (subst dx; lia). assert (0 < dz) by (subst dz; lia).
  assert (Z.pos mx * 2 ^ (ex - e) <= Z.pos mz) as Hlow.
  { rewrite Hmz. replace (ex - e) with (ex - ez + (ez - e)) by lia.
    rewrite Z.pow_add_r by lia.
    assert (0 < 2 ^ (ez - e)) by (apply Z.pow_pos_nonneg; lia). nia. }
  assert (dx + ex <= dz + e) as HD.
  { assert (dx - 1 + (ex - e) < dz); [|lia].
    apply (Z.pow_lt_mono_r_iff 2); [lia | lia|].
    rewrite Z.pow_add_r by lia.
    assert (0 < 2 ^ (ex - e)) by (apply Z.pow_pos_nonneg; lia). nia. }
  assert (ex <= T) as HexT by lia.
  assert (0 < 2 ^ (T - e)) as Hpow by (apply Z.pow_pos_nonneg; lia).
  assert (Z.pos mx <= Z.pos mz / 2 ^ (T - e) * 2 ^ (T - ex)) as Hgoal.
  { destruct (Z.eq_dec T ex) as [->|Hne].
    - rewrite Z.sub_diag. change (2 ^ 0) with 1. rewrite Z.mul_1_r.
      rewrite <- (Z.div_mul (Z.pos mx) (2 ^ (ex - e))) by lia.
      apply Z.div_le_mono; lia.
    - assert (T = dz + e - 53) as HTv by lia.
      assert (T - e = dz - 53) as Hk by lia. rewrite Hk in *.
      assert (2 ^ 52 <= Z.pos mz / 2 ^ (dz - 53)) as Hq.
      { replace (2 ^ 52) with (2 ^ (dz - 1) / 2 ^ (dz - 53)).
        - apply Z.div_le_mono; lia.
        - rewrite <- Z.pow_sub_r by lia. f_equal. lia. }
      assert (2 ^ dx <= 2 ^ 52 * 2 ^ (T - ex)) as Hp.
      { rewrite <- Z.pow_add_r by lia. apply Z.pow_le_mono_r; lia. }
      assert (0 < 2 ^ (T - ex)) by (apply Z.pow_pos_nonneg; lia). nia. }
  destruct (binary_round_aux prec emax false (Z.pos mz) e loc_Exact)
    as [s'|s'| |s' m3 e3].
  - destruct Hshape as [_ Hzero]. rewrite Hzero in Hgoal. lia.
  - exact Hshape.
  - exact Hshape.
  - destruct Hshape as (-> & Hb & HTe & Hval).
    split; [reflexivity|]. split; [exact Hb|]. split; [lia|].
    replace (e3 - ex) with (e3 - T + (T - ex)) by lia.
    rewrite Z.pow_add_r by lia.
    assert (0 < 2 ^ (T - ex)) by (apply Z.pow_pos_nonneg; lia). nia.
Qed.

Lemma valid_canonical s m e :
  valid_binary prec emax (S754_finite s m e) = true ->
  fexp prec emax (Z.pos (digits2_pos m) + e) = e /\ -1074 <= e.
Proof.
  cbn [valid_binary]. unfold bounded, canonical_mantissa.
  intros H. apply andb_true_iff in H as [H _]. apply Z.eqb_eq in H.
  split; [exact H|]. rewrite fexp_eq in H. lia.
Qed.

(** The sum of two positive valid doubles. *)
Lemma add_finite mx ex my ey :
  valid_binary prec emax (S754_finite false mx ex) = true ->
  valid_binary prec emax (S754_finite false my ey) = true ->
  match Binary64.add (S754_finite false mx ex) (S754_finite false my ey) with
  | S754_infinity s => s = false
  | S754_finite s m3 e3 =>
      s = false /\ bounded prec emax m3 e3 = true /\
      ex <= e3 /\ Z.pos mx <= Z.pos m3 * 2 ^ (e3 - ex)
  | _ => False
  end.
Proof.
  intros Hx Hy.
  apply valid_canonical in Hx as [Hcx Hex]. apply valid_canonical in Hy as [_ Hey].
  unfold Binary64.add, SFadd. cbn [cond_Zopp].
  pose proof (shl_align_spec mx ex (Z.min ex ey)) as Ha.
  pose proof (shl_align_spec my ey (Z.min ex ey)) as Hb.
  destruct (shl_align mx ex (Z.min ex ey)) as [a ea].
  destruct (shl_align my ey (Z.min ex ey)) as [b eb].
  destruct Ha as [Hea Ha]. destruct Hb as [Heb Hb]. cbn [fst].
  change (Z.pos a + Z.pos b) with (Z.pos (a + b)). cbn [binary_normalize].
  apply binary_round_lower; [lia | lia | exact Hcx |].
  replace (Z.min ex ey) with ea by lia. rewrite <- Ha. lia.
Qed.

(** The product of a weight, whose mantissa has 53 digits, and a positive
    double. *)
Lemma mul_finite mw ew mc ec :
  2 ^ 52 <= Z.pos mw ->
  match Binary64.mul (S754_finite false mw ew) (S754_finite false mc ec) with
  | S754_zero s | S754_infinity s => s = false
  | S754_finite s m3 e3 => s = false /\ bounded prec emax m3 e3 = true
  | S754_nan => False
  end.
Proof.
  intros Hw. unfold Binary64.mul, SFmul. cbn [xorb].
  pose proof (round_exact_shape false (mw * mc) (ew + ec)) as H.
  destruct (digits_bounds (mw * mc)) as [_ Hu].
  assert (53 <= Z.pos (digits2_pos (mw * mc))) as Hd.
  { assert (52 < Z.pos (digits2_pos (mw * mc))); [|lia].
    apply (Z.pow_lt_mono_r_iff 2); [lia | lia|].
    rewrite Pos2Z.inj_mul in Hu. nia. }
  rewrite fexp_eq in H. specialize (H ltac:(lia)).
  destruct (binary_round_aux prec emax false (Z.pos (mw * mc)) (ew + ec) loc_Exact)
    as [s|s| |s m3 e3]; intuition.
Qed.


Lemma shr_nonneg r e n : 0 <= shr_m r -> 0 <= shr_m (fst (shr r e n)).
Proof.
  intros H. destruct n as [|p|p]; cbn [shr fst]; try exact H.
  apply iter_shr_1_nonneg, H.
Qed.

(** Rounding a mantissa that is not negative never gives [NaN], and
    gives the sign asked for. *)
Lemma binary_round_aux_sign s m e l :
  0 <= m ->
  match binary_round_aux prec emax s m e l with
  | S754_zero s' | S754_infinity s' | S754_finite s' _ _ => s' = s
  | S754_nan => False
  end.
Proof.
  intros Hm. unfold binary_round_aux, shr_fexp.
  pose proof (shr_nonneg (shr_record_of_loc m l) e
                (fexp prec emax (Zdigits2 m + e) - e)) as H1.
  rewrite shr_m_of_loc in H1. specialize (H1 Hm).
  destruct (shr (shr_record_of_loc m l) e _) as [mrs1 e1]. cbn [fst] in H1.
  pose proof (round_nearest_even_bounds (shr_m mrs1) (loc_of_shr_record mrs1)) as Hr.
  set (m2 := round_nearest_even (shr_m mrs1) (loc_of_shr_record mrs1)) in *.
  pose proof (shr_nonneg (shr_record_of_loc m2 loc_Exact) e1
                (fexp prec emax (Zdigits2 m2 + e1) - e1)) as H2.
  rewrite shr_m_of_loc in H2. specialize (H2 ltac:(lia)).
  destruct (shr (shr_record_of_loc m2 loc_Exact) e1 _) as [mrs2 e2]. cbn [fst] in H2.
  destruct (shr_m mrs2) as [|q|q]; [reflexivity| |lia].
  destruct (e2 <=? emax - prec); reflexivity.
Qed.

(** A mantissa that is already in the format is left as it is. *)
Lemma binary_round_aux_exact s (m : positive) e :
  fexp prec emax (Z.pos (digits2_pos m) + e) = e -> e <= 971 ->
  binary_round_aux prec emax s (Z.pos m) e loc_Exact = S754_finite s m e.
Proof.
  intros H He. unfold binary_round_aux, shr_fexp.
  cbn [Zdigits2 shr_record_of_loc]. rewrite H, Z.sub_diag. cbn [shr shr_m].
  cbn [loc_of_shr_record round_nearest_even Zdigits2 shr_record_of_loc].
  rewrite H, Z.sub_diag. cbn [shr shr_m].
  replace (e <=? emax - prec) with true by (symmetry; apply Z.leb_le; lia).
  reflexivity.
Qed.

(** The length of an array, at most 2^32 - 1, is a positive double. *)
Lemma ofZ_length (n : nat) :
  (0 < n)%nat -> Z.of_nat n < 2 ^ 32 ->
  exists m e, Binary64.ofZ (Z.of_nat n) = S754_finite false m e.
Proof.
  intros Hn Hlt. destruct (Z.of_nat n) as [|p|p] eqn:E; try lia.
  unfold Binary64.ofZ. cbn [binary_normalize].
  destruct (binary_round_aligned false p 0) as (mz & e & -> & He & Hmz & Hd).
  rewrite fexp_eq in He.
  assert (Z.pos (digits2_pos p) <= 32) as Hdp by (apply digits_le; exact Hlt).
  exists mz, e. apply binary_round_aux_exact; [rewrite fexp_eq|]; lia.
Qed.

Lemma add_notNegative x y :
  Binary64.notNegative x = true -> Binary64.notNegative y = true ->
  Binary64.notNegative (Binary64.add x y) = true.
Proof.
  intros Hx Hy.
  destruct x as [sx|[]| |[] mx ex]; try discriminate;
    destruct y as [sy|[]| |[] my ey]; try discriminate; try reflexivity.
  - destruct sx, sy; reflexivity.
  - unfold Binary64.add, SFadd. cbn [cond_Zopp].
    change (Z.pos (fst (shl_align mx ex (Z.min ex ey)))
            + Z.pos (fst (shl_align my ey (Z.min ex ey))))
      with (Z.pos (fst (shl_align mx ex (Z.min ex ey))
                   + fst (shl_align my ey (Z.min ex ey)))).
    cbn [binary_normalize].
    match goal with |- context [binary_round _ _ false ?M ?ez] =>
      destruct (binary_round_aligned false M ez) as (mz & e & -> & _)
    end.
    pose proof (binary_round_aux_sign false (Z.pos mz) e loc_Exact ltac:(lia)) as H.
    destruct (binary_round_aux _ _ _ _ _ _) as [s|s| |s m3 e3]; try contradiction;
      subst s; reflexivity.
Qed.

(** A number that is not negative divided by a positive number is not
    negative; in particular it is not [NaN]. *)
Lemma div_notNegative x my ey :
  Binary64.notNegative x = true ->
  Binary64.notNegative (Binary64.div x (S754_finite false my ey)) = true.
Proof.
  intros Hx. destruct x as [sx|[]| |[] mx ex]; try discriminate; try reflexivity.
  unfold Binary64.div, SFdiv. cbn [xorb].
  destruct (SFdiv_core_binary prec emax (Z.pos mx) ex (Z.pos my) ey)
    as [[mz ez] lz] eqn:E.
  assert (0 <= mz) as Hmz.
  { revert E. unfold SFdiv_core_binary.
    set (shifted := match _ - _ - _ with
                    | 0 => Z.pos mx | Z.pos _ => _ | Z.neg _ => 0 end).
    assert (0 <= shifted) as Hs.
    { subst shifted. destruct (_ - _ - _) as [|k|k]; try lia.
      apply Z.shiftl_nonneg. lia. }
    pose proof (Z.div_pos shifted (Z.pos my) Hs ltac:(lia)) as Hq.
    unfold Z.div in Hq. destruct (Z.div_eucl shifted (Z.pos my)) as [q r].
    intros [= <- _ _]. exact Hq. }
  pose proof (binary_round_aux_sign false mz ez lz Hmz) as H.
  destruct (binary_round_aux _ _ _ _ _ _) as [s|s| |s m3 e3]; try contradiction;
    subst s; reflexivity.
Qed.

End Doubles.

(** * The verification level on doubles *)

Section VerificationLevel64.

Import CreativeIdentity Specification CreativeIdentity64 Statements64 Scenarios64.Identity.
Local Open Scope Z_scope.

Local Abbreviation sound x :=
  (Binary64.notNegative x = true /\ valid_binary 53 1024 x = true).

(** Every weight is a positive double whose mantissa has 53 digits. *)
Lemma weights_shape t :
  exists mw ew, weights t = S754_finite false mw ew /\ 2 ^ 52 <= Z.pos mw.
Proof.
  destruct t; eexists _, _; (split; [reflexivity | vm_compute; discriminate]).
Qed.

Lemma notNegative_finite s m e :
  Binary64.notNegative (S754_finite s m e) = true -> s = false.
Proof. destruct s; [discriminate | reflexivity]. Qed.

Lemma notNegative_infinity s :
  Binary64.notNegative (S754_infinity s) = true -> s = false.
Proof. destruct s; [discriminate | reflexivity]. Qed.

(** A contribution is not negative when the confidence is not. *)
Lemma contribution_sound t c :
  Binary64.notNegative c = true -> sound (Binary64.mul (weights t) c).
Proof.
  intros Hc. destruct (weights_shape t) as (mw & ew & -> & Hw).
  destruct c as [s|s| |s m e]; try discriminate.
  - destruct s; split; reflexivity.
  - apply notNegative_infinity in Hc as ->. split; reflexivity.
  - apply notNegative_finite in Hc as ->.
    pose proof (mul_finite mw ew m e Hw) as H.
    destruct (Binary64.mul _ _) as [s|s| |s m3 e3]; try contradiction.
    + subst s. split; reflexivity.
    + subst s. split; reflexivity.
    + destruct H as [-> Hb]. split; [reflexivity | exact Hb].
Qed.

Lemma floor_finite_mono mx ex m3 e3 :
  ex <= e3 -> Z.pos mx <= Z.pos m3 * 2 ^ (e3 - ex) ->
  Binary64.leb (Binary64.floor (S754_finite false mx ex))
    (Binary64.floor (S754_finite false m3 e3)) = true.
Proof.
  intros He Hm. cbn [Binary64.floor Binary64.leb]. apply Z.leb_le.
  remember (e3 - ex) as k eqn:Hk. assert (e3 = ex + k) as -> by lia.
  assert (0 <= k) as Hk0 by lia. clear Hk He.
  assert (0 < 2 ^ k) by (apply Z.pow_pos_nonneg; lia).
  destruct (Z.leb_spec 0 ex) as [Hx|Hx]; destruct (Z.leb_spec 0 (ex + k)) as [H3|H3];
    try lia.
  - rewrite Z.pow_add_r by lia.
    assert (0 < 2 ^ ex) by (apply Z.pow_pos_nonneg; lia). nia.
  - assert (0 < 2 ^ (- ex)) by (apply Z.pow_pos_nonneg; lia).
    apply Z.div_le_upper_bound; [lia|].
    replace k with (- ex + (ex + k)) in Hm by lia.
    rewrite Z.pow_add_r in Hm by lia. lia.
  - assert (0 < 2 ^ (- (ex + k))) by (apply Z.pow_pos_nonneg; lia).
    replace (- ex) with (k + - (ex + k)) by lia. rewrite Z.pow_add_r by lia.
    apply Z.le_trans with (2 ^ k * Z.pos m3 / (2 ^ k * 2 ^ (- (ex + k)))).
    + apply Z.div_le_mono; lia.
    + rewrite Z.div_mul_cancel_l by lia. lia.
Qed.

Lemma floor_finite_nonneg m e :
  exists z, Binary64.floor (S754_finite false m e) = Binary64.Integer z /\ 0 <= z.
Proof.
  cbn [Binary64.floor]. eexists. split; [reflexivity|].
  destruct (Z.leb_spec 0 e).
  - assert (0 <= 2 ^ e) by (apply Z.pow_nonneg; lia). nia.
  - apply Z.div_pos; [lia|]. apply Z.pow_pos_nonneg; lia.
Qed.

(** Adding a double that is not negative to a score that is not negative
    gives such a score again, and does not lower its floor. *)
Lemma add_sound x p :
  sound x -> sound p ->
  sound (Binary64.add x p) /\
  Binary64.leb (Binary64.floor x) (Binary64.floor (Binary64.add x p)) = true.
Proof.
  intros [Hx Vx] [Hp Vp].
  destruct x as [sx|sx| |sx mx ex]; try discriminate.
  - (* the score is a zero *)
    destruct p as [sp|sp| |sp mp ep]; try discriminate.
    + destruct sx, sp; repeat split.
    + apply notNegative_infinity in Hp as ->. repeat split.
    + apply notNegative_finite in Hp as ->.
      split; [split; [reflexivity | exact Vp]|].
      destruct (floor_finite_nonneg mp ep) as (z & Hz & Hpos).
      change (Binary64.add (S754_zero sx) (S754_finite false mp ep))
        with (S754_finite false mp ep).
      rewrite Hz. cbn. apply Z.leb_le. exact Hpos.
  - (* the score is infinite *)
    apply notNegative_infinity in Hx as ->.
    destruct p as [sp|sp| |sp mp ep]; try discriminate.
    + repeat split.
    + apply notNegative_infinity in Hp as ->. repeat split.
    + repeat split.
  - apply notNegative_finite in Hx as ->.
    destruct p as [sp|sp| |sp mp ep]; try discriminate.
    + split; [split; [reflexivity | exact Vx]|].
      change (Binary64.add (S754_finite false mx ex) (S754_zero sp))
        with (S754_finite false mx ex).
      apply floor_finite_mono; [lia|]. rewrite Z.sub_diag. change (2 ^ 0) with 1. lia.
    + apply notNegative_infinity in Hp as ->. repeat split.
    + apply notNegative_finite in Hp as ->.
      pose proof (add_finite mx ex mp ep Vx Vp) as H.
      destruct (Binary64.add _ _) as [s|s| |s m3 e3]; try contradiction.
      * subst s. repeat split.
      * destruct H as (-> & Hb & He & Hm).
        split; [split; [reflexivity | exact Hb]|].
        apply floor_finite_mono; assumption.
Qed.

Lemma min100_mono a b :
  Binary64.leb a b = true -> Binary64.leb (Binary64.min100 a) (Binary64.min100 b) = true.
Proof.
  destruct a as [|[]|a], b as [|[]|b]; cbn; try discriminate; try reflexivity;
    intros H; apply Z.leb_le; try apply Z.leb_le in H; lia.
Qed.

Lemma min100_capped a : capped (Binary64.min100 a).
Proof. destruct a as [|[]|a]; cbn; try reflexivity; lia. Qed.

Lemma level_of_sound x :
  sound x -> between 0 100 (Binary64.min100 (Binary64.floor x)).
Proof.
  intros [Hx _]. destruct x as [s|s| |s m e]; try discriminate.
  - cbn. lia.
  - apply notNegative_infinity in Hx as ->. cbn. lia.
  - apply notNegative_finite in Hx as ->.
    destruct (floor_finite_nonneg m e) as (z & -> & Hz). cbn. lia.
Qed.

Lemma addContribution_sound score m :
  notNegativeWhenVerified m -> sound score ->
  sound (addContribution score m) /\
  Binary64.leb (Binary64.floor score) (Binary64.floor (addContribution score m)) = true.
Proof.
  intros Hm Hs. unfold addContribution.
  destruct (status m) eqn:E.
  - apply add_sound; [exact Hs|]. apply contribution_sound, Hm, E.
  - split; [exact Hs|]. destruct Hs as [Hs _].
    destruct score as [s|s| |s mm e]; try discriminate.
    + reflexivity.
    + apply notNegative_infinity in Hs as ->. reflexivity.
    + apply notNegative_finite in Hs as ->.
      apply floor_finite_mono; [lia|]. rewrite Z.sub_diag. change (2 ^ 0) with 1. lia.
  - split; [exact Hs|]. destruct Hs as [Hs _].
    destruct score as [s|s| |s mm e]; try discriminate.
    + reflexivity.
    + apply notNegative_infinity in Hs as ->. reflexivity.
    + apply notNegative_finite in Hs as ->.
      apply floor_finite_mono; [lia|]. rewrite Z.sub_diag. change (2 ^ 0) with 1. lia.
  - split; [exact Hs|]. destruct Hs as [Hs _].
    destruct score as [s|s| |s mm e]; try discriminate.
    + reflexivity.
    + apply notNegative_infinity in Hs as ->. reflexivity.
    + apply notNegative_finite in Hs as ->.
      apply floor_finite_mono; [lia|]. rewrite Z.sub_diag. change (2 ^ 0) with 1. lia.
Qed.

(** The loop invariant: while every verified method has a confidence that
    is not negative, the running score is a valid double that is not
    negative. *)
Lemma score_sound methods : forall score,
  Forall notNegativeWhenVerified methods -> sound score ->
  sound (fold_left addContribution methods score).
Proof.
  induction methods as [|m ms IH]; intros score H Hs; [exact Hs|].
  inversion H as [|? ? Hm Hms]; subst. cbn [fold_left].
  apply IH; [exact Hms|]. apply addContribution_sound; assumption.
Qed.

(** The loop adds the contributions of the verified methods, in order. *)
Lemma score_contributions methods : forall score,
  fold_left addContribution methods score
  = fold_left Binary64.add (contributions methods) score.
Proof.
  unfold contributions.
  induction methods as [|m ms IH]; intros score; [reflexivity|].
  cbn [fold_left]. rewrite filter_cons, IH. destruct (isVerified m) eqn:E.
  - destruct (decide (Is_true true)) as [|n]; [|exfalso; apply n; exact I].
    cbn [map fold_left]. f_equal.
    unfold addContribution. unfold isVerified in E.
    destruct (status m); try discriminate. reflexivity.
  - destruct (decide (Is_true false)) as [[]|]. f_equal.
    unfold addContribution. unfold isVerified in E.
    destruct (status m); try discriminate; reflexivity.
Qed.

(** The loop never reads [expiresAt]. *)
Lemma level_ignores_expiresAt (methods : list VerificationMethod) (date : option Z) :
  calculateVerificationLevel (map (setExpiresAt date) methods)
  = calculateVerificationLevel methods.
Proof.
  unfold calculateVerificationLevel. f_equal. f_equal.
  generalize (Binary64.ofZ 0).
  induction methods as [|m ms IH]; intros score; cbn [map fold_left];
    [reflexivity|].
  rewrite IH. reflexivity.
Qed.

(** C1, as stated, fails.  One verified biometric method of confidence -1
    gives the level -20, where the sum clamped to [0,100] and floored is 0:
    the code caps the floor at 100 and has no lower clamp.  A verified
    method whose [expiresAt] has passed at the time of reading still counts
    (20 where the formula gives 0): the loop reads the status only.  And
    the sum is taken in doubles: with the confidences 0.83 (biometric) and
    0.96 (social proof) the products are 16.6 and 14.4 up to rounding and
    their sum falls just below 31, so the level is 30 where the formula
    gives 31. *)
Lemma negative_sum_is_not_clamped :
  (calculateVerificationLevel (map held [Scenarios.Identity.method biometric verified (-1)])
   = Binary64.Integer (-20) /\
   specVerificationLevel 2000 [Scenarios.Identity.method biometric verified (-1)] = 0) /\
  (calculateVerificationLevel (map held [Scenarios.Identity.lapsed])
   = Binary64.Integer 20 /\
   specVerificationLevel 2000 [Scenarios.Identity.lapsed] = 0) /\
  (calculateVerificationLevel (map held Scenarios.Identity.roundedDown)
   = Binary64.Integer 30 /\
   specVerificationLevel 2000 Scenarios.Identity.roundedDown = 31).
Proof. vm_compute. repeat split. Qed.

(** C1 (amended).  For every list of verification methods the level is
    [Math.min(100, Math.floor(score))], where the score is the sum in
    doubles, from left to right starting at 0, of the products in doubles
    weight x confidence of the methods of status verified, with the weights
    20, 30, 15, 25 and 10.  The expiry date of a method is not read.  For
    the single method {biometric, verified, 0.95} the level is 19. *)
Theorem verification_level_formula (methods : list VerificationMethod) :
  calculateVerificationLevel methods
  = Binary64.min100 (Binary64.floor (sum (contributions methods))) /\
  (forall date,
     calculateVerificationLevel (map (setExpiresAt date) methods)
     = calculateVerificationLevel methods) /\
  calculateVerificationLevel scenarioA = Binary64.Integer 19.
Proof.
  split; [|split; [intros date; apply level_ignores_expiresAt | reflexivity]].
  unfold calculateVerificationLevel, sum. rewrite score_contributions. reflexivity.
Qed.

(** Scenario B: adding {platform_verification, verified, 1.0} gives 44. *)
Example scenarioB_level : calculateVerificationLevel scenarioB = Binary64.Integer 44.
Proof. reflexivity. Qed.

(** C2, as stated, fails: a verified government id of confidence -1/2 is
    scored as it stands, the level is -15, outside [0,100]; the formula
    over the clamped confidence would give 0. *)
Lemma negative_confidence_gives_negative_level :
  calculateVerificationLevel
    (map held [Scenarios.Identity.method government_id verified (-1 # 2)])
  = Binary64.Integer (-15) /\
  ~ between 0 100
      (calculateVerificationLevel
         (map held [Scenarios.Identity.method government_id verified (-1 # 2)])) /\
  specVerificationLevelClamped 2000
    [Scenarios.Identity.method government_id verified (-1 # 2)] = 0.
Proof.
  split; [reflexivity|]. split; [|reflexivity].
  change (calculateVerificationLevel
            (map held [Scenarios.Identity.method government_id verified (-1 # 2)]))
    with (Binary64.Integer (-15)).
  cbn. lia.
Qed.

(** C2 (amended).  For every list of verification methods the level is
    [NaN], minus infinity or a whole number of at most 100; a confidence
    outside [0,1] is neither rejected nor clamped, it enters the sum as it
    stands.  The level is a whole number between 0 and 100 whenever every
    verified method has a confidence [c] with [c >= 0], which [NaN] does
    not have. *)
Theorem verification_level_bounds (methods : list VerificationMethod) :
  capped (calculateVerificationLevel methods) /\
  (Forall notNegativeWhenVerified methods ->
   between 0 100 (calculateVerificationLevel methods)).
Proof.
  split; [apply min100_capped|]. intros H.
  apply level_of_sound, score_sound; [exact H|]. split; reflexivity.
Qed.

Lemma verification_level_bounds_witness :
  between 0 100
    (calculateVerificationLevel
       [method biometric verified (Binary64.ofZ 3)]).
Proof.
  apply (proj2 (verification_level_bounds [method biometric verified (Binary64.ofZ 3)])).
  repeat constructor.
Defined.

(** A confidence above 1 is not clamped: 3 on a biometric method scores 60,
    where the clamped confidence would score 20.  A confidence that is
    [NaN] makes the level [NaN], and the two infinities together do too. *)
Example confidence_above_one_is_not_clamped :
  calculateVerificationLevel [method biometric verified (Binary64.ofZ 3)]
  = Binary64.Integer 60 /\
  specVerificationLevelClamped 2000 [Scenarios.Identity.method biometric verified 3] = 20 /\
  calculateVerificationLevel [method biometric verified S754_nan] = Binary64.NaN /\
  calculateVerificationLevel
    [method government_id verified (S754_infinity true);
     method biometric verified (S754_infinity false)] = Binary64.NaN.
Proof. repeat split. Qed.

(** C3, as stated, fails: adding a verified government id of confidence -1
    to Scenario A lowers the level from 19 to -11. *)
Lemma negative_confidence_lowers_level :
  status (method government_id verified (Binary64.ofZ (-1))) = verified /\
  calculateVerificationLevel scenarioA = Binary64.Integer 19 /\
  calculateVerificationLevel
    (scenarioA ++ [method government_id verified (Binary64.ofZ (-1))])
  = Binary64.Integer (-11) /\
  Binary64.geb
    (calculateVerificationLevel
       (scenarioA ++ [method government_id verified (Binary64.ofZ (-1))]))
    (calculateVerificationLevel scenarioA) = false.
Proof. repeat split. Qed.

(** C3 (amended).  For every list of verification methods whose verified
    methods have a confidence [c] with [c >= 0], and every additional
    method of status verified with such a confidence, the level of the
    list extended by the method is greater than or equal to the level of
    the list. *)
Theorem verified_method_monotone (methods : list VerificationMethod)
    (m : VerificationMethod) :
  Forall notNegativeWhenVerified methods ->
  status m = verified ->
  Binary64.notNegative (confidence m) = true ->
  Binary64.geb (calculateVerificationLevel (methods ++ [m]))
    (calculateVerificationLevel methods) = true.
Proof.
  intros H Hs Hc. unfold Binary64.geb, calculateVerificationLevel.
  rewrite fold_left_app. cbn [fold_left]. apply min100_mono.
  apply addContribution_sound; [intros _; exact Hc|].
  apply score_sound; [exact H|]. split; reflexivity.
Qed.

Lemma verified_method_monotone_witness :
  Binary64.geb (calculateVerificationLevel scenarioB)
    (calculateVerificationLevel scenarioA) = true.
Proof.
  apply (verified_method_monotone scenarioA
           (method platform_verification verified (Binary64.ofZ 1))).
  - repeat constructor.
  - reflexivity.
  - reflexivity.
Defined.

(** When a confidence that is [NaN] is added the level becomes [NaN],
    which is not greater than or equal to any level. *)
Example nan_confidence_gives_nan_level :
  calculateVerificationLevel (scenarioA ++ [method government_id verified S754_nan])
  = Binary64.NaN /\
  Binary64.geb Binary64.NaN (calculateVerificationLevel scenarioA) = false.
Proof. split; reflexivity. Qed.

End VerificationLevel64.

(** * Creating an identity and adding a verification method *)

Section IdentityOperations.

Import CreativeIdentity Specification Statements.

Variable verifyBiometric : BiometricData -> result BiometricVerification.
Variable registerCreator :
  string -> string -> string -> Z -> PrivacySettings -> result StoryRegistration.
Variable deployIdentityContract :
  string -> string -> string -> string -> result ContractDeployment.
Variable connectPlatform :
  string -> PlatformConnectionRequest -> result PlatformConnection.
Variable storeIdentity : UniversalCreativeID -> result unit.
Variable getIdentity : string -> result (option UniversalCreativeID).
Variable updateIdentityOnChain : string -> Z -> Z -> result unit.
Variable generateUniversalID : BiometricData -> string -> string.
Variable hashBiometricData : BiometricData -> string.
Variable generateBackupCodes : list string.
Variable generateQRCode : UniversalCreativeID -> string.
Variable signer_address : string.
Variable now : Z.

Local Abbreviation create :=
  (createIdentity verifyBiometric registerCreator deployIdentityContract
     connectPlatform storeIdentity generateUniversalID hashBiometricData
     generateBackupCodes generateQRCode signer_address now).
Local Abbreviation update :=
  (updateVerificationLevel storeIdentity getIdentity updateIdentityOnChain now).
Local Abbreviation connect := (connectInitialPlatform connectPlatform).

Lemma Qltb_lt x y : Qltb x y = true <-> (x < y)%Q.
Proof.
  unfold Qltb. rewrite negb_true_iff. split.
  - intros H. apply Qnot_le_lt. rewrite <- Qle_bool_iff, H. discriminate.
  - intros H. destruct (Qle_bool y x) eqn:E; [|reflexivity].
    apply Qle_bool_iff in E. exfalso. exact (Qlt_not_le _ _ H E).
Qed.

Lemma connect_id i p : id (connect i p) = id i.
Proof. unfold connectInitialPlatform. destruct (connectPlatform _ _); reflexivity. Qed.

Lemma connect_methods i p : verificationMethods (connect i p) = verificationMethods i.
Proof. unfold connectInitialPlatform. destruct (connectPlatform _ _); reflexivity. Qed.

(** The loop over the initial platforms keeps the id and the methods and
    adds ten to the level for every connection that succeeds. *)
Lemma connect_all ps : forall i,
  id (fold_left connect ps i) = id i /\
  verificationMethods (fold_left connect ps i) = verificationMethods i /\
  verificationLevel (fold_left connect ps i)
  = (verificationLevel i
     + 10 * Z.of_nat (connectedCount connectPlatform (id i) ps))%Z.
Proof.
  induction ps as [|p ps IH]; intros i; cbn [fold_left].
  - repeat split; unfold connectedCount; simpl; lia.
  - destruct (IH (connect i p)) as (Hid & Hm & Hl).
    rewrite Hid, Hm, Hl, connect_id, connect_methods. repeat split.
    unfold connectedCount. rewrite filter_cons.
    unfold connectInitialPlatform.
    destruct (connectPlatform (id i) p) eqn:E; simpl.
    + destruct (decide (Is_true true)) as [|n]; [|exfalso; apply n; exact I].
      cbn [length]. lia.
    + destruct (decide (Is_true false)) as [[]|]. lia.
Qed.

(** What a created identity looks like. *)
Lemma createIdentity_inv request response :
  create request = Ok response ->
  exists v,
    verifyBiometric (biometricData request) = Ok v /\
    Qltb (verification_confidence v) 0.95 = false /\
    verificationMethods (identity response)
    = [biometricMethod request (verification_confidence v) now] /\
    verificationLevel (identity response)
    = (10 + 10 * Z.of_nat (connectedCount connectPlatform (id (identity response))
                             (platformsOf request)))%Z.
Proof.
  unfold createIdentity, rethrow.
  destruct (verifyBiometric (biometricData request)) as [v|] eqn:Ev; cbn;
    [|discriminate].
  destruct (Qltb (verification_confidence v) 0.95) eqn:Ec; [discriminate|].
  destruct (registerCreator _ _ _ _ _) as [reg|]; cbn; [|discriminate].
  destruct (deployIdentityContract _ _ _ _) as [dep|]; cbn; [|discriminate].
  destruct (storeIdentity _) as [[]|]; cbn; [|discriminate].
  intros [= <-]. exists v. split; [reflexivity|]. split; [exact Ec|].
  cbn [identity]. unfold platformsOf.
  destruct (initialPlatforms request) as [ps|]; cbn [default].
  - match goal with
    | |- context [fold_left _ ps ?i0] =>
        destruct (connect_all ps i0) as (Hid & Hm & Hl)
    end.
    rewrite Hm, Hl, Hid. split; reflexivity.
  - split; reflexivity.
Qed.

End IdentityOperations.

Section IdentityScenarios.

Import CreativeIdentity Specification Statements Scenarios.Identity.

(** With the verifier at exactly 0.95 the identity is created. *)
Example createIdentity_at_threshold :
  succeeded (create 0.95 connectPlatform_source (request None)) = true.
Proof. reflexivity. Qed.

(** The private methods of the source as they stand: no platform connects
    and no identity is ever found, so every addition throws. *)
Example source_update_always_throws identityId m :
  updateVerificationLevel storeIdentity_source getIdentity_source
    updateIdentityOnChain_source 0 identityId m
  = Throw "Failed to update verification: Identity not found".
Proof. reflexivity. Qed.

End IdentityScenarios.

(** * Creating an identity and adding a method, with JavaScript's numbers *)

Section IdentityOperations64.

Import Async CreativeIdentity64 Statements64.
Local Open Scope Z_scope.

Variable verifyBiometric : CreativeIdentity.BiometricData -> promise BiometricVerification.
Variable registerCreator :
  string -> string -> string -> Z -> CreativeIdentity.PrivacySettings
  -> promise CreativeIdentity.StoryRegistration.
Variable deployIdentityContract :
  string -> string -> string -> string -> promise CreativeIdentity.ContractDeployment.
Variable storeIdentity : UniversalCreativeID -> promise unit.
Variable getIdentity : string -> promise (option UniversalCreativeID).
Variable updateIdentityOnChain : string -> Binary64.integral -> Z -> promise unit.
Variable generateUniversalID : CreativeIdentity.BiometricData -> string -> string.
Variable hashBiometricData : CreativeIdentity.BiometricData -> string.
Variable generateBackupCodes : list string.
Variable generateQRCode : UniversalCreativeID -> string.
Variable signer_address : string.
Variable now : Z.

Local Abbreviation createWith connectPlatform :=
  (createIdentity verifyBiometric registerCreator deployIdentityContract
     connectPlatform storeIdentity generateUniversalID hashBiometricData
     generateBackupCodes generateQRCode signer_address now).
Local Abbreviation update :=
  (updateVerificationLevel storeIdentity getIdentity updateIdentityOnChain now).

(** What a [catch] block that rethrows lets through. *)
Lemma rethrow_Resolved {A} prefix (body : promise A) a :
  rethrow prefix body = Resolved a -> body = Resolved a.
Proof. destruct body as [b|[]]; cbn; congruence. Qed.


(** [newLevel - identity.verificationLevel >= 10] is read after the level
    has been assigned: it never holds. *)
Lemma no_significant_change x : Binary64.exceedsBy10 x x = false.
Proof.
  destruct x as [|[]|z]; try reflexivity. cbn. apply Z.leb_gt. lia.
Qed.

(** [x < t] is false exactly when [x >= t] or [x] is [NaN], for a
    positive number [t]. *)
Lemma not_below_positive x mt et :
  SFltb x (S754_finite false mt et) = false ->
  SFleb (S754_finite false mt et) x = true \/ x = S754_nan.
Proof.
  unfold SFltb, SFleb.
  destruct x as [s|[]| |[] m e]; cbn [SFcompare]; try discriminate; auto.
  destruct (e ?= et) eqn:E.
  - apply Z.compare_eq in E. subst e. rewrite Z.compare_refl.
    rewrite <- (Pos.compare_cont_antisym _ _ Eq).
    destruct (Pos.compare_cont Eq mt m); cbn [CompOpp]; try discriminate; auto.
  - discriminate.
  - rewrite Z.compare_antisym, E. cbn [CompOpp]. auto.
Qed.

Lemma not_below_threshold x :
  Binary64.ltb x (Binary64.ofDecimal 95 100) = false ->
  Binary64.atLeast x (Binary64.ofDecimal 95 100) = true \/ x = S754_nan.
Proof.
  change (Binary64.ofDecimal 95 100) with (S754_finite false 8556839292003942 (-53)).
  apply not_below_positive.
Qed.

Section Connector.

Variable connectPlatform :
  string -> CreativeIdentity.PlatformConnectionRequest
  -> promise CreativeIdentity.PlatformConnection.

Local Abbreviation create := (createWith connectPlatform).
Local Abbreviation connect := (connectInitialPlatform connectPlatform).

(** The loop over the initial platforms keeps the id and the methods and
    adds 10 to the level for every connection that resolves. *)
Lemma connect_every_platform ps : forall i z,
  verificationLevel i = Binary64.Integer z ->
  id (fold_left connect ps i) = id i /\
  verificationMethods (fold_left connect ps i) = verificationMethods i /\
  verificationLevel (fold_left connect ps i)
  = Binary64.Integer (z + 10 * Z.of_nat (connectedCount connectPlatform (id i) ps)).
Proof.
  unfold connectedCount.
  induction ps as [|p ps IH]; intros i z Hz; cbn [fold_left].
  - cbn. rewrite Hz. repeat split. f_equal. lia.
  - rewrite filter_cons. unfold connectInitialPlatform at 2 4 6.
    destruct (connectPlatform (id i) p) as [connection|r] eqn:E.
    + cbn [resolved]. destruct (decide (Is_true true)) as [|n]; [|exfalso; apply n; exact I].
      match goal with |- context [fold_left connect ps ?j] =>
        destruct (IH j (z + 10)) as (H1 & H2 & H3)
      end.
      { cbn. rewrite Hz. reflexivity. }
      rewrite H1, H2, H3. cbn [id verificationMethods length].
      repeat split. f_equal. lia.
    + cbn [resolved]. destruct (decide (Is_true false)) as [[]|].
      apply IH. exact Hz.
Qed.

(** What a created identity looks like. *)
Lemma createIdentity_resolved request response :
  create request = Resolved response ->
  exists v,
    verifyBiometric (CreativeIdentity.biometricData request) = Resolved v /\
    Binary64.ltb (verification_confidence v) (Binary64.ofDecimal 95 100) = false /\
    verificationMethods (identity response)
    = [biometricMethod request (verification_confidence v) now] /\
    verificationLevel (identity response)
    = Binary64.Integer
        (10 + 10 * Z.of_nat (connectedCount connectPlatform (id (identity response))
                               (Statements.platformsOf request))).
Proof.
  intros H. apply rethrow_Resolved in H. revert H.
  destruct (verifyBiometric (CreativeIdentity.biometricData request)) as [v|];
    cbn; [|discriminate].
  destruct (Binary64.ltb (verification_confidence v) (Binary64.ofDecimal 95 100)) eqn:Hc;
    [discriminate|].
  destruct (registerCreator _ _ _ _ _) as [reg|]; cbn; [|discriminate].
  destruct (deployIdentityContract _ _ _ _) as [dep|]; cbn; [|discriminate].
  destruct (storeIdentity _) as [[]|]; cbn; [|discriminate].
  intros [= <-]. cbn [identity]. exists v. split; [reflexivity|]. split; [exact Hc|].
  unfold Statements.platformsOf.
  destruct (CreativeIdentity.initialPlatforms request) as [ps|]; cbn [default].
  - match goal with |- context [fold_left connect ps ?i0] =>
      destruct (connect_every_platform ps i0 10 eq_refl) as (H1 & H2 & H3)
    end.
    rewrite H1, H2, H3. split; reflexivity.
  - split; reflexivity.
Qed.

(** The identity is created whenever [confidence < 0.95] is false and the
    registration, the deployment and the store resolve. *)
Lemma createIdentity_resolves request v reg dep :
  verifyBiometric (CreativeIdentity.biometricData request) = Resolved v ->
  Binary64.ltb (verification_confidence v) (Binary64.ofDecimal 95 100) = false ->
  (forall a b c d e, registerCreator a b c d e = Resolved reg) ->
  (forall a b c d, deployIdentityContract a b c d = Resolved dep) ->
  (forall i, storeIdentity i = Resolved tt) ->
  exists response, create request = Resolved response.
Proof.
  intros Hv Hc Hreg Hdep Hstore. unfold createIdentity. rewrite Hv.
  cbn [mbind promise_bind]. rewrite Hc, Hreg. cbn [mbind promise_bind].
  rewrite Hdep. cbn [mbind promise_bind]. rewrite Hstore. cbn. eauto.
Qed.

Lemma updateVerificationLevel_resolved identityId m newLevel stored :
  update identityId m = Resolved (newLevel, stored) ->
  exists found,
    getIdentity identityId = Resolved (Some found) /\
    stored = withMethod now found m /\
    newLevel = verificationLevel stored.
Proof.
  intros H. apply rethrow_Resolved in H. revert H.
  destruct (getIdentity identityId) as [[found|]|]; cbn; try discriminate.
  rewrite no_significant_change. cbn.
  destruct (storeIdentity _) as [[]|]; cbn; [|discriminate].
  intros [= <- <-]. exists found. repeat split.
Qed.

(** The gate of [createIdentity].  Creation rejects whenever the verifier
    reports a confidence below 0.95; an identity that is returned comes
    from a confidence that is at least 0.95 or is [NaN]. *)
Lemma createIdentity_gate request :
  (forall v,
     verifyBiometric (CreativeIdentity.biometricData request) = Resolved v ->
     Binary64.ltb (verification_confidence v) (Binary64.ofDecimal 95 100) = true ->
     create request =
       Rejected (ErrorObject
         "Failed to create identity: Biometric verification failed - insufficient confidence")) /\
  (forall response,
     create request = Resolved response ->
     exists v,
       verifyBiometric (CreativeIdentity.biometricData request) = Resolved v /\
       (Binary64.atLeast (verification_confidence v) (Binary64.ofDecimal 95 100) = true \/
        verification_confidence v = S754_nan)).
Proof.
  split.
  - intros v Hv Hc. unfold createIdentity. rewrite Hv. cbn. rewrite Hc. reflexivity.
  - intros response H. apply createIdentity_resolved in H as (v & Hv & Hc & _).
    exists v. split; [exact Hv|]. apply not_below_threshold, Hc.
Qed.

(** C5 (amended).  After a verification-method addition the stored level is
    the scorer's result over the stored methods.  At creation the level is
    set directly: 10, plus 10 for every initial platform whose connection
    succeeds, whatever the scorer gives on the one stored biometric
    method. *)
Theorem stored_level_after_mutation :
  (forall identityId m newLevel stored,
     update identityId m = Resolved (newLevel, stored) ->
     verificationLevel stored
       = calculateVerificationLevel (verificationMethods stored) /\
     newLevel = verificationLevel stored) /\
  (forall request response,
     create request = Resolved response ->
     verificationLevel (identity response)
       = Binary64.Integer
           (10 + 10 * Z.of_nat (connectedCount connectPlatform
                                  (id (identity response))
                                  (Statements.platformsOf request)))).
Proof.
  split.
  - intros identityId m newLevel stored H.
    apply updateVerificationLevel_resolved in H as (found & _ & -> & ->).
    split; reflexivity.
  - intros request response H.
    apply createIdentity_resolved in H as (v & _ & _ & _ & Hl). exact Hl.
Qed.

End Connector.


End IdentityOperations64.

Section IdentityScenarios64.

Import Async CreativeIdentity64 Statements64 Scenarios64.Identity.
Local Open Scope Z_scope.

Local Abbreviation request := Scenarios.Identity.request.
Local Abbreviation tiktokRequest := Scenarios.Identity.tiktokRequest.

(** With the verifier at exactly 0.95 the identity is created; just below,
    creation rejects. *)
Example createIdentity_at_the_threshold :
  resolved (create (Binary64.ofDecimal 95 100) connectPlatform_source (request None))
  = true /\
  create (Binary64.ofDecimal 94 100) connectPlatform_source (request None)
  = Rejected (ErrorObject
      "Failed to create identity: Biometric verification failed - insufficient confidence").
Proof. vm_compute. split; reflexivity. Qed.

(** C10: the code at the failing input.  The verifier reports a
    confidence that is [NaN]: [NaN < 0.95] is false, the gate lets it
    through and the identity is created with a biometric
    method of confidence [NaN], although [NaN >= 0.95] is false too.  The
    level of the stored methods is then [NaN]. *)
Theorem nan_confidence_passes_the_gate :
  Binary64.atLeast S754_nan (Binary64.ofDecimal 95 100) = false /\
  exists response,
    create S754_nan connectPlatform_source (request None) = Resolved response /\
    verificationMethods (identity response)
    = [biometricMethod (request None) S754_nan 1000] /\
    verificationLevel (identity response) = Binary64.Integer 10 /\
    calculateVerificationLevel (verificationMethods (identity response)) = Binary64.NaN.
Proof. split; [reflexivity|]. eexists. split; [reflexivity|]. repeat split. Qed.

(** C5, as stated, fails.  Creation with a biometric confidence of 0.95
    stores the level 10 where the scorer gives 19 on the stored methods
    (the platform connection of the source always throws, so the requested
    platform adds nothing); with a connection that succeeds the stored
    level is 10 + 10 = 20, the scorer still giving 19. *)
Lemma created_level_is_not_scored :
  (exists response,
     create (Binary64.ofDecimal 95 100) connectPlatform_source
       (request (Some [tiktokRequest])) = Resolved response /\
     verificationLevel (identity response) = Binary64.Integer 10 /\
     calculateVerificationLevel (verificationMethods (identity response))
     = Binary64.Integer 19) /\
  (exists response,
     create (Binary64.ofDecimal 95 100) connector (request (Some [tiktokRequest]))
     = Resolved response /\
     verificationLevel (identity response) = Binary64.Integer 20 /\
     calculateVerificationLevel (verificationMethods (identity response))
     = Binary64.Integer 19).
Proof.
  split; eexists; (split; [vm_compute; reflexivity|]); split; vm_compute; reflexivity.
Qed.

Lemma stored_level_after_mutation_witness :
  (exists stored,
     update "uci_1"
       (method CreativeIdentity.platform_verification CreativeIdentity.verified
          (Binary64.ofZ 1))
     = Resolved (Binary64.Integer 44, stored) /\
     verificationLevel stored
       = calculateVerificationLevel (verificationMethods stored)) /\
  (exists response,
     create (Binary64.ofDecimal 95 100) connector (request (Some [tiktokRequest]))
     = Resolved response /\
     verificationLevel (identity response) = Binary64.Integer 20).
Proof.
  pose proof (stored_level_after_mutation (verifier (Binary64.ofDecimal 95 100))
                registrar deployer storeIdentity_source
                (fun _ => Resolved (Some storedIdentity))
                updateIdentityOnChain_source (fun _ _ => "uci_0000000000000000")
                (fun _ => "hash") ["BACKUP"] (fun _ => "qr") "0xsigner" 1000 connector)
    as [Hupdate Hcreate].
  split.
  - assert (exists stored,
              update "uci_1"
                (method CreativeIdentity.platform_verification
                   CreativeIdentity.verified (Binary64.ofZ 1))
              = Resolved (Binary64.Integer 44, stored)) as [stored E]
      by (eexists; vm_compute; reflexivity).
    exists stored. split; [exact E|]. exact (proj1 (Hupdate _ _ _ _ E)).
  - assert (exists response,
              create (Binary64.ofDecimal 95 100) connector
                (request (Some [tiktokRequest])) = Resolved response) as [response E]
      by (eexists; vm_compute; reflexivity).
    exists response. split; [exact E|].
    unfold create in E. rewrite (Hcreate _ _ E).
    replace (id (identity response)) with "uci_0000000000000000".
    + vm_compute. reflexivity.
    + revert E. vm_compute. intros [= <-]. reflexivity.
Defined.


(** A verifier that rejects with [undefined]: the creation rejects with
    the [TypeError] of the [catch] block, without the prefix. *)
Example rejection_without_reason_loses_the_prefix :
  createIdentity (fun _ => Rejected Undefined) registrar deployer connector
    storeIdentity_source (fun _ _ => "uci_0000000000000000") (fun _ => "hash")
    ["BACKUP"] (fun _ => "qr") "0xsigner" 1000 (request None)
  = Rejected (ErrorObject "Cannot read properties of undefined (reading 'message')").
Proof. reflexivity. Qed.

End IdentityScenarios64.

(** * The exposed operation at run time *)

Section RuntimeOperation.

Import Async CreativeIdentityRuntime Statements64.

(** On erased typed methods the run-time computation is the typed one. *)
Lemma weightOf_typeName t : weightOf (typeName t) = CreativeIdentity64.weights t.
Proof. destruct t; reflexivity. Qed.

Lemma addContribution_erase score m :
  addContribution score (erase m) = CreativeIdentity64.addContribution score m.
Proof.
  unfold addContribution, CreativeIdentity64.addContribution, erase;
    cbn [status type confidence].
  rewrite weightOf_typeName.
  destruct (CreativeIdentity64.status m); reflexivity.
Qed.

Lemma level_erase ms :
  calculateVerificationLevel (map erase ms)
  = CreativeIdentity64.calculateVerificationLevel ms.
Proof.
  unfold calculateVerificationLevel, CreativeIdentity64.calculateVerificationLevel.
  f_equal. f_equal. generalize (Binary64.ofZ 0).
  induction ms as [|m ms IH]; intros score; cbn [map fold_left]; [reflexivity|].
  rewrite addContribution_erase. apply IH.
Qed.

Variable storeIdentity : UniversalCreativeID -> promise unit.
Variable updateIdentityOnChain : string -> Binary64.integral -> Z -> promise unit.
Variable now : Z.

Local Abbreviation updateWith getIdentity :=
  (updateVerificationLevel getIdentity storeIdentity updateIdentityOnChain now).


Variable getIdentity : string -> promise (option UniversalCreativeID).

(** The rejection above owes nothing to the method: the operation has no
    validation step.  With a lookup that finds the identity and a store
    that takes it back, the method is appended, whatever its confidence and
    its type, and the recomputed level is stored and returned. *)
Lemma update_validates_nothing (identityId : string) (m : VerificationMethod)
    (identity : UniversalCreativeID) :
  getIdentity identityId = Resolved (Some identity) ->
  storeIdentity (appended identity m now) = Resolved tt ->
  updateWith getIdentity identityId m
  = Resolved (verificationLevel (appended identity m now), appended identity m now).
Proof.
  intros Hget Hstore. unfold updateVerificationLevel. rewrite Hget.
  cbn [mbind promise_bind rethrow].
  match goal with |- context [Binary64.exceedsBy10 ?x ?y] =>
    change (Binary64.exceedsBy10 x y) with (Binary64.exceedsBy10 x x);
    rewrite (no_significant_change x)
  end.
  cbn [mbind promise_bind]. fold (appended identity m now).
  rewrite Hstore. reflexivity.
Qed.

End RuntimeOperation.

Section RuntimeScenarios.

Import Async CreativeIdentityRuntime Statements64 Scenarios64.Runtime.

(** The two kinds of method that the interface description wants turned
    away are rejected by the operation as the source has it. *)
Example unparsed_confidence_is_rejected :
  mustBeRejected unparsed = true /\
  mustBeRejected passport = true /\
  updateVerificationLevel getIdentity_source (fun _ => Resolved tt)
    (fun _ _ _ => Resolved tt) 2000 "uci_1" unparsed
  = Rejected (ErrorObject "Failed to update verification: Identity not found") /\
  updateVerificationLevel getIdentity_source (fun _ => Resolved tt)
    (fun _ _ _ => Resolved tt) 2000 "uci_1" passport
  = Rejected (ErrorObject "Failed to update verification: Identity not found").
Proof. vm_compute. repeat split. Qed.

(** A well-formed method is scored as in the typed reading: Scenario B. *)
Example runtime_scenarioB :
  calculateVerificationLevel (map erase Scenarios64.Identity.scenarioB)
  = Binary64.Integer 44.
Proof. rewrite level_erase. reflexivity. Qed.

End RuntimeScenarios.

(** * Conflict detection and resolution *)

Section LatestTimestamp.

Import ProfileSync.

Lemma later_cases prev curr :
  (later prev curr = prev /\ (timestamp curr <= timestamp prev)%Z) \/
  (later prev curr = curr /\ (timestamp prev < timestamp curr)%Z).
Proof.
  unfold later.
  destruct (Z.ltb_spec (timestamp prev) (timestamp curr)); [right|left]; auto.
Qed.

(** What the [reduce] of [LatestTimestampStrategy] returns is an entry of
    the array, and no entry has a greater timestamp. *)
Lemma latest_is_maximal rest : forall first,
  let latest := fold_left later rest first in
  latest ∈ first :: rest /\
  (timestamp first <= timestamp latest)%Z /\
  forall v, v ∈ rest -> (timestamp v <= timestamp latest)%Z.
Proof.
  induction rest as [|curr rest IH]; intros first; cbn [fold_left].
  - split; [apply list_elem_of_here|]. split; [lia|]. intros v Hv. inversion Hv.
  - destruct (IH (later first curr)) as (Hin & Hle & Hall).
    destruct (later_cases first curr) as [[E Ht]|[E Ht]]; rewrite E in *.
    + split; [|split; [exact Hle|]].
      * apply elem_of_cons in Hin as [->|Hin]; [apply list_elem_of_here|].
        apply list_elem_of_further, list_elem_of_further, Hin.
      * intros v Hv. apply elem_of_cons in Hv as [->|Hv]; [lia|auto].
    + split; [|split; [lia|]].
      * apply list_elem_of_further, Hin.
      * intros v Hv. apply elem_of_cons in Hv as [->|Hv]; [exact Hle|auto].
Qed.

End LatestTimestamp.

Section Resolver.

Import ProfileSync Statements.

Variable hasSignificantVariance : list Z -> bool.
Variable hasDifferentValues : list string -> bool.
Variable LongestValueStrategy_resolve WeightedAverageStrategy_resolve :
  DataConflict -> CreatorProfile -> list PlatformSyncResult -> result ResolutionResult.

Local Abbreviation detect :=
  (detectConflicts hasSignificantVariance hasDifferentValues).
Local Abbreviation run :=
  (strategy_resolve LongestValueStrategy_resolve WeightedAverageStrategy_resolve).
Local Abbreviation step :=
  (resolveConflict LongestValueStrategy_resolve WeightedAverageStrategy_resolve).
Local Abbreviation resolveAll :=
  (resolve hasSignificantVariance hasDifferentValues
     LongestValueStrategy_resolve WeightedAverageStrategy_resolve).

(** Detection raises two kinds of conflict only. *)
Lemma detected_types profile syncResults c :
  c ∈ detect profile syncResults ->
  (type c = "follower_count_variance" /\ autoResolvable c = true /\
     values c = followerCounts syncResults) \/
  (type c = "bio_conflict" /\ autoResolvable c = false /\ severity c = "high" /\
     values c = bioUpdates syncResults).
Proof.
  unfold detectConflicts.
  destruct (hasSignificantVariance _); destruct (_ && _); cbn; intros H;
    repeat (apply elem_of_cons in H as [->|H]); try (inversion H; fail);
    cbn; auto 10.
Qed.

(** A bio conflict is raised exactly when more than one result carries a
    changed bio and the bios differ. *)
Lemma bio_conflict_iff profile syncResults :
  (exists c, c ∈ detect profile syncResults /\ type c = "bio_conflict") <->
  (1 < length (bioUpdates syncResults))%nat /\
  hasDifferentValues (biosOf (bioUpdates syncResults)) = true.
Proof.
  unfold detectConflicts. split.
  - intros (c & Hc & Ht).
    destruct (Nat.ltb_spec 1 (length (bioUpdates syncResults))) as [Hl|Hl];
      destruct (hasDifferentValues _) eqn:Hd; cbn in Hc; auto;
      destruct (hasSignificantVariance _); cbn in Hc;
      repeat (apply elem_of_cons in Hc as [->|Hc]); try (inversion Hc; fail);
      cbn in Ht; discriminate.
  - intros [Hl Hd]. apply Nat.ltb_lt in Hl. rewrite Hl, Hd. cbn.
    eexists. split; [apply elem_of_app; right; apply list_elem_of_here|reflexivity].
Qed.

Lemma single_bio_report_no_conflict profile syncResults c :
  (length (bioUpdates syncResults) <= 1)%nat ->
  c ∈ detect profile syncResults -> type c <> "bio_conflict".
Proof.
  intros Hl Hc Ht.
  destruct (proj1 (bio_conflict_iff profile syncResults)) as [H _]; [eauto|lia].
Qed.

(** The loop of [resolve], one conflict at a time. *)
Lemma step_throw profile syncResults cs : forall message,
  fold_left (step profile syncResults) cs (Throw message) = Throw message.
Proof. induction cs as [|c cs IH]; intros message; cbn; [reflexivity|apply IH]. Qed.

Lemma step_Ok profile syncResults made c :
  step profile syncResults (Ok made) c =
  match initializeStrategies !! type c with
  | Some s =>
      match run s c profile syncResults with
      | Ok resolution =>
          Ok (made ++ [applyResolution resolution; recordConflict c resolution])
      | Throw message => Throw message
      end
  | None => Ok made
  end.
Proof.
  unfold resolveConflict. cbn.
  destruct (initializeStrategies !! type c); [|reflexivity].
  destruct (strategy_resolve _ _ _ _ _ _); reflexivity.
Qed.

Lemma step_keeps profile syncResults cs : forall made made',
  fold_left (step profile syncResults) cs (Ok made) = Ok made' ->
  forall x, x ∈ made -> x ∈ made'.
Proof.
  induction cs as [|c cs IH]; intros made made' H x Hx; cbn [fold_left] in H.
  - injection H as <-. exact Hx.
  - rewrite step_Ok in H.
    destruct (initializeStrategies !! type c) as [s|]; [|eapply IH; eauto].
    destruct (run s c profile syncResults) as [r|e].
    + eapply IH; [exact H|]. apply elem_of_app. left. exact Hx.
    + rewrite step_throw in H. discriminate.
Qed.

Lemma step_calls profile syncResults cs : forall made made',
  fold_left (step profile syncResults) cs (Ok made) = Ok made' ->
  forall c, c ∈ cs -> forall s, initializeStrategies !! type c = Some s ->
  exists resolution, run s c profile syncResults = Ok resolution /\
    applyResolution resolution ∈ made' /\ recordConflict c resolution ∈ made'.
Proof.
  induction cs as [|c0 cs IH]; intros made made' Hfold c Hc s Hs; [inversion Hc|].
  cbn [fold_left] in Hfold. rewrite step_Ok in Hfold.
  apply elem_of_cons in Hc as [->|Hc].
  - rewrite Hs in Hfold.
    destruct (run s c0 profile syncResults) as [r|e].
    + exists r. split; [reflexivity|].
      split; eapply step_keeps; try exact Hfold; apply elem_of_app; right.
      * apply list_elem_of_here.
      * apply list_elem_of_further, list_elem_of_here.
    + rewrite step_throw in Hfold. discriminate.
  - destruct (initializeStrategies !! type c0) as [s0|]; [|eapply IH; eauto].
    destruct (run s0 c0 profile syncResults) as [r|e].
    + eapply IH; eauto.
    + rewrite step_throw in Hfold. discriminate.
Qed.

(** [resolve] returns whenever the strategies it invokes return. *)
Lemma resolve_total profile syncResults :
  (forall c s, c ∈ detect profile syncResults ->
     initializeStrategies !! type c = Some s ->
     exists resolution, run s c profile syncResults = Ok resolution) ->
  exists outcome, resolveAll profile syncResults = Ok outcome.
Proof.
  intros H. unfold resolve.
  assert (forall cs made,
            (forall c, c ∈ cs -> c ∈ detect profile syncResults) ->
            exists made', fold_left (step profile syncResults) cs (Ok made) = Ok made')
    as Hall.
  { induction cs as [|c cs IH]; intros made Hsub; cbn [fold_left]; [eauto|].
    rewrite step_Ok.
    assert (forall c', c' ∈ cs -> c' ∈ detect profile syncResults) as Hsub'
      by (intros; apply Hsub, list_elem_of_further; assumption).
    destruct (initializeStrategies !! type c) as [s|] eqn:Hs; [|apply IH, Hsub'].
    destruct (H c s (Hsub c (list_elem_of_here _ _)) Hs) as [r ->].
    apply IH, Hsub'. }
  destruct (Hall (detect profile syncResults) [] (fun _ h => h)) as [made' ->].
  cbn. eauto.
Qed.

(** A single detected conflict with a registered strategy that returns. *)
Lemma resolve_single profile syncResults c s resolution :
  detect profile syncResults = [c] ->
  initializeStrategies !! type c = Some s ->
  run s c profile syncResults = Ok resolution ->
  resolveAll profile syncResults
  = Ok {| resolvedProfile := profile;
          calls := [applyResolution resolution; recordConflict c resolution] |}.
Proof.
  intros Hd Hs Hr. unfold resolve. rewrite Hd. cbn [fold_left].
  rewrite step_Ok, Hs, Hr. reflexivity.
Qed.

(** C4 (amended).  The resolver never reads [autoResolvable]: whenever
    [resolve] returns, every detected conflict, a bio conflict with
    autoResolvable = false included, has been handed to the strategy
    registered for its type (the longest-value strategy for a bio
    conflict), and the resolution has been applied and recorded. *)
Theorem detected_conflicts_are_resolved (profile : CreatorProfile)
    (syncResults : list PlatformSyncResult) (outcome : ResolveOutcome)
    (c : DataConflict) :
  resolveAll profile syncResults = Ok outcome ->
  c ∈ detect profile syncResults ->
  exists s resolution,
    initializeStrategies !! type c = Some s /\
    (autoResolvable c = false -> s = LongestValueStrategy) /\
    (autoResolvable c = true -> s = LatestTimestampStrategy) /\
    run s c profile syncResults = Ok resolution /\
    applyResolution resolution ∈ calls outcome /\
    recordConflict c resolution ∈ calls outcome.
Proof.
  intros Hres Hc. unfold resolve in Hres.
  destruct (fold_left _ _ _) as [made|] eqn:Hfold; cbn in Hres; [|discriminate].
  injection Hres as <-. cbn [calls].
  destruct (detected_types _ _ _ Hc) as [(Ht & Ha & _)|(Ht & Ha & _)].
  - destruct (step_calls _ _ _ _ _ Hfold c Hc LatestTimestampStrategy)
      as (r & Hr & H1 & H2); [rewrite Ht; reflexivity|].
    exists LatestTimestampStrategy, r. rewrite Ht. repeat split; auto. congruence.
  - destruct (step_calls _ _ _ _ _ Hfold c Hc LongestValueStrategy)
      as (r & Hr & H1 & H2); [rewrite Ht; reflexivity|].
    exists LongestValueStrategy, r. rewrite Ht. repeat split; auto. congruence.
Qed.

(** The weighted-average strategy is registered for engagement rates
    only. *)
Lemma weighted_average_only_for_engagement (key : string) :
  initializeStrategies !! key = Some WeightedAverageStrategy ->
  key = "engagement_variance".
Proof.
  unfold initializeStrategies. intros H.
  repeat (apply lookup_insert_Some in H as [[? H]|[? H]];
          [subst; try discriminate; try reflexivity |]).
  rewrite lookup_empty in H. discriminate.
Qed.

(** C6 (amended).  A follower_count_variance conflict with at least one
    candidate is resolved by the latest-timestamp strategy: the candidate
    chosen has the greatest timestamp, the resolved value is its count
    ([latest.count || latest.value]), and the resolution is applied and
    recorded under the strategy name latest_timestamp with confidence 0.9.
    No average is taken: the weighted-average strategy is registered for
    engagement_variance only. *)
Theorem follower_variance_latest_timestamp (profile : CreatorProfile)
    (syncResults : list PlatformSyncResult) (conflict : DataConflict)
    (made : list ResolverCall) :
  type conflict = "follower_count_variance" ->
  values conflict <> [] ->
  exists latest,
    latest ∈ values conflict /\
    (forall v, v ∈ values conflict -> (timestamp v <= timestamp latest)%Z) /\
    initializeStrategies !! type conflict = Some LatestTimestampStrategy /\
    (forall key, initializeStrategies !! key = Some WeightedAverageStrategy ->
                 key = "engagement_variance") /\
    step profile syncResults (Ok made) conflict
    = Ok (made ++ [applyResolution (latestResolution latest);
                   recordConflict conflict (latestResolution latest)]).
Proof.
  intros Ht Hv. destruct (values conflict) as [|first rest] eqn:E; [congruence|].
  destruct (latest_is_maximal rest first) as (Hin & Hfirst & Hrest).
  exists (fold_left later rest first). split; [exact Hin|]. split.
  - intros v Hv'. apply elem_of_cons in Hv' as [->|Hv']; auto.
  - rewrite step_Ok, Ht. split; [reflexivity|].
    split; [exact weighted_average_only_for_engagement|].
    change (initializeStrategies !! "follower_count_variance")
      with (Some LatestTimestampStrategy).
    unfold strategy_resolve, LatestTimestampStrategy_resolve. rewrite E.
    reflexivity.
Qed.

End Resolver.

Section ResolverScenarios.

Import ProfileSync Statements Scenarios.Sync.

(** C4, as stated, fails on Scenario D.  The two bios raise a bio conflict
    with autoResolvable = false; the registry holds the longest-value
    strategy for it, and whatever that strategy returns is applied and
    recorded: the conflict is not left untouched.  With the strategy as the
    specification describes it, the longer bio is applied. *)
Lemma bio_conflict_is_resolved :
  detect creator scenarioD = [bioConflict] /\
  autoResolvable bioConflict = false /\
  initializeStrategies !! type bioConflict = Some LongestValueStrategy /\
  (forall longestValue weightedAverage resolution,
     longestValue bioConflict creator scenarioD = Ok resolution ->
     exists outcome,
       resolve SpecifiedHelpers.hasSignificantVariance
         SpecifiedHelpers.hasDifferentValues longestValue weightedAverage
         creator scenarioD = Ok outcome /\
       calls outcome
       = [applyResolution resolution; recordConflict bioConflict resolution] /\
       ~ untouched outcome bioConflict) /\
  resolve SpecifiedHelpers.hasSignificantVariance
    SpecifiedHelpers.hasDifferentValues
    (SpecifiedHelpers.LongestValueStrategy_resolve 1)
    (fun _ _ _ => Throw "WeightedAverageStrategy is not defined")
    creator scenarioD = Ok scenarioD_outcome /\
  ~ untouched scenarioD_outcome bioConflict.
Proof.
  split; [reflexivity|]. split; [reflexivity|]. split; [reflexivity|].
  split; [|split; [reflexivity|]].
  - intros longestValue weightedAverage resolution H.
    eexists. split.
    { apply (resolve_single _ _ _ _ _ _ bioConflict LongestValueStrategy resolution).
      - reflexivity.
      - reflexivity.
      - exact H. }
    split; [reflexivity|].
    intros Hu. apply (Hu resolution). cbn [calls].
    apply list_elem_of_further, list_elem_of_here.
  - intros Hu. apply (Hu longestBio).
    apply list_elem_of_further, list_elem_of_here.
Qed.

(** With the longest-value strategy as the specification describes it, the
    longer bio is applied. *)
Example scenarioD_longest_bio (recorded : Q) :
  resolve SpecifiedHelpers.hasSignificantVariance
    SpecifiedHelpers.hasDifferentValues
    (SpecifiedHelpers.LongestValueStrategy_resolve recorded)
    (fun _ _ _ => Throw "WeightedAverageStrategy is not defined")
    creator scenarioD
  = Ok {| resolvedProfile := creator;
          calls :=
            [applyResolution
               {| resolvedValue := JsString "Painter and dreamer";
                  strategy := "longest_value"; confidence := recorded;
                  reasoning := UsedLongestValueFrom "instagram" |};
             recordConflict bioConflict
               {| resolvedValue := JsString "Painter and dreamer";
                  strategy := "longest_value"; confidence := recorded;
                  reasoning := UsedLongestValueFrom "instagram" |}] |}.
Proof. reflexivity. Qed.

Lemma detected_conflicts_are_resolved_witness :
  exists s resolution,
    initializeStrategies !! type bioConflict = Some s /\
    (autoResolvable bioConflict = false -> s = LongestValueStrategy) /\
    (autoResolvable bioConflict = true -> s = LatestTimestampStrategy) /\
    strategy_resolve (SpecifiedHelpers.LongestValueStrategy_resolve 1)
      (fun _ _ _ => Throw "WeightedAverageStrategy is not defined")
      s bioConflict creator scenarioD = Ok resolution /\
    applyResolution resolution ∈ calls scenarioD_outcome /\
    recordConflict bioConflict resolution ∈ calls scenarioD_outcome.
Proof.
  apply (detected_conflicts_are_resolved
           SpecifiedHelpers.hasSignificantVariance
           SpecifiedHelpers.hasDifferentValues
           (SpecifiedHelpers.LongestValueStrategy_resolve 1)
           (fun _ _ _ => Throw "WeightedAverageStrategy is not defined")
           creator scenarioD scenarioD_outcome bioConflict).
  - reflexivity.
  - apply list_elem_of_here.
Defined.

(** C6, as stated, fails on Scenario C.  The counts 1000 and 1400 raise a
    follower_count_variance conflict; it is resolved to 1400, the count
    with the latest timestamp, under the strategy latest_timestamp, where
    the average weighted by follower count is 1233. *)
Lemma follower_variance_not_averaged :
  detect creator scenarioC = [followerConflict] /\
  initializeStrategies !! type followerConflict = Some LatestTimestampStrategy /\
  (forall longestValue weightedAverage,
     exists resolution,
       resolve SpecifiedHelpers.hasSignificantVariance
         SpecifiedHelpers.hasDifferentValues longestValue weightedAverage
         creator scenarioC
       = Ok {| resolvedProfile := creator;
               calls := [applyResolution resolution;
                         recordConflict followerConflict resolution] |} /\
       resolvedValue resolution = JsNumber 1400 /\
       strategy resolution = "latest_timestamp") /\
  SpecifiedHelpers.weightedAverage followerConflict scenarioC = 1233%Z.
Proof.
  split; [reflexivity|]. split; [reflexivity|]. split; [|reflexivity].
  intros longestValue weightedAverage. eexists.
  split; [reflexivity|]. split; reflexivity.
Qed.

Lemma follower_variance_latest_timestamp_witness :
  exists latest,
    latest ∈ values followerConflict /\
    (forall v, v ∈ values followerConflict -> (timestamp v <= timestamp latest)%Z) /\
    initializeStrategies !! type followerConflict = Some LatestTimestampStrategy /\
    (forall key, initializeStrategies !! key = Some WeightedAverageStrategy ->
                 key = "engagement_variance") /\
    resolveConflict (SpecifiedHelpers.LongestValueStrategy_resolve 1)
      (fun _ _ _ => Throw "WeightedAverageStrategy is not defined")
      creator scenarioC (Ok []) followerConflict
    = Ok ([] ++ [applyResolution (latestResolution latest);
                 recordConflict followerConflict (latestResolution latest)]).
Proof.
  apply (follower_variance_latest_timestamp
           (SpecifiedHelpers.LongestValueStrategy_resolve 1)
           (fun _ _ _ => Throw "WeightedAverageStrategy is not defined")
           creator scenarioC followerConflict []).
  - reflexivity.
  - discriminate.
Defined.

(** C7: the code at the failing input.  TikTok reports 1000 followers and
    the fetch from Instagram failed, so only one platform reported the
    field; the failed result is counted as 0 followers and a
    follower_count_variance conflict is raised over 1000 and 0. *)
Theorem phantom_follower_conflict :
  omap (fun r => m ← metrics r; followerCount m) oneFailed = [1000%Z] /\
  countsOf (followerCounts oneFailed) = [1000%Z; 0%Z] /\
  detect creator oneFailed = [phantomConflict].
Proof. repeat split. Qed.

(** The same under any variance test that tells 1000 from 0. *)
Lemma any_variance_test_raises_the_conflict
    (hasSignificantVariance : list Z -> bool)
    (hasDifferentValues : list string -> bool) :
  hasSignificantVariance [1000%Z; 0%Z] = true ->
  detectConflicts hasSignificantVariance hasDifferentValues creator oneFailed
  = [phantomConflict].
Proof. intros H. unfold detectConflicts. cbn. rewrite H. reflexivity. Qed.

(** The latest-timestamp strategy then picks the failed platform, whose
    count 0 is falsy, and resolves the follower count to [undefined]. *)
Example phantom_conflict_resolution :
  LatestTimestampStrategy_resolve phantomConflict
  = Ok {| resolvedValue := JsUndefined; strategy := "latest_timestamp";
          confidence := 0.9; reasoning := UsedLatestValueFrom "instagram" 2 |}.
Proof. reflexivity. Qed.

(** A bio changed to the empty string is falsy: its result drops out of
    [bioUpdates], and no conflict is raised although two platforms changed
    the bio to different values. *)
Example emptied_bio_is_dropped :
  detect creator
    [reported "tiktok" None (Some "") 1;
     reported "instagram" None (Some "Painter and dreamer") 2] = [].
Proof. reflexivity. Qed.

End ResolverScenarios.

(** * One synchronisation cycle *)

Section Engine.

Import ProfileSync Statements.

Variable PlatformProfileData : Type.
Variable hasSignificantVariance : list Z -> bool.
Variable hasDifferentValues : list string -> bool.
Variable LongestValueStrategy_resolve WeightedAverageStrategy_resolve :
  DataConflict -> CreatorProfile -> list PlatformSyncResult -> result ResolutionResult.
Variable getConflicts : ResolveOutcome -> list DataConflict.
Variable getUpdatedFields : ResolveOutcome -> list string.
Variable platformAdapters : gmap string (PlatformAdapter PlatformProfileData).
Variable getCreatorProfile : string -> result CreatorProfile.
Variable updateCreatorProfile : ResolveOutcome -> result unit.
Variable detectChanges : PlatformConnection -> PlatformProfileData -> result ChangeSet.
Variable updatePlatformCache : string -> TransformedPlatformData -> result unit.
Variable settledAt : string -> Z.
Variable cycleEnd : Z.

Local Abbreviation syncOne :=
  (syncWithPlatform PlatformProfileData detectChanges updatePlatformCache settledAt).
Local Abbreviation one :=
  (syncConnection PlatformProfileData platformAdapters detectChanges
     updatePlatformCache settledAt).
Local Abbreviation valid :=
  (validResults PlatformProfileData platformAdapters detectChanges
     updatePlatformCache settledAt).
Local Abbreviation resolveAll :=
  (resolve hasSignificantVariance hasDifferentValues
     LongestValueStrategy_resolve WeightedAverageStrategy_resolve).
Local Abbreviation sync :=
  (syncCreatorProfile PlatformProfileData hasSignificantVariance
     hasDifferentValues LongestValueStrategy_resolve
     WeightedAverageStrategy_resolve getConflicts getUpdatedFields
     platformAdapters getCreatorProfile updateCreatorProfile detectChanges
     updatePlatformCache settledAt cycleEnd).

(** [syncWithPlatform] never throws: it yields one of two shapes. *)
Lemma syncWithPlatform_typed profile connection adapter :
  platformId (syncOne profile connection adapter) = connection_platformId connection /\
  (isSnapshot (syncOne profile connection adapter) \/
   isTypedFailure (syncOne profile connection adapter)).
Proof.
  unfold syncWithPlatform, isSnapshot, isTypedFailure.
  destruct (fetchProfileData _ adapter connection) as [d|]; cbn;
    [|split; [reflexivity|]; right; eauto 10].
  destruct (detectChanges connection d) as [c|]; cbn;
    [|split; [reflexivity|]; right; eauto 10].
  destruct (transformData _ adapter d) as [t|]; cbn;
    [|split; [reflexivity|]; right; eauto 10].
  destruct (updatePlatformCache _ t) as [[]|]; cbn; split; try reflexivity;
    [left|right]; eauto 10.
Qed.

Lemma syncWithPlatform_fetch_throws profile connection adapter message :
  fetchProfileData _ adapter connection = Throw message ->
  isTypedFailure (syncOne profile connection adapter) /\
  error (syncOne profile connection adapter) = Some message.
Proof.
  intros H. unfold syncWithPlatform, isTypedFailure. rewrite H. cbn. eauto 10.
Qed.

(** The valid results are the results of the connections taken one by one:
    what one connection yields does not depend on the others. *)
Lemma validResults_pointwise profile :
  valid profile = omap (one profile) (platformConnections profile).
Proof.
  unfold validResults.
  induction (platformConnections profile) as [|c cs IH]; [reflexivity|].
  cbn. rewrite IH. destruct (one profile c); reflexivity.
Qed.

Lemma connected_is_valid profile connection adapter :
  connection ∈ platformConnections profile ->
  connectionStatus connection = connected ->
  platformAdapters !! connection_platformId connection = Some adapter ->
  syncOne profile connection adapter ∈ valid profile.
Proof.
  intros Hin Hc Ha. rewrite validResults_pointwise.
  apply list_elem_of_omap. exists connection. split; [exact Hin|].
  unfold syncConnection. rewrite Ha, Hc. reflexivity.
Qed.

End Engine.

Section EngineScenarios.

Import ProfileSync Statements Scenarios.Sync.

(** TikTok answers and Instagram's fetch throws: the cycle returns, both
    platforms are listed, and the cycle as a whole is not a success. *)
Example one_platform_fails :
  exists synced,
    sync "uci_1" = Ok synced /\
    syncedPlatforms synced = ["tiktok"; "instagram"] /\
    sync_success synced = false.
Proof. eexists. split; [reflexivity|]. split; reflexivity. Qed.

End EngineScenarios.

(** * One synchronisation cycle, with the rejections of JavaScript *)

Section Engine64.

Import Async ProfileSync CrossPlatformSyncEngine Statements64.

Variable PlatformProfileData : Type.
Variable platformAdapters : gmap string (PlatformAdapter PlatformProfileData).
Variable getCreatorProfile : string -> promise CreatorProfile.
Variable updateCreatorProfile : ResolveOutcome -> promise unit.
Variable detectChanges : PlatformConnection -> PlatformProfileData -> promise ChangeSet.
Variable updatePlatformCache : string -> TransformedPlatformData -> promise unit.
Variable resolve : CreatorProfile -> list PlatformSyncResult -> promise ResolveOutcome.
Variable getConflicts : ResolveOutcome -> list DataConflict.
Variable getUpdatedFields : ResolveOutcome -> list string.
Variable settledAt : string -> Z.
Variable cycleEnd : Z.

Local Abbreviation steps :=
  (fetched PlatformProfileData detectChanges updatePlatformCache).
Local Abbreviation syncOne :=
  (syncWithPlatform PlatformProfileData detectChanges updatePlatformCache settledAt).
Local Abbreviation one :=
  (syncConnection PlatformProfileData platformAdapters detectChanges
     updatePlatformCache settledAt).
Local Abbreviation sync :=
  (syncCreatorProfile PlatformProfileData platformAdapters getCreatorProfile
     updateCreatorProfile detectChanges updatePlatformCache resolve getConflicts
     getUpdatedFields settledAt cycleEnd).

(** A platform whose four steps resolve yields the snapshot of what was
    fetched. *)
Lemma syncWithPlatform_snapshot profile connection adapter changed transformed :
  steps connection adapter = Resolved (changed, transformed) ->
  syncOne profile connection adapter
  = Resolved (snapshotOf connection changed transformed
                (settledAt (connection_platformId connection))).
Proof. intros H. unfold syncWithPlatform. rewrite H. reflexivity. Qed.

(** A step that rejects with a reason that has properties yields the typed
    failure with the message of the reason. *)
Lemma syncWithPlatform_failure profile connection adapter r :
  steps connection adapter = Rejected r ->
  nullish r = false ->
  exists message,
    messageOf r = Resolved message /\
    syncOne profile connection adapter
    = Resolved (failureOf connection message
                  (settledAt (connection_platformId connection))).
Proof.
  intros H Hr. unfold syncWithPlatform. rewrite H.
  destruct r; try discriminate; eexists; split; reflexivity.
Qed.

(** A step that rejects with [null] or [undefined] makes the [catch] block
    throw: [syncWithPlatform] itself rejects. *)
Lemma syncWithPlatform_rejects profile connection adapter r :
  steps connection adapter = Rejected r ->
  nullish r = true ->
  syncOne profile connection adapter = r' ← messageOf r; Rejected Undefined.
Proof.
  intros H Hr. unfold syncWithPlatform. rewrite H.
  destruct r; try discriminate; reflexivity.
Qed.

Lemma all_rejected {A} (promises : list (promise A)) p r :
  p ∈ promises -> p = Rejected r -> resolved (all promises) = false.
Proof.
  intros Hin ->. induction promises as [|q qs IH]; [inversion Hin|].
  apply elem_of_cons in Hin as [<-|Hin]; [reflexivity|].
  cbn [all]. destruct q as [a|]; [|reflexivity].
  specialize (IH Hin). destruct (all qs); [discriminate | reflexivity].
Qed.

Lemma all_resolved {A} (promises : list (promise A)) values p :
  all promises = Resolved values -> p ∈ promises ->
  exists a, p = Resolved a /\ a ∈ values.
Proof.
  revert values. induction promises as [|q qs IH]; intros values H Hin;
    [inversion Hin|].
  cbn [all] in H. destruct q as [b|]; [|discriminate].
  destruct (all qs) as [vs|] eqn:E; [|discriminate].
  injection H as <-.
  apply elem_of_cons in Hin as [->|Hin].
  - exists b. split; [reflexivity | apply list_elem_of_here].
  - destruct (IH vs eq_refl Hin) as (a & -> & Ha).
    exists a. split; [reflexivity | apply list_elem_of_further, Ha].
Qed.

Lemma all_of_resolved {A} (promises : list (promise A)) :
  Forall (fun p => resolved p = true) promises ->
  exists values, all promises = Resolved values.
Proof.
  induction 1 as [|p ps Hp _ [vs IH]]; [exists []; reflexivity|].
  destruct p as [a|]; [|discriminate].
  exists (a :: vs). cbn [all]. rewrite IH. reflexivity.
Qed.

(** Isolation holds for failures that carry a reason.  When no
    synchronised platform has a step that rejects with [null] or
    [undefined], the result of a connected platform A whose steps resolve
    is the snapshot of A's data, it is among the results handed to the
    resolver, A is among [syncedPlatforms] whenever the cycle resolves, and
    the cycle resolves whenever the resolver and the profile update do. *)
Lemma failure_with_a_reason_is_isolated (creatorId : string)
    (profile : CreatorProfile) (platformA : PlatformConnection)
    (adapterA : PlatformAdapter PlatformProfileData) changed transformed :
  getCreatorProfile creatorId = Resolved profile ->
  platformA ∈ platformConnections profile ->
  connectionStatus platformA = connected ->
  platformAdapters !! connection_platformId platformA = Some adapterA ->
  steps platformA adapterA = Resolved (changed, transformed) ->
  (forall connection adapter r,
     connection ∈ platformConnections profile ->
     platformAdapters !! connection_platformId connection = Some adapter ->
     steps connection adapter = Rejected r -> nullish r = false) ->
  exists results,
    all (map (one profile) (platformConnections profile)) = Resolved results /\
    snapshotOf platformA changed transformed
      (settledAt (connection_platformId platformA)) ∈ omap (fun r => r) results /\
    (forall synced,
       sync creatorId = Resolved synced ->
       connection_platformId platformA ∈ syncedPlatforms synced) /\
    (forall outcome,
       resolve profile (omap (fun r => r) results) = Resolved outcome ->
       updateCreatorProfile outcome = Resolved tt ->
       exists synced, sync creatorId = Resolved synced).
Proof.
  intros Hp Hin Hc Ha Hsteps Hreasons.
  destruct (all_of_resolved (map (one profile) (platformConnections profile)))
    as [results Hall].
  { apply Forall_forall. intros p Hp'.
    apply list_elem_of_fmap in Hp' as (connection & -> & Hconn).
    unfold syncConnection.
    destruct (platformAdapters !! connection_platformId connection) as [adapter|] eqn:E;
      [|reflexivity].
    destruct (connectionStatus connection); try reflexivity.
    destruct (steps connection adapter) as [[ch tr]|r] eqn:Es.
    - rewrite (syncWithPlatform_snapshot _ _ _ _ _ Es). reflexivity.
    - destruct (syncWithPlatform_failure profile _ _ _ Es
                  (Hreasons _ _ _ Hconn E Es)) as (message & _ & ->).
      reflexivity. }
  exists results. split; [exact Hall|].
  assert (snapshotOf platformA changed transformed
            (settledAt (connection_platformId platformA))
          ∈ omap (fun r => r) results) as Hsnap.
  { destruct (all_resolved _ _ (one profile platformA) Hall) as (a & Ea & Hain).
    { apply list_elem_of_fmap. exists platformA. split; [reflexivity | exact Hin]. }
    unfold syncConnection in Ea. rewrite Ha, Hc in Ea.
    rewrite (syncWithPlatform_snapshot _ _ _ _ _ Hsteps) in Ea.
    cbn in Ea. injection Ea as <-.
    apply list_elem_of_omap. eexists. split; [exact Hain | reflexivity]. }
  split; [exact Hsnap|]. split.
  - intros synced. unfold syncCreatorProfile. rewrite Hp. cbn [mbind promise_bind].
    rewrite Hall. cbn [mbind promise_bind].
    destruct (resolve _ _) as [o|]; cbn [mbind promise_bind]; [|discriminate].
    destruct (updateCreatorProfile o) as [[]|]; cbn [mbind promise_bind]; [|discriminate].
    intros [= <-]. cbn [syncedPlatforms].
    apply list_elem_of_fmap. eexists. split; [|exact Hsnap]. reflexivity.
  - intros outcome Hres Hup. unfold syncCreatorProfile. rewrite Hp.
    cbn [mbind promise_bind]. rewrite Hall. cbn [mbind promise_bind].
    rewrite Hres. cbn [mbind promise_bind]. rewrite Hup. cbn [mbind promise_bind]. eauto.
Qed.

(** A connected platform one of whose steps rejects with [null] or
    [undefined] aborts the cycle, whatever the other platforms fetched:
    [syncCreatorProfile] rejects, the resolver is not reached and no
    report is returned. *)
Lemma rejection_without_a_reason_aborts (creatorId : string)
    (profile : CreatorProfile) (platformB : PlatformConnection)
    (adapterB : PlatformAdapter PlatformProfileData) r :
  getCreatorProfile creatorId = Resolved profile ->
  platformB ∈ platformConnections profile ->
  connectionStatus platformB = connected ->
  platformAdapters !! connection_platformId platformB = Some adapterB ->
  steps platformB adapterB = Rejected r ->
  nullish r = true ->
  resolved (sync creatorId) = false.
Proof.
  intros Hp Hin Hc Ha Hsteps Hr. unfold syncCreatorProfile. rewrite Hp.
  cbn [mbind promise_bind].
  assert (resolved (all (map (one profile) (platformConnections profile))) = false) as H.
  { destruct r; try discriminate.
    - apply (all_rejected _ (one profile platformB) (ErrorObject
               "Cannot read properties of null (reading 'message')")).
      + apply list_elem_of_fmap. exists platformB. split; [reflexivity | exact Hin].
      + unfold syncConnection. rewrite Ha, Hc.
        rewrite (syncWithPlatform_rejects _ _ _ _ Hsteps eq_refl). reflexivity.
    - apply (all_rejected _ (one profile platformB) (ErrorObject
               "Cannot read properties of undefined (reading 'message')")).
      + apply list_elem_of_fmap. exists platformB. split; [reflexivity | exact Hin].
      + unfold syncConnection. rewrite Ha, Hc.
        rewrite (syncWithPlatform_rejects _ _ _ _ Hsteps eq_refl). reflexivity. }
  destruct (all _); [discriminate | reflexivity].
Qed.

End Engine64.

Section EngineScenarios64.

Import Async ProfileSync CrossPlatformSyncEngine Statements64 Scenarios64.Sync.

(** C8: the code at the failing input.  TikTok answers with 1000
    followers and Instagram's fetch rejects with [undefined]: the [catch]
    block of [syncWithPlatform] throws on [error.message], [Promise.all]
    rejects, and the cycle rejects with that [TypeError]; TikTok's data is
    not processed and no [syncedPlatforms] is returned.  When the same
    fetch rejects with an [Error], the cycle returns and lists both
    platforms. *)
Theorem rejection_without_reason_aborts_the_cycle :
  syncWithPlatform Z unchanged cached Scenarios.Sync.settledAt Scenarios.Sync.creator
    Scenarios.Sync.tiktok (answering 1000)
  = Resolved
      (snapshotOf Scenarios.Sync.tiktok {| profile := None |}
         {| transformed_metrics :=
              {| followerCount := Some 1000%Z; engagementRate := None |} |} 1) /\
  syncWhen Undefined "uci_1"
  = Rejected (ErrorObject "Cannot read properties of undefined (reading 'message')") /\
  exists synced,
    syncWhen (ErrorObject "rate limited") "uci_1" = Resolved synced /\
    syncedPlatforms synced = ["tiktok"; "instagram"] /\
    sync_success synced = false.
Proof.
  split; [vm_compute; reflexivity|]. split; [vm_compute; reflexivity|].
  eexists. split; [vm_compute; reflexivity|]. split; reflexivity.
Qed.

End EngineScenarios64.

(** * More on the verification level *)

Section ScorerMore.
Import CreativeIdentity Specification Statements MoreStatements.

Lemma addContribution_not_verified score m :
  isVerified m = false -> addContribution score m = score.
Proof. unfold addContribution, isVerified. destruct (status m); congruence. Qed.

Lemma score_verifiedOnly methods : forall score,
  fold_left addContribution (verifiedOnly methods) score
  = fold_left addContribution methods score.
Proof.
  unfold verifiedOnly.
  induction methods as [|m ms IH]; intros score; [reflexivity|].
  rewrite filter_cons. destruct (isVerified m) eqn:E.
  - destruct (decide (Is_true true)) as [|n]; [|exfalso; apply n; exact I].
    cbn [fold_left]. apply IH.
  - destruct (decide (Is_true false)) as [[]|]. cbn [fold_left].
    rewrite (addContribution_not_verified _ _ E). apply IH.
Qed.

(** X1.  The verification level depends on the verified methods only:
    it is the level of the list with every other method filtered out, and
    taking a pending, failed or expired method out of the list, wherever it
    stands, leaves the level as it is. *)
Theorem unverified_methods_are_ignored (methods : list VerificationMethod) :
  calculateVerificationLevel (verifiedOnly methods) = calculateVerificationLevel methods /\
  (forall before m after, methods = before ++ m :: after -> status m <> verified ->
     calculateVerificationLevel (before ++ after) = calculateVerificationLevel methods).
Proof.
  unfold calculateVerificationLevel. split.
  - rewrite score_verifiedOnly. reflexivity.
  - intros before m after -> H. rewrite !fold_left_app. cbn [fold_left].
    rewrite addContribution_not_verified; [reflexivity|].
    unfold isVerified. destruct (status m); congruence.
Qed.




End ScorerMore.

(** * More on creating an identity and adding a method *)

Section IdentityOperationsMore.

Import CreativeIdentity Specification Statements MoreStatements.

Variable verifyBiometric : BiometricData -> result BiometricVerification.
Variable registerCreator :
  string -> string -> string -> Z -> PrivacySettings -> result StoryRegistration.
Variable deployIdentityContract :
  string -> string -> string -> string -> result ContractDeployment.
Variable storeIdentity : UniversalCreativeID -> result unit.
Variable getIdentity : string -> result (option UniversalCreativeID).
Variable generateUniversalID : BiometricData -> string -> string.
Variable hashBiometricData : BiometricData -> string.
Variable generateBackupCodes : list string.
Variable generateQRCode : UniversalCreativeID -> string.
Variable signer_address : string.
Variable now : Z.

Local Abbreviation createWith connectPlatform :=
  (createIdentity verifyBiometric registerCreator deployIdentityContract
     connectPlatform storeIdentity generateUniversalID hashBiometricData
     generateBackupCodes generateQRCode signer_address now).
Local Abbreviation updateWith updateIdentityOnChain :=
  (updateVerificationLevel storeIdentity getIdentity updateIdentityOnChain now).

(** X4.  With [connectPlatform] as the source has it (it always
    throws), every identity that [createIdentity] returns has no connected
    platform, the base level 10 and the biometric method as its only
    verification method, whatever initial platforms were requested. *)
Theorem unimplemented_connector_connects_nothing (request : CreateIdentityRequest)
    (response : CreateIdentityResponse) :
  createWith connectPlatform_source request = Ok response ->
  connectedPlatforms (identity response) = ∅ /\
  verificationLevel (identity response) = 10%Z /\
  length (verificationMethods (identity response)) = 1%nat.
Proof.
  unfold createIdentity, rethrow.
  destruct (verifyBiometric (biometricData request)) as [v|]; cbn; [|discriminate].
  destruct (Qltb (verification_confidence v) 0.95); [discriminate|].
  destruct (registerCreator _ _ _ _ _) as [reg|]; cbn; [|discriminate].
  destruct (deployIdentityContract _ _ _ _) as [dep|]; cbn; [|discriminate].
  destruct (storeIdentity _) as [[]|]; cbn; [|discriminate].
  intros [= <-]. cbn [identity].
  destruct (initialPlatforms request) as [ps|]; [|repeat split; reflexivity].
  match goal with |- context [fold_left ?f ps ?i0] =>
    assert (fold_left f ps i0 = i0) as ->
  end.
  { induction ps as [|p ps IH]; [reflexivity|]. exact IH. }
  repeat split; reflexivity.
Qed.

Variable connectPlatform :
  string -> PlatformConnectionRequest -> result PlatformConnection.

Local Abbreviation create := (createWith connectPlatform).
Local Abbreviation connect := (connectInitialPlatform connectPlatform).

(** The loop over the initial platforms adds to the map the platform id of
    every connection that succeeds. *)
Lemma connect_dom ps : forall i,
  dom (connectedPlatforms (fold_left connect ps i))
  = dom (connectedPlatforms i)
    ∪ list_to_set (map platformId (connectedRequests connectPlatform (id i) ps)).
Proof.
  unfold connectedRequests.
  induction ps as [|p ps IH]; intros i; cbn [fold_left].
  - cbn. rewrite (right_id_L ∅ (∪)). reflexivity.
  - rewrite IH, (connect_id connectPlatform), filter_cons.
    unfold connectInitialPlatform.
    destruct (connectPlatform (id i) p) as [connection|] eqn:E.
    + rewrite decide_True by exact I.
      cbn [connectedPlatforms set_verificationLevel set_connectedPlatforms map
           list_to_set].
      rewrite dom_insert_L, (comm_L (∪) {[platformId p]} (dom _)).
      rewrite <- (assoc_L (∪)). reflexivity.
    + rewrite decide_False by (intros []). reflexivity.
Qed.

Lemma createIdentity_platforms request response :
  create request = Ok response ->
  dom (connectedPlatforms (identity response))
  = list_to_set
      (map platformId
         (connectedRequests connectPlatform (id (identity response))
            (platformsOf request))).
Proof.
  unfold createIdentity, rethrow.
  destruct (verifyBiometric (biometricData request)) as [v|]; cbn; [|discriminate].
  destruct (Qltb (verification_confidence v) 0.95); [discriminate|].
  destruct (registerCreator _ _ _ _ _) as [reg|]; cbn; [|discriminate].
  destruct (deployIdentityContract _ _ _ _) as [dep|]; cbn; [|discriminate].
  destruct (storeIdentity _) as [[]|]; cbn; [|discriminate].
  intros [= <-]. cbn [identity]. unfold platformsOf.
  destruct (initialPlatforms request) as [ps|]; cbn [default].
  - rewrite connect_dom.
    match goal with |- context [fold_left _ ps ?i0] =>
      destruct (connect_all connectPlatform ps i0) as (-> & _ & _)
    end.
    cbn [connectedPlatforms id]. rewrite dom_empty_L, (left_id_L ∅ (∪)). reflexivity.
  - cbn. apply dom_empty_L.
Qed.

Local Abbreviation connectedIn request response :=
  (connectedRequests connectPlatform (id (identity response)) (platformsOf request)).

Lemma size_list_to_set_le (l : list string) :
  (size (list_to_set l : gset string) <= length l)%nat.
Proof.
  induction l as [|x l IH]; cbn [list_to_set length].
  - rewrite size_empty. lia.
  - rewrite size_union_alt, size_singleton.
    assert (size (list_to_set l ∖ {[x]} : gset string)
            <= size (list_to_set l : gset string))%nat
      by (apply subseteq_size, subseteq_difference_l; reflexivity).
    lia.
Qed.

(** X5.  The connected platforms of a created identity are exactly the
    platform ids of the initial requests whose connection succeeded.  The
    stored level is at least 10 plus ten per connected platform, and equal
    to it when no platform id succeeds twice: a platform requested twice
    is stored once and counted twice. *)
Theorem connected_platforms_of_creation (request : CreateIdentityRequest)
    (response : CreateIdentityResponse) :
  create request = Ok response ->
  dom (connectedPlatforms (identity response))
  = list_to_set (map platformId (connectedIn request response)) /\
  (10 + 10 * Z.of_nat (size (connectedPlatforms (identity response)))
   <= verificationLevel (identity response))%Z /\
  (NoDup (map platformId (connectedIn request response)) ->
   verificationLevel (identity response)
   = (10 + 10 * Z.of_nat (size (connectedPlatforms (identity response))))%Z).
Proof.
  intros H. set (connected := connectedIn request response).
  pose proof (createIdentity_platforms _ _ H) as Hdom. fold connected in Hdom.
  apply (createIdentity_inv verifyBiometric registerCreator deployIdentityContract
           connectPlatform storeIdentity generateUniversalID hashBiometricData
           generateBackupCodes generateQRCode signer_address now) in H
    as (v & _ & _ & _ & Hl).
  assert (size (connectedPlatforms (identity response))
          = size (list_to_set (map platformId connected) : gset string)) as Hsize.
  { rewrite <- Hdom. symmetry. apply size_dom. }
  assert (connectedCount connectPlatform (id (identity response)) (platformsOf request)
          = length (map platformId connected)) as Hcount.
  { rewrite length_map. reflexivity. }
  rewrite Hl, Hcount, Hsize. split; [exact Hdom|]. split.
  - pose proof (size_list_to_set_le (map platformId connected)). lia.
  - intros Hnd. rewrite size_list_to_set by exact Hnd. reflexivity.
Qed.

(** X6.  [updateVerificationLevel] never calls [updateIdentityOnChain]:
    its result is the same for every implementation of the chain update,
    and it succeeds with a chain update that always throws.  (The level is
    overwritten before the difference to the new level is taken, so the
    difference is 0.) *)
Theorem chain_is_never_updated (identityId : string) (m : VerificationMethod)
    (chain1 chain2 : string -> Z -> Z -> result unit) :
  updateWith chain1 identityId m = updateWith chain2 identityId m /\
  (forall identity,
     getIdentity identityId = Ok (Some identity) ->
     storeIdentity
       (set_updatedAt now
          (set_verificationLevel
             (calculateVerificationLevel (verificationMethods identity ++ [m]))
             (set_verificationMethods (verificationMethods identity ++ [m]) identity)))
     = Ok tt ->
     succeeded (updateWith (fun _ _ _ => Throw "chain unavailable") identityId m) = true).
Proof.
  unfold updateVerificationLevel. split.
  - destruct (getIdentity identityId) as [[identity|]|]; cbn; try reflexivity.
    rewrite Z.sub_diag. reflexivity.
  - intros identity Hget Hstore. rewrite Hget. cbn. rewrite Z.sub_diag. cbn.
    rewrite Hstore. reflexivity.
Qed.


Variable updateIdentityOnChain : string -> Z -> Z -> result unit.
Local Abbreviation update := (updateWith updateIdentityOnChain).


End IdentityOperationsMore.

(** * Content credentials *)

Section ContentCredentials.

Import Async CreativeIdentityContent Statements64.

Variable sha256Hex : string -> string.
Variable randomUUID : string.
Variable now : Z.
Variable verifyAuthenticity :
  string -> string -> string -> string -> promise AuthenticityProof.
Variable generateC2PAManifest :
  string -> string -> string -> Z -> AuthenticityProof -> promise string.
Variable storeContentMetadata : string -> string -> AuthenticityProof -> promise string.
Variable registerContentOnChain :
  string -> string -> string -> spec_float -> promise string.
Variable addContentCredential : string -> ContentCredential -> promise unit.

Local Abbreviation verifyContent :=
  (verifyContentAuthenticity sha256Hex randomUUID now verifyAuthenticity
     generateC2PAManifest storeContentMetadata registerContentOnChain
     addContentCredential).


End ContentCredentials.

Section BackupCodes.

Import CreativeIdentityContent MoreStatements.

Lemma generateBackupCodes_map randomBytes :
  generateBackupCodes randomBytes =
  map (fun i => toUpperCase (toHex (randomBytes i 8%nat))) (seq 0 10).
Proof.
  unfold generateBackupCodes.
  enough (forall l acc,
            fold_left (fun codes i =>
                         codes ++ [toUpperCase (toHex (randomBytes i 8%nat))]) l acc
            = acc ++ map (fun i => toUpperCase (toHex (randomBytes i 8%nat))) l) as H
    by (rewrite H; reflexivity).
  induction l as [|i l IH]; intros acc; cbn [fold_left map].
  - now rewrite app_nil_r.
  - rewrite IH, <- app_assoc. reflexivity.
Qed.

Lemma toHex_length bytes : String.length (toHex bytes) = (2 * List.length bytes)%nat.
Proof. induction bytes as [|b bytes IH]; cbn [toHex String.length List.length]; lia. Qed.

Lemma toUpperCase_length s : String.length (toUpperCase s) = String.length s.
Proof. induction s as [|c s IH]; cbn; congruence. Qed.

Lemma upper_hexDigit n : (n < 16)%N -> isUpperHex (upperChar (hexDigit n)) = true.
Proof.
  intros H. destruct n as [|digit]; [reflexivity|].
  do 4 (destruct digit as [digit|digit|]; try reflexivity); lia.
Qed.

Lemma toHex_upper bytes : allChars isUpperHex (toUpperCase (toHex bytes)) = true.
Proof.
  induction bytes as [|b bytes IH]; [reflexivity|].
  cbn [toHex toUpperCase allChars]. rewrite IH.
  pose proof (Byte.to_N_bounded b) as Hb.
  rewrite !upper_hexDigit; [reflexivity| |].
  - apply N.mod_lt. discriminate.
  - apply N.Div0.div_lt_upper_bound. lia.
Qed.

(** X9.  When the random source yields the eight bytes it is asked for,
    [generateBackupCodes] returns ten codes, each of sixteen characters
    among 0-9 and A-F. *)
Theorem backup_codes_format (randomBytes : nat -> nat -> list Byte.byte) :
  (forall i, List.length (randomBytes i 8%nat) = 8%nat) ->
  List.length (generateBackupCodes randomBytes) = 10%nat /\
  forall code, code ∈ generateBackupCodes randomBytes ->
    String.length code = 16%nat /\ allChars isUpperHex code = true.
Proof.
  intros Hbytes. rewrite generateBackupCodes_map. split.
  - now rewrite length_map, length_seq.
  - intros code Hin. apply list_elem_of_fmap in Hin as (i & -> & _).
    split.
    + rewrite toUpperCase_length, toHex_length, Hbytes. reflexivity.
    + apply toHex_upper.
Qed.

End BackupCodes.

Section ResolverMore.

Import ProfileSync Statements MoreStatements.

Variable hasSignificantVariance : list Z -> bool.
Variable hasDifferentValues : list string -> bool.
Variable LongestValueStrategy_resolve :
  DataConflict -> CreatorProfile -> list PlatformSyncResult -> result ResolutionResult.

Local Abbreviation detect :=
  (detectConflicts hasSignificantVariance hasDifferentValues).

(** The [reduce] keeps the entry it holds on a tie: the chosen entry is
    preceded by strictly earlier entries only. *)
Lemma latest_split rest : forall before first between,
  (forall v, v ∈ before -> (timestamp v < timestamp first)%Z) ->
  (forall v, v ∈ between -> (timestamp v <= timestamp first)%Z) ->
  exists before' after,
    before ++ first :: between ++ rest
      = before' ++ fold_left later rest first :: after /\
    (forall v, v ∈ before' ->
       (timestamp v < timestamp (fold_left later rest first))%Z) /\
    (forall v, v ∈ after ->
       (timestamp v <= timestamp (fold_left later rest first))%Z).
Proof.
  induction rest as [|curr rest IH]; intros before first between Hb Hm;
    cbn [fold_left].
  - exists before, between. rewrite app_nil_r. auto.
  - destruct (later_cases first curr) as [[E Ht]|[E Ht]]; rewrite E.
    + destruct (IH before first (between ++ [curr])) as (b & a & Heq & H1 & H2);
        [exact Hb| |].
      * intros v Hv. apply elem_of_app in Hv as [Hv|Hv]; [auto|].
        apply elem_of_cons in Hv as [->|Hv]; [exact Ht|inversion Hv].
      * exists b, a. rewrite <- Heq, <- app_assoc. auto.
    + destruct (IH (before ++ first :: between) curr []) as (b & a & Heq & H1 & H2).
      * intros v Hv. apply elem_of_app in Hv as [Hv|Hv]; [specialize (Hb v Hv); lia|].
        apply elem_of_cons in Hv as [->|Hv]; [exact Ht|].
        specialize (Hm v Hv). lia.
      * intros v Hv. inversion Hv.
      * exists b, a. rewrite <- Heq, <- app_assoc. auto.
Qed.

(** X10.  On a conflict with at least one candidate the
    latest-timestamp strategy returns, and the candidate it chooses is the
    first of those with the greatest timestamp: every candidate before it is
    strictly earlier, no candidate after it is later. *)
Theorem first_of_the_latest_wins (conflict : DataConflict) :
  values conflict <> [] ->
  exists before latest after,
    values conflict = before ++ latest :: after /\
    LatestTimestampStrategy_resolve conflict = Ok (latestResolution latest) /\
    (forall v, v ∈ before -> (timestamp v < timestamp latest)%Z) /\
    (forall v, v ∈ after -> (timestamp v <= timestamp latest)%Z).
Proof.
  intros Hne. unfold LatestTimestampStrategy_resolve.
  destruct (values conflict) as [|first rest]; [congruence|].
  destruct (latest_split rest [] first []) as (b & a & Heq & H1 & H2);
    try (intros v Hv; inversion Hv).
  exists b, (fold_left later rest first), a. auto.
Qed.

Lemma followerCounts_entry syncResults v :
  v ∈ followerCounts syncResults ->
  exists r, r ∈ syncResults /\ platform v = platformId r /\
    count v = Some (followerCountOr0 r) /\ value v = None /\
    timestamp v = lastSync r.
Proof.
  unfold followerCounts. intros H. apply list_elem_of_fmap in H as (r & -> & Hr).
  exists r. cbn. auto.
Qed.

(** X11.  A detected follower_count_variance conflict that the
    latest-timestamp strategy resolves is resolved to the count of a sync
    result settled last, and to [undefined] when that count is 0 (a platform
    with no follower, or a result that carries no count): the resolved
    value is never the number 0. *)
Theorem zero_followers_resolve_to_undefined (profile : CreatorProfile)
    (syncResults : list PlatformSyncResult) (conflict : DataConflict)
    (resolution : ResolutionResult) :
  conflict ∈ detect profile syncResults ->
  type conflict = "follower_count_variance" ->
  LatestTimestampStrategy_resolve conflict = Ok resolution ->
  exists latest,
    latest ∈ syncResults /\
    (forall r, r ∈ syncResults -> (lastSync r <= lastSync latest)%Z) /\
    resolvedValue resolution = truthyCount (followerCountOr0 latest) /\
    resolvedValue resolution <> JsNumber 0.
Proof.
  intros Hc Ht Hres.
  destruct (detected_types hasSignificantVariance hasDifferentValues _ _ _ Hc)
    as [(_ & _ & Hv)|(Ht' & _)]; [|congruence].
  unfold LatestTimestampStrategy_resolve in Hres. rewrite Hv in Hres.
  destruct (followerCounts syncResults) as [|first rest] eqn:E; [discriminate|].
  injection Hres as <-.
  destruct (latest_is_maximal rest first) as (Hin & Hfirst & Hrest).
  rewrite <- E in Hin.
  destruct (followerCounts_entry _ _ Hin) as (r & Hr & _ & Hcount & Hvalue & Htime).
  exists r. split; [exact Hr|]. split.
  - intros r' Hr'. rewrite <- Htime.
    assert ({| platform := platformId r'; count := Some (followerCountOr0 r');
               value_bio := None; value := None; timestamp := lastSync r' |}
            ∈ first :: rest) as Hin'.
    { rewrite <- E. unfold followerCounts. apply list_elem_of_fmap. eauto. }
    apply elem_of_cons in Hin' as [<-|Hin']; [exact Hfirst|].
    exact (Hrest _ Hin').
  - cbn [latestResolution resolvedValue]. unfold countOrValue, truthyCount.
    rewrite Hcount, Hvalue.
    destruct (Z.eqb_spec (followerCountOr0 r) 0); split; congruence.
Qed.

(** X12.  Every conflict that [detectConflicts] raises is registered
    under the latest-timestamp or the longest-value strategy: the
    verified-platform and the weighted-average strategies, although
    registered, are never run by [resolve], whose result is the same for
    every weighted-average strategy. *)
Theorem unreachable_strategies (profile : CreatorProfile)
    (syncResults : list PlatformSyncResult)
    (average average' :
       DataConflict -> CreatorProfile -> list PlatformSyncResult
       -> result ResolutionResult) :
  (forall c s, c ∈ detect profile syncResults ->
     initializeStrategies !! type c = Some s ->
     s = LatestTimestampStrategy \/ s = LongestValueStrategy) /\
  resolve hasSignificantVariance hasDifferentValues LongestValueStrategy_resolve
    average profile syncResults
  = resolve hasSignificantVariance hasDifferentValues LongestValueStrategy_resolve
      average' profile syncResults.
Proof.
  assert (forall c s, c ∈ detect profile syncResults ->
            initializeStrategies !! type c = Some s ->
            s = LatestTimestampStrategy \/ s = LongestValueStrategy) as Hs.
  { intros c s Hc Hl.
    destruct (detected_types hasSignificantVariance hasDifferentValues _ _ _ Hc)
      as [(Ht & _)|(Ht & _)]; rewrite Ht in Hl; injection Hl as <-; auto. }
  split; [exact Hs|]. unfold resolve.
  enough (forall cs made,
            (forall c, c ∈ cs -> c ∈ detect profile syncResults) ->
            fold_left (resolveConflict LongestValueStrategy_resolve average
                         profile syncResults) cs made
            = fold_left (resolveConflict LongestValueStrategy_resolve average'
                           profile syncResults) cs made) as H
    by (rewrite H; auto).
  induction cs as [|c cs IH]; intros made Hsub; [reflexivity|].
  cbn [fold_left].
  assert (resolveConflict LongestValueStrategy_resolve average profile syncResults
            made c
          = resolveConflict LongestValueStrategy_resolve average' profile
              syncResults made c) as ->.
  { unfold resolveConflict. destruct made as [made|]; [|reflexivity]. cbn.
    destruct (initializeStrategies !! type c) as [s|] eqn:Hl; [|reflexivity].
    destruct (Hs c s (Hsub c (list_elem_of_here _ _)) Hl) as [-> | ->]; reflexivity. }
  apply IH. intros c' Hc'. apply Hsub, list_elem_of_further, Hc'.
Qed.

Lemma bioUpdates_entry syncResults v :
  v ∈ bioUpdates syncResults ->
  exists r b, r ∈ syncResults /\ changedBio r = Some b /\ b <> "" /\
    platform v = platformId r /\ value_bio v = Some b /\ timestamp v = lastSync r.
Proof.
  unfold bioUpdates. intros H. apply list_elem_of_omap in H as (r & Hr & H).
  destruct (changedBio r) as [b|] eqn:E; [|discriminate]. cbn in H.
  injection H as <-. exists r, b. cbn. repeat split; auto.
  intros ->. unfold changedBio in E.
  destruct (changes r) as [c|]; [|discriminate]. cbn in E.
  destruct (profile c) as [p|]; [|discriminate]. cbn in E.
  destruct (bio p) as [b|]; [|discriminate]. cbn in E.
  destruct (String.eqb_spec b ""); [discriminate|]. congruence.
Qed.

Lemma bioUpdates_length syncResults :
  (length (bioUpdates syncResults) <= length syncResults)%nat.
Proof.
  unfold bioUpdates. induction syncResults as [|r rs IH]; cbn; [lia|].
  destruct (changedBio r); cbn; lia.
Qed.

(** At most two conflicts are raised.  A follower conflict has one
    candidate per sync result, in their order; a bio conflict has at least
    two candidates, each with a bio that is not empty. *)
Lemma detected_conflicts_shape (profile : CreatorProfile)
    (syncResults : list PlatformSyncResult) :
  (length (detect profile syncResults) <= 2)%nat /\
  forall c, c ∈ detect profile syncResults ->
    (type c = "follower_count_variance" /\
     length (values c) = length syncResults /\
     map platform (values c) = map platformId syncResults) \/
    (type c = "bio_conflict" /\
     (2 <= length (values c) <= length syncResults)%nat /\
     forall v, v ∈ values c ->
       exists r b, r ∈ syncResults /\
         changedBio r = Some b /\ b <> "" /\
         platform v = platformId r /\ value_bio v = Some b).
Proof.
  split.
  - unfold detectConflicts.
    destruct (hasSignificantVariance _); destruct (_ && _); cbn; lia.
  - intros c Hc.
    destruct (detected_types hasSignificantVariance hasDifferentValues _ _ _ Hc)
      as [(Ht & _ & Hv)|(Ht & _ & _ & Hv)]; [left|right]; rewrite Hv.
    + split; [exact Ht|]. unfold followerCounts.
      rewrite length_map, map_map. cbn. auto.
    + split; [exact Ht|]. split.
      * destruct (proj1 (bio_conflict_iff hasSignificantVariance hasDifferentValues
                           profile syncResults)) as [Hl _]; [eauto|].
        split; [lia|]. apply bioUpdates_length.
      * intros v Hin. destruct (bioUpdates_entry _ _ Hin) as (r & b & H).
        exists r, b. tauto.
Qed.

End ResolverMore.

Section EngineMore.

Import ProfileSync Statements MoreStatements.

Variable PlatformProfileData : Type.
Variable hasSignificantVariance : list Z -> bool.
Variable hasDifferentValues : list string -> bool.
Variable LongestValueStrategy_resolve WeightedAverageStrategy_resolve :
  DataConflict -> CreatorProfile -> list PlatformSyncResult -> result ResolutionResult.
Variable getConflicts : ResolveOutcome -> list DataConflict.
Variable getUpdatedFields : ResolveOutcome -> list string.
Variable platformAdapters : gmap string (PlatformAdapter PlatformProfileData).
Variable getCreatorProfile : string -> result CreatorProfile.
Variable updateCreatorProfile : ResolveOutcome -> result unit.
Variable detectChanges : PlatformConnection -> PlatformProfileData -> result ChangeSet.
Variable updatePlatformCache : string -> TransformedPlatformData -> result unit.
Variable settledAt : string -> Z.
Variable cycleEnd : Z.

Local Abbreviation syncOne :=
  (syncWithPlatform PlatformProfileData detectChanges updatePlatformCache settledAt).
Local Abbreviation one :=
  (syncConnection PlatformProfileData platformAdapters detectChanges
     updatePlatformCache settledAt).
Local Abbreviation valid :=
  (validResults PlatformProfileData platformAdapters detectChanges
     updatePlatformCache settledAt).
Local Abbreviation sync :=
  (syncCreatorProfile PlatformProfileData hasSignificantVariance
     hasDifferentValues LongestValueStrategy_resolve
     WeightedAverageStrategy_resolve getConflicts getUpdatedFields
     platformAdapters getCreatorProfile updateCreatorProfile detectChanges
     updatePlatformCache settledAt cycleEnd).

Local Abbreviation allReturn := (stepsReturn detectChanges updatePlatformCache).

Lemma syncWithPlatform_success profile connection adapter :
  success (syncOne profile connection adapter) = true <->
  allReturn connection adapter.
Proof.
  unfold syncWithPlatform, stepsReturn. split.
  - destruct (fetchProfileData _ adapter connection) as [d|]; cbn; [|discriminate].
    destruct (detectChanges connection d) as [c|] eqn:H2; cbn; [|discriminate].
    destruct (transformData _ adapter d) as [t|] eqn:H3; cbn; [|discriminate].
    destruct (updatePlatformCache _ t) as [[]|] eqn:H4; cbn; [|discriminate].
    intros _. exists d, c, t. auto.
  - intros (d & c & t & -> & H2 & H3 & H4). cbn. rewrite H2. cbn. rewrite H3. cbn.
    rewrite H4. reflexivity.
Qed.

Lemma syncConnection_cases profile connection :
  match platformAdapters !! connection_platformId connection with
  | Some adapter =>
      if synchronised platformAdapters connection
      then one profile connection = Some (syncOne profile connection adapter) /\
           connectionStatus connection = connected
      else one profile connection = None
  | None => synchronised platformAdapters connection = false /\
            one profile connection = None
  end.
Proof.
  unfold syncConnection, synchronised.
  destruct (platformAdapters !! connection_platformId connection); [|auto].
  destruct (connectionStatus connection); auto.
Qed.

Lemma omap_cons_eq {A B} (f : A -> option B) x l :
  omap f (x :: l) = match f x with Some y => y :: omap f l | None => omap f l end.
Proof. reflexivity. Qed.

Lemma syncedPlatforms_filter profile :
  map platformId (valid profile)
  = map connection_platformId
      (filter (fun c => Is_true (synchronised platformAdapters c))
         (platformConnections profile)).
Proof.
  rewrite validResults_pointwise.
  induction (platformConnections profile) as [|c cs IH]; [reflexivity|].
  rewrite filter_cons, omap_cons_eq.
  pose proof (syncConnection_cases profile c) as H.
  destruct (platformAdapters !! connection_platformId c) as [adapter|] eqn:Ha.
  - destruct (synchronised platformAdapters c).
    + destruct H as [-> _]. rewrite decide_True by exact I.
      cbn [map]. rewrite <- IH.
      f_equal. apply syncWithPlatform_typed.
    + rewrite H, decide_False by (intros []). exact IH.
  - destruct H as [-> ->]. rewrite decide_False by (intros []). exact IH.
Qed.

(** X13.  When a cycle returns, [syncedPlatforms] lists, in the order
    of the profile, the platform ids of the connections that have an adapter
    and the status connected (a connection with the status verified,
    expired or revoked is skipped), and [success] holds exactly when the
    four awaited steps return for each of them. *)
Theorem synced_platforms_are_the_connected_ones (creatorId : string)
    (profile : CreatorProfile) (synced : SyncResult) :
  getCreatorProfile creatorId = Ok profile ->
  sync creatorId = Ok synced ->
  syncedPlatforms synced
  = map connection_platformId
      (filter (fun c => Is_true (synchronised platformAdapters c))
         (platformConnections profile)) /\
  (sync_success synced = true <->
   forall connection adapter,
     connection ∈ platformConnections profile ->
     connectionStatus connection = connected ->
     platformAdapters !! connection_platformId connection = Some adapter ->
     allReturn connection adapter).
Proof.
  intros Hp. unfold syncCreatorProfile. rewrite Hp. cbn.
  destruct (resolve _ _ _ _ _ _) as [o|]; cbn; [|discriminate].
  destruct (updateCreatorProfile o) as [[]|]; cbn; [|discriminate].
  intros [= <-]. cbn [syncedPlatforms sync_success].
  split; [apply syncedPlatforms_filter|].
  rewrite forallb_forall. split.
  - intros H connection adapter Hin Hc Ha.
    apply (syncWithPlatform_success profile), H, list_elem_of_In.
    apply connected_is_valid; assumption.
  - intros H r Hr. apply list_elem_of_In in Hr.
    rewrite validResults_pointwise in Hr.
    apply list_elem_of_omap in Hr as (connection & Hin & Hr).
    pose proof (syncConnection_cases profile connection) as Hcases.
    destruct (platformAdapters !! connection_platformId connection)
      as [adapter|] eqn:Ha.
    + destruct (synchronised platformAdapters connection).
      * destruct Hcases as [Hone Hc]. rewrite Hone in Hr. injection Hr as <-.
        apply syncWithPlatform_success, H; assumption.
      * congruence.
    + destruct Hcases as [_ Hnone]. congruence.
Qed.

(** X14.  Every candidate of the bio comparison comes from a connected
    platform with an adapter whose four steps all returned: a platform whose
    synchronisation failed never enters a bio conflict. *)
Theorem bio_candidates_come_from_successful_syncs (profile : CreatorProfile)
    (candidate : ConflictValue) :
  candidate ∈ bioUpdates (valid profile) ->
  exists connection adapter,
    connection ∈ platformConnections profile /\
    connectionStatus connection = connected /\
    platformAdapters !! connection_platformId connection = Some adapter /\
    platform candidate = connection_platformId connection /\
    allReturn connection adapter.
Proof.
  intros Hin. unfold bioUpdates in Hin.
  apply list_elem_of_omap in Hin as (r & Hr & Hbio).
  rewrite validResults_pointwise in Hr.
  apply list_elem_of_omap in Hr as (connection & Hin & Hr).
  pose proof (syncConnection_cases profile connection) as Hcases.
  destruct (platformAdapters !! connection_platformId connection)
    as [adapter|] eqn:Ha; [|destruct Hcases; congruence].
  destruct (synchronised platformAdapters connection); [|congruence].
  destruct Hcases as [Hone Hc]. rewrite Hone in Hr. injection Hr as <-.
  exists connection, adapter. repeat split; try assumption.
  - destruct (changedBio _) as [b|]; [|discriminate]. cbn in Hbio.
    injection Hbio as <-. cbn. apply syncWithPlatform_typed.
  - apply (syncWithPlatform_success profile).
    destruct (syncWithPlatform_typed PlatformProfileData detectChanges
                updatePlatformCache settledAt profile connection adapter)
      as [_ [(Hs & _)|(_ & _ & _ & Hchanges)]]; [exact Hs|].
    unfold changedBio in Hbio. rewrite Hchanges in Hbio. discriminate.
Qed.

End EngineMore.

Section VerifiedPlatform.

Import ProfileSync.

Lemma find_split {A} (p : A -> bool) (l : list A) :
  match List.find p l with
  | Some x => exists before after,
      l = before ++ x :: after /\ p x = true /\
      forall y, y ∈ before -> p y = false
  | None => forall y, y ∈ l -> p y = false
  end.
Proof.
  induction l as [|a l IH]; cbn; [intros y Hy; inversion Hy|].
  destruct (p a) eqn:E.
  - exists [], l. split; [reflexivity|]. split; [exact E|].
    intros y Hy. inversion Hy.
  - destruct (List.find p l) as [x|].
    + destruct IH as (b & a' & Heq & Hx & Hb). exists (a :: b), a'.
      split; [rewrite Heq; reflexivity|]. split; [exact Hx|].
      intros y Hy. apply elem_of_cons in Hy as [->|Hy]; auto.
    + intros y Hy. apply elem_of_cons in Hy as [->|Hy]; auto.
Qed.

Local Abbreviation verifiedPlatforms profile :=
  (platformsVerified (verificationStatus profile)).

(** X15.  The verified-platform strategy, when no candidate comes from
    a verified platform, is the latest-timestamp strategy; otherwise it
    returns the [value] of the first candidate from a verified platform,
    whatever the timestamps, under the name verified_platform. *)
Theorem verified_platform_goes_first (conflict : DataConflict)
    (profile : CreatorProfile) :
  ((forall v, v ∈ values conflict -> platform v ∉ verifiedPlatforms profile) ->
   VerifiedPlatformStrategy_resolve conflict profile
   = LatestTimestampStrategy_resolve conflict) /\
  (forall v, v ∈ values conflict -> platform v ∈ verifiedPlatforms profile ->
   exists before chosen after resolution,
     values conflict = before ++ chosen :: after /\
     platform chosen ∈ verifiedPlatforms profile /\
     (forall w, w ∈ before -> platform w ∉ verifiedPlatforms profile) /\
     VerifiedPlatformStrategy_resolve conflict profile = Ok resolution /\
     strategy resolution = "verified_platform" /\
     reasoning resolution = UsedValueFromVerifiedPlatform (platform chosen) /\
     resolvedValue resolution
     = match value chosen with Some s => JsString s | None => JsUndefined end).
Proof.
  unfold VerifiedPlatformStrategy_resolve.
  pose proof (find_split (fun v => bool_decide (platform v ∈ verifiedPlatforms profile))
                (values conflict)) as H.
  destruct (List.find _ (values conflict)) as [x|].
  - destruct H as (b & a & Heq & Hx & Hb). apply bool_decide_eq_true in Hx. split.
    + intros Hnone. exfalso. apply (Hnone x); [|exact Hx].
      rewrite Heq. apply elem_of_app. right. apply list_elem_of_here.
    + intros v _ _. exists b, x, a. eexists. split; [exact Heq|].
      split; [exact Hx|]. split.
      * intros w Hw. specialize (Hb w Hw). apply bool_decide_eq_false in Hb. exact Hb.
      * split; [reflexivity|]. cbn. auto.
  - split; [reflexivity|]. intros v Hv Hin. specialize (H v Hv).
    apply bool_decide_eq_false in H. contradiction.
Qed.

End VerifiedPlatform.

(** * The TikTok adapter's helpers *)

Section Hashtags.

Import TikTokAdapter MoreStatements.

Lemma append_assoc (s1 s2 s3 : string) : (s1 +:+ s2) +:+ s3 = s1 +:+ s2 +:+ s3.
Proof.
  induction s1 as [|c s1 IH]; [reflexivity|].
  change (String c ((s1 +:+ s2) +:+ s3) = String c (s1 +:+ s2 +:+ s3)).
  rewrite IH. reflexivity.
Qed.

Lemma wordPrefix_spec s :
  s = fst (wordPrefix s) +:+ snd (wordPrefix s) /\
  allChars isWordChar (fst (wordPrefix s)) = true /\
  (String.length (snd (wordPrefix s)) <= String.length s)%nat.
Proof.
  induction s as [|c s (IH1 & IH2 & IH3)]; [cbn; auto|].
  cbn [wordPrefix]. destruct (isWordChar c) eqn:E.
  - destruct (wordPrefix s) as [word after]. cbn in *.
    rewrite E, IH2. split; [rewrite IH1 at 1; reflexivity|]. split; [reflexivity|lia].
  - cbn. auto.
Qed.

Lemma matchHashtag_spec s tag after :
  matchHashtag s = Some (tag, after) ->
  isHashtag tag /\ s = tag +:+ after /\
  (String.length after < String.length s)%nat.
Proof.
  unfold matchHashtag.
  destruct s as [|c s]; [discriminate|].
  destruct (Ascii.eqb_spec c "#") as [->|Hc].
  2:{ destruct c as [[] [] [] [] [] [] [] []]; try discriminate;
      exfalso; apply Hc; reflexivity. }
  destruct (wordPrefix_spec s) as (Hs & Hw & Hl).
  destruct (wordPrefix s) as [[|c word] rest]; [discriminate|].
  cbn in *. intros [= <- <-]. apply andb_prop in Hw as [Hc Hw].
  split; [exists c, word; auto|]. split; [rewrite Hs at 1; reflexivity|lia].
Qed.

Lemma matchHashtag_complete c rest :
  isWordChar c = true -> matchHashtag (String "#" (String c rest)) <> None.
Proof.
  intros H. unfold matchHashtag. cbn [wordPrefix]. rewrite H.
  destruct (wordPrefix rest). discriminate.
Qed.

Lemma matchAll_sound steps : forall s tag,
  tag ∈ matchAll steps s ->
  isHashtag tag /\ exists before after, s = before +:+ tag +:+ after.
Proof.
  induction steps as [|steps IH]; intros s tag Hin; [inversion Hin|].
  cbn [matchAll] in Hin.
  destruct (matchHashtag s) as [[tag' rest]|] eqn:E.
  - destruct (matchHashtag_spec _ _ _ E) as (Htag & Hs & _).
    apply elem_of_cons in Hin as [->|Hin].
    + split; [exact Htag|]. exists EmptyString, rest. exact Hs.
    + destruct (IH _ _ Hin) as (H & before & after & Hrest).
      split; [exact H|]. exists (tag' +:+ before), after.
      rewrite Hs, Hrest. symmetry. apply append_assoc.
  - destruct s as [|c s]; [inversion Hin|].
    destruct (IH _ _ Hin) as (H & before & after & Hrest).
    split; [exact H|]. exists (String c before), after. rewrite Hrest. reflexivity.
Qed.

Lemma matchAll_complete steps : forall s,
  (String.length s < steps)%nat -> hasHashtag s -> matchAll steps s <> [].
Proof.
  induction steps as [|steps IH]; intros s Hl (before & c & after & Hs & Hc); [lia|].
  cbn [matchAll].
  destruct (matchHashtag s) as [[tag rest]|] eqn:E; [discriminate|].
  destruct before as [|b before]; subst s.
  - exfalso. exact (matchHashtag_complete c after Hc E).
  - change (matchAll steps (before +:+ String "#" (String c after)) <> []).
    change (S (String.length (before +:+ String "#" (String c after))) < S steps)%nat
      in Hl.
    apply IH; [lia|]. exists before, c, after. auto.
Qed.

Lemma matchAll_steps s : forall steps steps',
  (String.length s < steps)%nat -> (String.length s < steps')%nat ->
  matchAll steps s = matchAll steps' s.
Proof.
  remember (String.length s) as n eqn:Hn. revert s Hn.
  induction n as [n IH] using lt_wf_ind. intros s Hn steps steps' H H'.
  destruct steps as [|steps]; [lia|]. destruct steps' as [|steps']; [lia|].
  cbn [matchAll].
  destruct (matchHashtag s) as [[tag rest]|] eqn:E.
  - destruct (matchHashtag_spec _ _ _ E) as (_ & _ & Hrest).
    f_equal. apply (IH (String.length rest)); lia.
  - destruct s as [|c s]; [reflexivity|]. cbn in Hn.
    apply (IH (String.length s)); lia.
Qed.

(** X16.  Every text that [extractHashtags] returns is the mark #
    followed by one or more word characters and occurs in the description;
    the result is empty exactly when no # of the description is directly
    followed by a word character; and the bound on the search steps is never
    reached (a larger bound gives the same list).  Descriptions are
    sequences of 8-bit characters. *)
Theorem hashtags_are_the_marked_words (description : string) :
  (forall tag, tag ∈ extractHashtags description ->
     isHashtag tag /\
     exists before after, description = before +:+ tag +:+ after) /\
  (extractHashtags description <> [] <-> hasHashtag description) /\
  (forall steps, (String.length description < steps)%nat ->
     matchAll steps description = extractHashtags description).
Proof.
  split; [intros tag; apply matchAll_sound|]. split.
  - split.
    + intros Hne. destruct (extractHashtags description) as [|tag l] eqn:E;
        [congruence|].
      destruct (matchAll_sound (S (String.length description)) description tag)
        as ((c & word & -> & Hc & _) & before & after & Hd).
      { fold (extractHashtags description). rewrite E. apply list_elem_of_here. }
      exists before, c, (word +:+ after). split; [exact Hd|exact Hc].
    + apply matchAll_complete. lia.
  - intros steps H. apply matchAll_steps; lia.
Qed.

End Hashtags.

(** * The average performance of the TikTok adapter *)

Section AveragePerformance.

Import TikTokAdapter MoreStatements.

Lemma totalEngagement_notNegative content : forall sum,
  Forall countsNotNegative content ->
  Binary64.notNegative sum = true ->
  Binary64.notNegative
    (fold_left (fun sum item => Binary64.add sum (engagement item)) content sum) = true.
Proof.
  induction content as [|item content IH]; intros sum H Hs; [exact Hs|].
  inversion H as [|? ? (Hl & Hsh & Hc) Hrest]; subst. cbn [fold_left].
  apply IH; [exact Hrest|]. unfold engagement.
  repeat apply add_notNegative; assumption.
Qed.

(** X17.  [calculateAvgPerformance] of no content is [NaN] (0 / 0).  Of a
    content that is not empty and whose counters are numbers that are not
    negative, it is a number that is not negative, possibly infinite, and
    never [NaN]. *)
Theorem average_performance (content : list ContentItem) :
  calculateAvgPerformance [] = S754_nan /\
  (content <> [] -> (Z.of_nat (length content) < 2 ^ 32)%Z ->
   Forall countsNotNegative content ->
   Binary64.notNegative (calculateAvgPerformance content) = true).
Proof.
  split; [reflexivity|]. intros Hne Hlen H. unfold calculateAvgPerformance.
  destruct (ofZ_length (length content)) as (m & e & ->);
    [destruct content; [congruence | cbn; lia] | exact Hlen |].
  apply div_notNegative, totalEngagement_notNegative; [exact H | reflexivity].
Qed.

End AveragePerformance.

Section AveragePerformanceScenario.

Import TikTokAdapter MoreStatements MoreScenarios.Sync.

Lemma average_performance_witness :
  Binary64.notNegative (calculateAvgPerformance videos) = true.
Proof.
  apply (proj2 (average_performance videos)).
  - discriminate.
  - reflexivity.
  - repeat constructor.
Defined.

(** The two videos have 15 and 5 interactions: the average is 10. *)
Example average_of_two_videos :
  calculateAvgPerformance videos = Binary64.ofZ 10.
Proof. vm_compute. reflexivity. Qed.

End AveragePerformanceScenario.

Section WebhookPriority.

Import RealtimeSync.

(** X18.  For a type that names no member of [Object.prototype],
    [calculatePriority] is one of 3, 5, 6, 7, 8 and 9, and 5 for a type that
    the table does not list (never 1, 2, 4 or 10).  For a type that names a
    member of [Object.prototype], such as toString, what it returns is that
    inherited member, not a number. *)
Theorem priority_of_a_webhook (type : string) :
  (type ∉ objectPrototype ->
   exists n, calculatePriority type = priority n /\
     (n = 3 \/ n = 5 \/ n = 6 \/ n = 7 \/ n = 8 \/ n = 9)%Z /\
     (ownProperty type priorityMap = None -> n = 5%Z)) /\
  (type ∈ objectPrototype -> calculatePriority type = inheritedMember type).
Proof.
  split.
  - intros Hnot. unfold calculatePriority.
    rewrite bool_decide_eq_false_2 by exact Hnot.
    unfold priorityMap. cbn [ownProperty].
    repeat match goal with
           | |- context [String.eqb ?k type] =>
               destruct (String.eqb k type);
               [eexists; split; [reflexivity|]; split; [lia|discriminate]|]
           end.
    exists 5%Z. split; [reflexivity|]. split; [lia|reflexivity].
  - intros Hin. unfold objectPrototype in Hin.
    repeat (apply elem_of_cons in Hin as [->|Hin]; [reflexivity|]).
    inversion Hin.
Qed.

End WebhookPriority.

Section OracleNetworkProperties.

Import OracleNetwork MoreStatements.

Variable ContentData : Type.
Variable now : Z.
Variable MetadataAnalysisOracle_verify SocialVerificationOracle_verify
  ContentSimilarityOracle_verify : Oracle ContentData.

Local Abbreviation oracles :=
  (initializeOracles ContentData now MetadataAnalysisOracle_verify
     SocialVerificationOracle_verify ContentSimilarityOracle_verify).
Local Abbreviation verifyOne :=
  (verifyWith ContentData now MetadataAnalysisOracle_verify
     SocialVerificationOracle_verify ContentSimilarityOracle_verify).
Local Abbreviation verifyAll :=
  (verifyContent ContentData now MetadataAnalysisOracle_verify
     SocialVerificationOracle_verify ContentSimilarityOracle_verify).

Lemma all_Ok {A} (promises : list (result A)) values :
  all promises = Ok values <-> promises = map Ok values.
Proof.
  revert values. induction promises as [|p ps IH]; intros values; cbn.
  - split; [intros [= <-]; reflexivity|].
    destruct values; [reflexivity|discriminate].
  - destruct p as [a|m].
    + destruct (all ps) as [l|m] eqn:E.
      * split.
        -- intros [= <-]. cbn. f_equal. apply IH. reflexivity.
        -- destruct values as [|v vs]; [discriminate|]. cbn. intros [= -> Hps].
           apply IH in Hps. congruence.
      * split; [discriminate|].
        destruct values as [|v vs]; [discriminate|]. cbn. intros [= -> Hps].
        apply IH in Hps. discriminate.
    + split; [discriminate|]. destruct values; discriminate.
Qed.

Lemma all_Throw {A} (promises : list (result A)) message :
  Throw message ∈ promises -> succeeded (all promises) = false.
Proof.
  induction promises as [|p ps IH]; intros Hin; [inversion Hin|].
  cbn. destruct p as [a|m]; [|reflexivity].
  apply elem_of_cons in Hin as [Hin|Hin]; [discriminate|].
  specialize (IH Hin). destruct (all ps); [discriminate|reflexivity].
Qed.

Lemma verified_in_order hash data types : forall settled,
  map (verifyOne hash data) types = map Ok settled ->
  Forall2 (fun type r =>
             exists oracle, oracles !! type = Some oracle /\
                            oracle hash data = Ok r)
    (served oracles types) (omap (fun r => r) settled).
Proof.
  unfold served.
  induction types as [|type types IH]; intros settled H.
  - destruct settled; [constructor|discriminate].
  - destruct settled as [|r settled]; [discriminate|].
    cbn [map] in H. injection H as Hone Hrest. specialize (IH _ Hrest).
    rewrite filter_cons. unfold verifyWith in Hone.
    destruct (oracles !! type) as [oracle|] eqn:E.
    + rewrite decide_True by eauto.
      destruct (oracle hash data) as [v|] eqn:Ev; [|discriminate].
      cbn in Hone. injection Hone as <-. cbn. constructor; eauto.
    + rewrite decide_False by (intros [? ?]; discriminate).
      injection Hone as <-. exact IH.
Qed.

(** X19.  When [verifyContent] of the oracle network returns, its
    results are those of the requested types that have an oracle, in the
    order of the request, a type without oracle being dropped; and when the
    oracle of one requested type throws, the whole verification fails. *)
Theorem oracle_failures_are_not_isolated (contentHash : string)
    (contentData : ContentData) (verificationTypes : list string) :
  (forall results,
     verifyAll contentHash contentData verificationTypes = Ok results ->
     Forall2 (fun type r =>
                exists oracle, oracles !! type = Some oracle /\
                               oracle contentHash contentData = Ok r)
       (served oracles verificationTypes) results) /\
  (forall type oracle message,
     type ∈ verificationTypes ->
     oracles !! type = Some oracle ->
     oracle contentHash contentData = Throw message ->
     succeeded (verifyAll contentHash contentData verificationTypes) = false).
Proof.
  split.
  - intros results. unfold verifyContent, aggregateResults.
    destruct (all _) as [settled|] eqn:E; cbn; [|discriminate].
    intros [= <-]. apply all_Ok in E. apply verified_in_order, E.
  - intros type oracle message Hin Ho Hthrow. unfold verifyContent.
    assert (succeeded (all (map (verifyOne contentHash contentData)
                              verificationTypes)) = false) as H.
    { apply (all_Throw _ message), list_elem_of_fmap. exists type.
      split; [|exact Hin]. unfold verifyWith. rewrite Ho, Hthrow. reflexivity. }
    destruct (all _); [discriminate|reflexivity].
Qed.

(** X20.  The deepfake oracle reports a content authentic exactly when
    the confidence of the analysis is above 0.85; with the analysis as the
    source has it, the network's verification for the type
    deepfake_detection returns, for every content, one result that is
    authentic with confidence 0.92. *)
Theorem deepfake_oracle_accepts_every_content (contentHash : string)
    (contentData : ContentData) :
  (forall analyze r,
     DeepfakeDetectionOracle_verify ContentData now analyze contentHash contentData
       = Ok r ->
     (isAuthentic r = true <-> (0.85 < confidence r)%Q)) /\
  exists r,
    verifyAll contentHash contentData ["deepfake_detection"] = Ok [r] /\
    isAuthentic r = true /\ confidence r = 0.92%Q /\
    OracleNetwork.contentHash r = contentHash.
Proof.
  split.
  - intros analyze r. unfold DeepfakeDetectionOracle_verify.
    destruct (analyze contentData) as [a|]; cbn; [|discriminate].
    intros [= <-]. cbn. apply Qltb_lt.
  - eexists. split; [reflexivity|]. cbn. auto.
Qed.

End OracleNetworkProperties.

(** * The identity registry contract *)

Section Registry.

Import Solidity CreativeIdentityRegistry.

Local Open Scope Z_scope.

Variable recoverSigner : bytes32 -> string -> address -> bytes -> result address.

Local Abbreviation run := (execute recoverSigner).
Local Abbreviation reached := (reachable recoverSigner).

(** One [require] of a function body. *)
Lemma require_Ok {A} condition reason (k : unit -> result A) v :
  require condition reason ≫= k = Ok v -> condition = true /\ k tt = Ok v.
Proof. destruct condition; cbn; [auto|discriminate]. Qed.

Lemma nonpayable_Ok {A} ctx (k : unit -> result A) v :
  nonpayable ctx ≫= k = Ok v -> msg_value ctx = 0 /\ k tt = Ok v.
Proof.
  unfold nonpayable. intros H. apply require_Ok in H as [H1 H2].
  apply Z.eqb_eq in H1. auto.
Qed.

Lemma creatorAt_insert s a c b registry oracles funds :
  creatorAt {| creators := <[a := c]> (creators s); contentRegistry := registry;
               verificationOracles := oracles; balance := funds |} b
  = if decide (a = b) then c else creatorAt s b.
Proof.
  unfold creatorAt. cbn [creators]. destruct (decide (a = b)) as [->|Hne].
  - rewrite lookup_insert_eq. reflexivity.
  - rewrite lookup_insert_ne by exact Hne. reflexivity.
Qed.

Lemma oracle_gate s ctx c platform proof :
  verificationOracles s = ∅ ->
  succeeded (verifyPlatformConnection ctx c platform proof s) = false /\
  (msg_value ctx = 0 ->
   verifyPlatformConnection ctx c platform proof s = Throw "Not authorized oracle").
Proof.
  intros Hnone. unfold verifyPlatformConnection, nonpayable, oracleAt.
  rewrite Hnone, lookup_empty. cbn.
  destruct (Z.eqb_spec (msg_value ctx) 0) as [->|]; cbn; [auto|].
  split; [reflexivity|congruence].
Qed.

Lemma reachable_invariant s : reached s -> invariant s.
Proof.
  induction 1 as [|s ctx call s' events _ IH _ Hrun].
  - split; [reflexivity|]. split; intros ? ? H; cbn in H;
      rewrite lookup_empty in H; discriminate.
  - destruct IH as (Horacles & Hcreators & Hproofs).
    destruct call as [hash|h origin signature|c platform proof|h]; cbn in Hrun.
    + unfold registerCreator in Hrun.
      apply nonpayable_Ok in Hrun as [_ Hrun]; cbn beta in Hrun.
      apply require_Ok in Hrun as [_ Hrun]; cbn beta in Hrun. injection Hrun as <- _.
      split; [exact Horacles|]. split; [|exact Hproofs]. cbn.
      intros a c Hc. apply lookup_insert_Some in Hc as [[_ <-]|[_ Hc]]; [|eauto].
      cbn. repeat split.
      unfold creatorAt. destruct (creators s !! msg_sender ctx) as [c|] eqn:E;
        [apply (Hcreators _ _ E)|reflexivity].
    + unfold addContentProof in Hrun.
      apply nonpayable_Ok in Hrun as [_ Hrun]; cbn beta in Hrun.
      apply require_Ok in Hrun as [Hactive Hrun]; cbn beta in Hrun.
      destruct (recoverSigner _ _ _ _) as [signer|]; [|discriminate]. cbn in Hrun.
      apply require_Ok in Hrun as [_ Hrun]; cbn beta in Hrun.
      apply require_Ok in Hrun as [_ Hrun]; cbn beta in Hrun. injection Hrun as <- _.
      assert (creators s !! msg_sender ctx <> None) as Hsome.
      { intros E. unfold creatorAt in Hactive. rewrite E in Hactive. discriminate. }
      destruct (creators s !! msg_sender ctx) as [c|] eqn:E; [|congruence].
      destruct (Hcreators _ _ E) as (Hc1 & Hc2 & Hc3).
      split; [exact Horacles|]. cbn. unfold creatorAt. rewrite E. cbn. split.
      * intros a c' Hc. apply lookup_insert_Some in Hc as [[_ <-]|[_ Hc]]; [|eauto].
        cbn. auto.
      * intros h' p Hp. apply lookup_insert_Some in Hp as [[_ <-]|[_ Hp]]; [|eauto].
        cbn. auto.
    + destruct (oracle_gate s ctx c platform proof Horacles) as [Hfail _].
      rewrite Hrun in Hfail. discriminate.
    + unfold challengeContent in Hrun.
      apply require_Ok in Hrun as [_ Hrun]; cbn beta in Hrun.
      apply require_Ok in Hrun as [_ Hrun]; cbn beta in Hrun. injection Hrun as <- _.
      split; [exact Horacles|]. split; [exact Hcreators|exact Hproofs].
Qed.

(** X21.  In every state that transactions reach from the deployment
    of the registry, [verifyPlatformConnection] reverts (a call
    without value is turned away as not coming from an authorized oracle):
    no function writes [verificationOracles].  Hence the verification level of a creator is 10
    once registered and 0 before, no platform is ever connected, and a
    registered content has the score 10. *)
Theorem no_oracle_is_ever_authorised (s : Storage) :
  reached s ->
  (forall ctx c platform proof,
     succeeded (verifyPlatformConnection ctx c platform proof s) = false /\
     (msg_value ctx = 0 ->
      verifyPlatformConnection ctx c platform proof s
      = Throw "Not authorized oracle")) /\
  (forall a,
     getCreatorVerificationLevel s a = if isActive (creatorAt s a) then 10 else 0) /\
  (forall a platform, isPlatformConnected s a platform = false) /\
  (forall h, isContentAuthentic s h = (true, 10) \/
             isContentAuthentic s h = (false, 0)).
Proof.
  intros Hs. destruct (reachable_invariant s Hs) as (Horacles & Hcreators & Hproofs).
  split; [intros; apply oracle_gate, Horacles|]. split; [|split].
  - intros a. unfold getCreatorVerificationLevel, creatorAt.
    destruct (creators s !! a) as [c|] eqn:E; [|reflexivity]. cbn.
    destruct (Hcreators _ _ E) as (-> & -> & _). reflexivity.
  - intros a platform. unfold isPlatformConnected, creatorAt.
    destruct (creators s !! a) as [c|] eqn:E; [|reflexivity]. cbn.
    destruct (Hcreators _ _ E) as (_ & _ & ->). reflexivity.
  - intros h. unfold isContentAuthentic, proofAt.
    destruct (contentRegistry s !! h) as [p|] eqn:E; [|right; reflexivity]. cbn.
    destruct (Hproofs _ _ E) as (-> & ->). left. reflexivity.
Qed.

(** X22.  A content proof registered with a timestamp other than 0 is
    never changed: after every transaction that does not revert,
    [contentRegistry] holds the same proof for that hash. *)
Theorem content_proof_is_write_once (ctx : Context) (call : Call)
    (s s' : Storage) (events : list Event) (h : bytes32) :
  run ctx call s = Ok (s', events) ->
  timestamp (proofAt s h) <> 0 ->
  proofAt s' h = proofAt s h.
Proof.
  intros Hrun Hwritten.
  destruct call as [hash|h' origin signature|c platform proof|h']; cbn in Hrun.
  - unfold registerCreator in Hrun.
    apply nonpayable_Ok in Hrun as [_ Hrun]; cbn beta in Hrun.
    apply require_Ok in Hrun as [_ Hrun]; cbn beta in Hrun. injection Hrun as <- _. reflexivity.
  - unfold addContentProof in Hrun.
    apply nonpayable_Ok in Hrun as [_ Hrun]; cbn beta in Hrun.
    apply require_Ok in Hrun as [_ Hrun]; cbn beta in Hrun.
    destruct (recoverSigner _ _ _ _) as [signer|]; [|discriminate]. cbn in Hrun.
    apply require_Ok in Hrun as [_ Hrun]; cbn beta in Hrun.
    apply require_Ok in Hrun as [Hfresh Hrun]; cbn beta in Hrun. injection Hrun as <- _.
    apply Z.eqb_eq in Hfresh. unfold proofAt. cbn.
    rewrite lookup_insert_ne; [reflexivity|]. intros ->. contradiction.
  - unfold verifyPlatformConnection in Hrun.
    apply nonpayable_Ok in Hrun as [_ Hrun]; cbn beta in Hrun.
    apply require_Ok in Hrun as [_ Hrun]; cbn beta in Hrun.
    apply require_Ok in Hrun as [_ Hrun]; cbn beta in Hrun.
    apply require_Ok in Hrun as [_ Hrun]; cbn beta in Hrun.
    destruct (add _ _) as [level|]; [|discriminate]. injection Hrun as <- _.
    reflexivity.
  - unfold challengeContent in Hrun.
    apply require_Ok in Hrun as [_ Hrun]; cbn beta in Hrun.
    apply require_Ok in Hrun as [_ Hrun]; cbn beta in Hrun. injection Hrun as <- _. reflexivity.
Qed.

(** X23.  No transaction lowers the balance of the registry.  A
    challenge that does not revert carried at least 0.01 ether and named a
    content recorded as authentic; it adds its value to the balance and
    changes nothing else of the storage. *)
Theorem challenge_stake_is_never_returned (ctx : Context) (call : Call)
    (s s' : Storage) (events : list Event) :
  0 <= msg_value ctx ->
  run ctx call s = Ok (s', events) ->
  balance s <= balance s' /\
  forall h, call = call_challengeContent h ->
    challengeStake <= msg_value ctx /\
    isAuthentic (proofAt s h) = true /\
    creators s' = creators s /\
    contentRegistry s' = contentRegistry s /\
    verificationOracles s' = verificationOracles s /\
    balance s' = balance s + msg_value ctx.
Proof.
  intros Hvalue Hrun.
  destruct call as [hash|h' origin signature|c platform proof|h']; cbn in Hrun.
  - unfold registerCreator in Hrun.
    apply nonpayable_Ok in Hrun as [_ Hrun]; cbn beta in Hrun.
    apply require_Ok in Hrun as [_ Hrun]; cbn beta in Hrun. injection Hrun as <- _.
    split; [reflexivity|discriminate].
  - unfold addContentProof in Hrun.
    apply nonpayable_Ok in Hrun as [_ Hrun]; cbn beta in Hrun.
    apply require_Ok in Hrun as [_ Hrun]; cbn beta in Hrun.
    destruct (recoverSigner _ _ _ _) as [signer|]; [|discriminate]. cbn in Hrun.
    apply require_Ok in Hrun as [_ Hrun]; cbn beta in Hrun.
    apply require_Ok in Hrun as [_ Hrun]; cbn beta in Hrun. injection Hrun as <- _.
    split; [reflexivity|discriminate].
  - unfold verifyPlatformConnection in Hrun.
    apply nonpayable_Ok in Hrun as [_ Hrun]; cbn beta in Hrun.
    apply require_Ok in Hrun as [_ Hrun]; cbn beta in Hrun.
    apply require_Ok in Hrun as [_ Hrun]; cbn beta in Hrun.
    apply require_Ok in Hrun as [_ Hrun]; cbn beta in Hrun.
    destruct (add _ _) as [level|]; [|discriminate]. injection Hrun as <- _.
    split; [reflexivity|discriminate].
  - unfold challengeContent in Hrun.
    apply require_Ok in Hrun as [Hstake Hrun]; cbn beta in Hrun.
    apply require_Ok in Hrun as [Hauthentic Hrun]; cbn beta in Hrun. injection Hrun as <- _.
    apply Z.leb_le in Hstake. cbn. split; [lia|].
    intros h [= <-]. repeat split; auto.
Qed.

(** X24.  A registered creator stays registered: after every
    transaction that does not revert, the creator is still active with the
    same wallet address, identity hash and creation timestamp, and the
    transaction was not a registration by that creator. *)
Theorem registration_is_permanent (ctx : Context) (call : Call)
    (s s' : Storage) (events : list Event) (a : address) :
  isActive (creatorAt s a) = true ->
  run ctx call s = Ok (s', events) ->
  isActive (creatorAt s' a) = true /\
  walletAddress (creatorAt s' a) = walletAddress (creatorAt s a) /\
  identityHash (creatorAt s' a) = identityHash (creatorAt s a) /\
  creationTimestamp (creatorAt s' a) = creationTimestamp (creatorAt s a) /\
  (forall hash, call = call_registerCreator hash -> msg_sender ctx <> a).
Proof.
  intros Hactive Hrun.
  destruct call as [hash|h' origin signature|c platform proof|h']; cbn in Hrun.
  - unfold registerCreator in Hrun.
    apply nonpayable_Ok in Hrun as [_ Hrun]; cbn beta in Hrun.
    apply require_Ok in Hrun as [Hnew Hrun]; cbn beta in Hrun. injection Hrun as <- _.
    assert (msg_sender ctx <> a) as Hne.
    { intros E. rewrite E, Hactive in Hnew. discriminate. }
    rewrite !creatorAt_insert.
    destruct (decide (msg_sender ctx = a)) as [|_]; [contradiction|]. auto.
  - unfold addContentProof in Hrun.
    apply nonpayable_Ok in Hrun as [_ Hrun]; cbn beta in Hrun.
    apply require_Ok in Hrun as [_ Hrun]; cbn beta in Hrun.
    destruct (recoverSigner _ _ _ _) as [signer|]; [|discriminate]. cbn in Hrun.
    apply require_Ok in Hrun as [_ Hrun]; cbn beta in Hrun.
    apply require_Ok in Hrun as [_ Hrun]; cbn beta in Hrun. injection Hrun as <- _.
    rewrite !creatorAt_insert.
    destruct (decide (msg_sender ctx = a)) as [->|_]; cbn;
      repeat split; auto; discriminate.
  - unfold verifyPlatformConnection in Hrun.
    apply nonpayable_Ok in Hrun as [_ Hrun]; cbn beta in Hrun.
    apply require_Ok in Hrun as [_ Hrun]; cbn beta in Hrun.
    apply require_Ok in Hrun as [_ Hrun]; cbn beta in Hrun.
    apply require_Ok in Hrun as [_ Hrun]; cbn beta in Hrun.
    destruct (add _ _) as [level|]; [|discriminate]. injection Hrun as <- _.
    rewrite !creatorAt_insert.
    destruct (decide (c = a)) as [->|_]; cbn; repeat split; auto; discriminate.
  - unfold challengeContent in Hrun.
    apply require_Ok in Hrun as [_ Hrun]; cbn beta in Hrun.
    apply require_Ok in Hrun as [_ Hrun]; cbn beta in Hrun. injection Hrun as <- _.
    repeat split; auto; discriminate.
Qed.

End Registry.

(** * The content authenticity contract *)

Section AuthenticityEngine.

Import Solidity ContentAuthenticityEngine MoreStatements.

Local Open Scope Z_scope.

Lemma bind_Ok {A B} (x : result A) (k : A -> result B) v :
  x ≫= k = Ok v -> exists a, x = Ok a /\ k a = Ok v.
Proof. destruct x as [a|]; cbn; [eauto|discriminate]. Qed.

Lemma add_Ok a b c : add a b = Ok c -> c = a + b.
Proof. unfold add. destruct (_ <=? _); [congruence|discriminate]. Qed.

Lemma mul_Ok a b c : mul a b = Ok c -> c = a * b.
Proof. unfold mul. destruct (_ <=? _); [congruence|discriminate]. Qed.

Lemma div_Ok a b c : div a b = Ok c -> c = a / b.
Proof. unfold div. destruct (_ =? _); [discriminate|congruence]. Qed.

Lemma engine_oracle_gate s ctx h authentic score analysis :
  oracles s = ∅ ->
  succeeded (verifyContent ctx h authentic score analysis s) = false.
Proof.
  intros Hnone. unfold verifyContent, nonpayable, oracleAt.
  rewrite Hnone, lookup_empty. cbn.
  destruct (msg_value ctx =? 0); reflexivity.
Qed.

Lemma engine_invariant s : reachable s -> invariant s.
Proof.
  induction 1 as [|s ctx call s' events _ [Horacles Hproofs] Hrun].
  - split; [reflexivity|]. intros h p H. cbn in H. rewrite lookup_empty in H.
    discriminate.
  - destruct call as [h m methods|h authentic score analysis]; cbn in Hrun.
    + unfold submitForVerification in Hrun.
      apply nonpayable_Ok in Hrun as [_ Hrun]; cbn beta in Hrun.
      apply require_Ok in Hrun as [_ Hrun]; cbn beta in Hrun.
      injection Hrun as <- _. split; [exact Horacles|]. cbn.
      intros h' p Hp. apply lookup_insert_Some in Hp as [[<- <-]|[_ Hp]]; [|eauto].
      cbn. auto.
    + pose proof (engine_oracle_gate s ctx h authentic score analysis Horacles) as H.
      rewrite Hrun in H. discriminate.
Qed.

(** X25.  The storage that [verifyContent] of the authenticity engine
    leaves does not depend on the vote, the confidence or the analysis that
    the oracle sends.  A vote that does not revert raises the count by one;
    from the third vote on the content is verified with confidence 85,
    before that its proof is unchanged. *)
Theorem verdict_ignores_the_votes (ctx : Context) (h : bytes32)
    (authentic authentic' : bool) (score score' : Z) (analysis analysis' : string)
    (s : Storage) :
  storageOf (verifyContent ctx h authentic score analysis s)
  = storageOf (verifyContent ctx h authentic' score' analysis' s) /\
  forall s' events,
    verifyContent ctx h authentic score analysis s = Ok (s', events) ->
    votesAt s' h = votesAt s h + 1 /\
    (2 <= votesAt s h ->
     isVerified (proofAt s' h) = true /\ confidenceScore (proofAt s' h) = 85) /\
    (votesAt s h < 2 -> proofAt s' h = proofAt s h).
Proof.
  unfold verifyContent. split.
  - destruct (nonpayable ctx); cbn; [|reflexivity].
    destruct (require (negb (oracle _ =? 0)) _); cbn; [|reflexivity].
    destruct (require (negb (contentHash _ =? 0)) _); cbn; [|reflexivity].
    destruct (require (negb (votedAt _ _ _)) _); cbn; [|reflexivity].
    destruct (add (votesAt s h) 1); cbn; [|reflexivity].
    destruct (add (totalVerifications _) 1); cbn; [|reflexivity].
    destruct (3 <=? _); reflexivity.
  - intros s' events Hrun.
    apply nonpayable_Ok in Hrun as [_ Hrun]; cbn beta in Hrun.
    apply require_Ok in Hrun as [_ Hrun]; cbn beta in Hrun.
    apply require_Ok in Hrun as [_ Hrun]; cbn beta in Hrun.
    apply require_Ok in Hrun as [_ Hrun]; cbn beta in Hrun.
    apply bind_Ok in Hrun as (votes & Hvotes & Hrun). apply add_Ok in Hvotes.
    apply bind_Ok in Hrun as (total & _ & Hrun).
    unfold votesAt at 1 in Hrun. cbn in Hrun. rewrite lookup_insert_eq in Hrun.
    cbn in Hrun. destruct (Z.leb_spec 3 votes) as [Hge|Hlt];
      injection Hrun as <- _; unfold votesAt, proofAt; cbn;
      rewrite ?lookup_insert_eq; cbn.
    + split; [exact Hvotes|]. split; [auto|]. unfold votesAt in Hvotes. lia.
    + split; [exact Hvotes|]. split; [|reflexivity]. unfold votesAt in Hvotes. lia.
Qed.

(** X26.  In every state that transactions reach from the deployment
    of the authenticity engine, [verifyContent] reverts (no function writes
    [oracles]), and no content is verified or has a confidence other than
    0. *)
Theorem no_oracle_ever_votes (s : Storage) :
  reachable s ->
  (forall ctx h authentic score analysis,
     succeeded (verifyContent ctx h authentic score analysis s) = false) /\
  (forall h, isVerified (proofAt s h) = false /\ confidenceScore (proofAt s h) = 0).
Proof.
  intros Hs. destruct (engine_invariant s Hs) as [Horacles Hproofs].
  split; [intros; apply engine_oracle_gate, Horacles|].
  intros h. unfold proofAt.
  destruct (authenticityProofs s !! h) as [p|] eqn:E; [|auto]. cbn.
  destruct (Hproofs _ _ E) as (_ & -> & ->). auto.
Qed.

(** X27.  In every state that transactions reach from the deployment
    of the authenticity engine: a content hash other than 0 that was
    submitted cannot be submitted again, and its proof, the submitter
    included, is never changed; the hash 0 can always be submitted, by
    anyone, and its proof then names the last submitter. *)
Theorem submission_is_first_come (s : Storage) :
  reachable s ->
  (forall h ctx m methods,
     contentHash (proofAt s h) <> 0 -> msg_value ctx = 0 ->
     submitForVerification ctx h m methods s = Throw "Already submitted") /\
  (forall h ctx call s' events,
     contentHash (proofAt s h) <> 0 ->
     execute ctx call s = Ok (s', events) ->
     proofAt s' h = proofAt s h) /\
  (forall ctx m methods,
     msg_value ctx = 0 ->
     exists s' events,
       submitForVerification ctx 0 m methods s = Ok (s', events) /\
       creator (proofAt s' 0) = msg_sender ctx /\
       contentHash (proofAt s' 0) = 0).
Proof.
  intros Hs. destruct (engine_invariant s Hs) as [Horacles Hproofs].
  split; [|split].
  - intros h ctx m methods Hne Hvalue. unfold submitForVerification, nonpayable.
    rewrite Hvalue. cbn. apply Z.eqb_neq in Hne. rewrite Hne. reflexivity.
  - intros h ctx call s' events Hne Hrun.
    destruct call as [h' m methods|h' authentic score analysis]; cbn in Hrun.
    + unfold submitForVerification in Hrun.
      apply nonpayable_Ok in Hrun as [_ Hrun]; cbn beta in Hrun.
      apply require_Ok in Hrun as [Hfresh Hrun]; cbn beta in Hrun.
      injection Hrun as <- _. apply Z.eqb_eq in Hfresh. unfold proofAt at 1. cbn.
      rewrite lookup_insert_ne; [reflexivity|]. intros ->. contradiction.
    + pose proof (engine_oracle_gate s ctx h' authentic score analysis Horacles) as H.
      rewrite Hrun in H. discriminate.
  - intros ctx m methods Hvalue. unfold submitForVerification, nonpayable.
    rewrite Hvalue. cbn.
    assert (contentHash (proofAt s 0) = 0) as ->.
    { unfold proofAt. destruct (_ !! _) as [p|] eqn:E;
        [exact (proj1 (Hproofs _ _ E))|reflexivity]. }
    cbn. eexists. eexists. split; [reflexivity|].
    unfold proofAt. cbn. rewrite lookup_insert_eq. auto.
Qed.

End AuthenticityEngine.

(** * The reputation contract *)

Section Reputation.

Import Solidity CreatorReputationSystem MoreStatements.

Local Open Scope Z_scope.

Variable authenticityContract : address.

Local Abbreviation reached := (reachable authenticityContract).
Local Abbreviation run := (execute authenticityContract).

Lemma scoreAt_set_score s a rep b :
  scoreAt (set_score a rep s) b = if decide (a = b) then rep else scoreAt s b.
Proof.
  unfold scoreAt, set_score. cbn. destruct (decide (a = b)) as [->|Hne].
  - rewrite lookup_insert_eq. reflexivity.
  - rewrite lookup_insert_ne by exact Hne. reflexivity.
Qed.

Lemma recalculateTotal_Ok ctx c s s' events :
  _recalculateTotal ctx c s = Ok (s', events) ->
  s' = set_score c
         {| authenticityScore := authenticityScore (scoreAt s c);
            collaborationScore := collaborationScore (scoreAt s c);
            communityScore := communityScore (scoreAt s c);
            consistencyScore := consistencyScore (scoreAt s c);
            totalScore :=
              (authenticityScore (scoreAt s c) * 40
               + collaborationScore (scoreAt s c) * 25
               + communityScore (scoreAt s c) * 20
               + consistencyScore (scoreAt s c) * 15) / 100;
            lastUpdated := block_timestamp ctx;
            totalInteractions := totalInteractions (scoreAt s c) |} s.
Proof.
  unfold _recalculateTotal. intros H.
  apply bind_Ok in H as (a & Ha & H). apply mul_Ok in Ha.
  apply bind_Ok in H as (b & Hb & H). apply mul_Ok in Hb.
  apply bind_Ok in H as (ab & Hab & H). apply add_Ok in Hab.
  apply bind_Ok in H as (c' & Hc & H). apply mul_Ok in Hc.
  apply bind_Ok in H as (abc & Habc & H). apply add_Ok in Habc.
  apply bind_Ok in H as (d & Hd & H). apply mul_Ok in Hd.
  apply bind_Ok in H as (abcd & Habcd & H). apply add_Ok in Habcd.
  apply bind_Ok in H as (total & Htotal & H). apply div_Ok in Htotal.
  injection H as <- _. subst. reflexivity.
Qed.

Lemma addRating_sum history : forall acc total,
  fold_left addRating history (Ok acc) = Ok total ->
  total = acc + ratingSum history.
Proof.
  induction history as [|record history IH]; intros acc total; cbn [fold_left].
  - intros [= <-]. cbn. lia.
  - unfold addRating at 2. cbn. destruct (add acc (rating record)) as [t|] eqn:E.
    + apply add_Ok in E. intros H. apply IH in H. cbn [ratingSum fold_right].
      fold (ratingSum history). lia.
    + assert (forall l m, fold_left addRating l (Throw m) = Throw m) as Hthrow
        by (induction l; intros; cbn; auto).
      rewrite Hthrow. discriminate.
Qed.

Lemma ratingSum_app history record :
  ratingSum (history ++ [record]) = ratingSum history + rating record.
Proof.
  unfold ratingSum. induction history as [|r history IH]; cbn [app fold_right]; lia.
Qed.

Lemma ratingSum_bounds history :
  Forall (fun record => 1 <= rating record <= 5) history ->
  Z.of_nat (length history) <= ratingSum history <= 5 * Z.of_nat (length history).
Proof.
  induction 1 as [|record history Hr _ IH]; cbn [ratingSum fold_right length].
  - lia.
  - fold (ratingSum history). lia.
Qed.

Lemma reputation_invariant s : reached s -> invariant s.
Proof.
  induction 1 as [|s ctx call s' events _ IH _ Hrun].
  - intros a. cbn. unfold scoreAt, historyAt, ratedAt. cbn.
    rewrite !lookup_empty. cbn. repeat split; try constructor.
    + rewrite lookup_empty. discriminate.
    + intros Hin. inversion Hin.
  - destruct call as [c score|c project stars feedback]; cbn in Hrun.
    + unfold updateAuthenticityScore in Hrun.
      apply nonpayable_Ok in Hrun as [_ Hrun]; cbn beta in Hrun.
      apply require_Ok in Hrun as [_ Hrun]; cbn beta in Hrun.
      apply recalculateTotal_Ok in Hrun. rewrite scoreAt_set_score in Hrun.
      rewrite decide_True in Hrun by reflexivity. cbn in Hrun. subst s'.
      intros a. specialize (IH a). cbn in IH |- *.
      destruct IH as (H1 & H2 & H3 & H4 & H5 & H6 & H7 & H8).
      rewrite !scoreAt_set_score.
      change (historyAt (set_score c _ (set_score c _ s)) a) with (historyAt s a).
      split; [exact H1|]. split; [exact H2|]. split; [exact H3|].
      destruct (decide (c = a)) as [->|Hne]; cbn; [|auto 10].
      rewrite H5, H6. repeat split; auto. f_equal. lia.
    + unfold rateCollaboration in Hrun.
      apply nonpayable_Ok in Hrun as [_ Hrun]; cbn beta in Hrun.
      apply require_Ok in Hrun as [Hstars Hrun]; cbn beta in Hrun.
      apply require_Ok in Hrun as [Hfresh Hrun]; cbn beta in Hrun.
      apply andb_prop in Hstars as [Hlo Hhi].
      apply Z.leb_le in Hlo, Hhi. apply negb_true_iff in Hfresh.
      apply bind_Ok in Hrun as ([s1 updated] & Hupdate & Hrun).
      injection Hrun as <- _.
      set (record := {| collaborator := msg_sender ctx; projectHash := project;
                        rating := stars; feedback := feedback;
                        timestamp := block_timestamp ctx |}) in *.
      set (s0 := {| reputationScores := reputationScores s;
                    collaborationHistory :=
                      <[c := historyAt s c ++ [record]]> (collaborationHistory s);
                    hasRated := <[(c, msg_sender ctx) := true]> (hasRated s) |}) in *.
      assert (forall a, scoreAt s0 a = scoreAt s a) as Hscore0 by reflexivity.
      assert (forall a, historyAt s0 a
                        = if decide (c = a) then historyAt s c ++ [record]
                          else historyAt s a) as Hhistory0.
      { intros a. unfold historyAt at 1. cbn.
        destruct (decide (c = a)) as [->|Hne].
        - rewrite lookup_insert_eq. reflexivity.
        - rewrite lookup_insert_ne by exact Hne. reflexivity. }
      assert (forall a rater, ratedAt s0 a rater
                = if decide ((c, msg_sender ctx) = (a, rater)) then true
                  else ratedAt s a rater) as Hrated0.
      { intros a rater. unfold ratedAt at 1. cbn.
        destruct (decide ((c, msg_sender ctx) = (a, rater))) as [->|Hne].
        - rewrite lookup_insert_eq. reflexivity.
        - rewrite lookup_insert_ne by exact Hne. reflexivity. }
      unfold _updateCollaborationScore in Hupdate.
      rewrite Hhistory0, decide_True in Hupdate by reflexivity.
      rewrite length_app in Hupdate. cbn [length] in Hupdate.
      rewrite Nat.add_1_r in Hupdate. cbn [Nat.eqb] in Hupdate.
      apply bind_Ok in Hupdate as (total & Htotal & Hupdate).
      apply addRating_sum in Htotal. rewrite Z.add_0_l in Htotal.
      apply bind_Ok in Hupdate as (scaled & Hscaled & Hupdate).
      apply mul_Ok in Hscaled.
      apply bind_Ok in Hupdate as (n5 & Hn5 & Hupdate). apply mul_Ok in Hn5.
      apply bind_Ok in Hupdate as (avg & Havg & Hupdate). apply div_Ok in Havg.
      apply recalculateTotal_Ok in Hupdate. rewrite scoreAt_set_score in Hupdate.
      rewrite decide_True in Hupdate by reflexivity. cbn in Hupdate.
      rewrite Hscore0 in Hupdate. subst s1.
      intros a. pose proof (IH a) as IHa. cbn in IHa |- *.
      destruct IHa as (H1 & H2 & H3 & H4 & H5 & H6 & H7 & H8).
      rewrite !scoreAt_set_score, Hscore0.
      change (historyAt (set_score c _ (set_score c _ s0)) a) with (historyAt s0 a).
      rewrite Hhistory0.
      assert (forall rater,
                ratedAt (set_score c
                           {| authenticityScore := authenticityScore (scoreAt s c);
                              collaborationScore := avg;
                              communityScore := communityScore (scoreAt s c);
                              consistencyScore := consistencyScore (scoreAt s c);
                              totalScore :=
                                (authenticityScore (scoreAt s c) * 40 + avg * 25
                                 + communityScore (scoreAt s c) * 20
                                 + consistencyScore (scoreAt s c) * 15) / 100;
                              lastUpdated := block_timestamp ctx;
                              totalInteractions := totalInteractions (scoreAt s c) |}
                           (set_score c
                              {| authenticityScore := authenticityScore (scoreAt s c);
                                 collaborationScore := avg;
                                 communityScore := communityScore (scoreAt s c);
                                 consistencyScore := consistencyScore (scoreAt s c);
                                 totalScore := totalScore (scoreAt s c);
                                 lastUpdated := lastUpdated (scoreAt s c);
                                 totalInteractions :=
                                   totalInteractions (scoreAt s c) |} s0)) a rater
                = ratedAt s0 a rater) as Hrated by reflexivity.
      destruct (decide (c = a)) as [->|Hne]; cbn.
      * split; [apply Forall_app; split; [exact H1|repeat constructor; cbn; lia]|].
        assert (msg_sender ctx ∉ map collaborator (historyAt s a)) as Hnew.
        { intros Hin. apply H3 in Hin. congruence. }
        split.
        { rewrite map_app. apply NoDup_app. split; [exact H2|]. cbn. split.
          - intros x Hx Hx'. apply list_elem_of_singleton in Hx'. subst x.
            contradiction.
          - apply NoDup_singleton. }
        split.
        { intros rater. rewrite Hrated, Hrated0, map_app, elem_of_app. cbn.
          rewrite list_elem_of_singleton.
          destruct (decide ((a, msg_sender ctx) = (a, rater))) as [[= <-]|Hk].
          - tauto.
          - rewrite H3. split; [auto|]. intros [H|H]; [exact H|].
            subst rater. contradiction. }
        destruct (decide (historyAt s a ++ [record] = [])) as [E|_];
          [destruct (historyAt s a); discriminate|].
        rewrite H5, H6, H7. subst avg scaled n5 total.
        rewrite length_app. cbn [length]. rewrite Nat.add_1_r.
        repeat split; auto. f_equal. lia.
      * split; [exact H1|]. split; [exact H2|]. split; [|auto 10].
        intros rater. rewrite Hrated, Hrated0.
        destruct (decide ((c, msg_sender ctx) = (a, rater))) as [[= E _]|_];
          [contradiction|]. apply H3.
Qed.

(** X28.  In every state that transactions reach from the deployment
    of the reputation system, and for every creator: the community and
    consistency scores are 0, the total is (40 x authenticity + 25 x
    collaboration) / 100, the collaboration score is 0 without rating and
    otherwise 1000 x the sum of the ratings / (5 x their number), between
    200 and 1000.  With an authenticity score of at most 1000 the total is
    at most 650. *)
Theorem collaboration_score_is_the_mean_rating (s : Storage) (a : address) :
  reached s ->
  communityScore (scoreAt s a) = 0 /\
  consistencyScore (scoreAt s a) = 0 /\
  totalScore (scoreAt s a)
  = (authenticityScore (scoreAt s a) * 40 + collaborationScore (scoreAt s a) * 25)
    / 100 /\
  (historyAt s a = [] -> collaborationScore (scoreAt s a) = 0) /\
  (historyAt s a <> [] ->
   collaborationScore (scoreAt s a)
   = ratingSum (historyAt s a) * 1000 / (Z.of_nat (length (historyAt s a)) * 5) /\
   200 <= collaborationScore (scoreAt s a) <= 1000) /\
  (authenticityScore (scoreAt s a) <= 1000 -> totalScore (scoreAt s a) <= 650).
Proof.
  intros Hs. pose proof (reputation_invariant s Hs a) as H. cbn in H.
  destruct H as (H1 & _ & _ & H4 & H5 & H6 & _ & H8).
  assert (0 <= collaborationScore (scoreAt s a) <= 1000 /\
          (historyAt s a <> [] -> 200 <= collaborationScore (scoreAt s a))) as Hrange.
  { rewrite H4. destruct (decide (historyAt s a = [])) as [E|E]; [split; [lia|tauto]|].
    pose proof (ratingSum_bounds _ H1) as Hsum.
    assert (0 < Z.of_nat (length (historyAt s a)))
      by (destruct (historyAt s a); [congruence|cbn; lia]).
    split; [split|intros _].
    - apply Z.div_pos; lia.
    - apply Z.div_le_upper_bound; lia.
    - apply Z.div_le_lower_bound; lia. }
  split; [exact H5|]. split; [exact H6|]. split; [exact H8|]. split; [|split].
  - intros E. rewrite H4, E. reflexivity.
  - intros E. pose proof (proj2 Hrange E). split; [|lia]. rewrite H4.
    destruct (decide (historyAt s a = [])); [contradiction|reflexivity].
  - intros Hauth. rewrite H8. apply Z.div_le_upper_bound; lia.
Qed.

Lemma add_small a b : 0 <= a + b <= 100000 -> add a b = Ok (a + b).
Proof.
  intros H. unfold add. destruct (Z.leb_spec (a + b) MAX_UINT256) as [_|Hgt];
    [reflexivity|]. unfold MAX_UINT256 in Hgt. lia.
Qed.

Lemma mul_small a b : 0 <= a * b <= 100000 -> mul a b = Ok (a * b).
Proof.
  intros H. unfold mul. destruct (Z.leb_spec (a * b) MAX_UINT256) as [_|Hgt];
    [reflexivity|]. unfold MAX_UINT256 in Hgt. lia.
Qed.

Lemma div_nonzero a b : b <> 0 -> div a b = Ok (a / b).
Proof. intros H. unfold div. apply Z.eqb_neq in H. rewrite H. reflexivity. Qed.

(** X29.  In every state that transactions reach from the deployment
    of the reputation system, the ratings of a creator come from pairwise
    different raters and lie between 1 and 5, and a second rating by the
    same rater reverts.  Nothing keeps a creator from rating oneself: on the
    deployed contract a creator's own five stars give the collaboration
    score 1000 and the total 250. *)
Theorem one_rating_per_rater (s : Storage) (a : address) :
  reached s ->
  NoDup (map collaborator (historyAt s a)) /\
  Forall (fun record => 1 <= rating record <= 5) (historyAt s a) /\
  (forall ctx project stars feedback,
     msg_sender ctx ∈ map collaborator (historyAt s a) ->
     succeeded (rateCollaboration ctx a project stars feedback s)
     = false) /\
  (forall ctx project feedback,
     msg_value ctx = 0 ->
     exists s' events,
       rateCollaboration ctx (msg_sender ctx) project 5 feedback deployed
       = Ok (s', events) /\
       collaborationScore (scoreAt s' (msg_sender ctx)) = 1000 /\
       totalScore (scoreAt s' (msg_sender ctx)) = 250).
Proof.
  intros Hs. pose proof (reputation_invariant s Hs a) as H. cbn in H.
  destruct H as (H1 & H2 & H3 & _).
  split; [exact H2|]. split; [exact H1|]. split.
  - intros ctx project stars feedback Hin. apply H3 in Hin.
    unfold rateCollaboration. destruct (nonpayable ctx); cbn; [|reflexivity].
    destruct (require (_ && _) _); cbn; [|reflexivity].
    rewrite Hin. reflexivity.
  - intros ctx project feedback Hvalue. unfold rateCollaboration, nonpayable.
    rewrite Hvalue. cbn. unfold ratedAt, historyAt, deployed. cbn.
    rewrite !lookup_empty. cbn.
    unfold _updateCollaborationScore, historyAt. cbn. rewrite lookup_insert_eq. cbn.
    unfold _recalculateTotal, scoreAt, set_score. cbn.
    repeat (first [ rewrite add_small by (cbn; lia)
                  | rewrite mul_small by (cbn; lia)
                  | rewrite div_nonzero by (cbn; lia)
                  | rewrite lookup_insert_eq
                  | rewrite lookup_empty ]; cbn).
    eexists. eexists. split; [reflexivity|].
    unfold scoreAt. cbn. rewrite lookup_insert_eq. cbn. auto.
Qed.

End Reputation.

(** * The shard of a user *)

Section ShardRouting.

Import Sharding.

Local Open Scope Z_scope.

Variable md5_prefix : string -> Z.

Local Abbreviation shard user_uuid := (get_shard_connection md5_prefix user_uuid).

(** X30.  For a hash prefix h of 32 bits, [get_shard_connection] gives
    shard_01 for h below 2^29, shard_02 and shard_03 for the next two ranges
    of that length, and shard_04 for every h from 3 x 2^29 on: the prefixes
    with the top bit set are read as negative numbers and fall to the last
    branch, so shard_04 takes five eighths of the prefixes. *)
Theorem shard_of_a_hash (user_uuid : string) :
  0 <= md5_prefix user_uuid < 2 ^ 32 ->
  (get_shard_connection md5_prefix user_uuid = "shard_01"
   <-> md5_prefix user_uuid < 2 ^ 29) /\
  (shard user_uuid = "shard_02"
   <-> 2 ^ 29 <= md5_prefix user_uuid < 2 * 2 ^ 29) /\
  (shard user_uuid = "shard_03"
   <-> 2 * 2 ^ 29 <= md5_prefix user_uuid < 3 * 2 ^ 29) /\
  (shard user_uuid = "shard_04"
   <-> 3 * 2 ^ 29 <= md5_prefix user_uuid < 8 * 2 ^ 29).
Proof.
  intros Hrange.
  unfold get_shard_connection, get_user_shard, bit32_to_int.
  change (2 ^ 29) with 536870912. change (2 ^ 31) with 2147483648.
  change (2 ^ 32) with 4294967296 in *.
  destruct (Z.ltb_spec (md5_prefix user_uuid) 2147483648);
    repeat match goal with
           | |- context [?a <=? ?b] => destruct (Z.leb_spec a b); cbn [andb]
           end;
    repeat split; intros; try discriminate; try lia; try reflexivity.
Qed.

End ShardRouting.

(** * The further properties on concrete inputs *)

Section MoreIdentityScenarios.

Import CreativeIdentity Statements MoreStatements.
Import Scenarios.Identity MoreScenarios.Identity.


Lemma connected_platforms_of_creation_witness :
  dom (connectedPlatforms (identity connectedResponse))
  = list_to_set
      (map platformId
         (connectedRequests connector (id (identity connectedResponse))
            (platformsOf twoPlatforms))).
Proof.
  apply (connected_platforms_of_creation (verifier 0.95) registrar deployer
           storeIdentity_source (fun _ _ => "uci_0000000000000000")
           (fun _ => "hash") ["BACKUP"] (fun _ => "qr") "0xsigner" 1000
           connector twoPlatforms connectedResponse).
  reflexivity.
Defined.


Lemma backup_codes_format_witness :
  length (CreativeIdentityContent.generateBackupCodes zeroBytes) = 10%nat.
Proof.
  apply (backup_codes_format zeroBytes). intros i. reflexivity.
Defined.

Lemma unimplemented_connector_connects_nothing_witness :
  connectedPlatforms (identity bareResponse) = ∅ /\
  verificationLevel (identity bareResponse) = 10%Z /\
  length (verificationMethods (identity bareResponse)) = 1%nat.
Proof.
  apply (unimplemented_connector_connects_nothing (verifier 0.95) registrar
           deployer storeIdentity_source (fun _ _ => "uci_0000000000000000")
           (fun _ => "hash") ["BACKUP"] (fun _ => "qr") "0xsigner" 1000
           twoPlatforms bareResponse).
  reflexivity.
Defined.

End MoreIdentityScenarios.

Section MoreSyncScenarios.

Import ProfileSync Statements MoreStatements Scenarios.Sync MoreScenarios.Sync.

Lemma first_of_the_latest_wins_witness :
  exists before latest after,
    values followerConflict = before ++ latest :: after /\
    LatestTimestampStrategy_resolve followerConflict
    = Ok (latestResolution latest) /\
    (forall v, v ∈ before -> (timestamp v < timestamp latest)%Z) /\
    (forall v, v ∈ after -> (timestamp v <= timestamp latest)%Z).
Proof. apply first_of_the_latest_wins. discriminate. Defined.

Lemma zero_followers_resolve_to_undefined_witness :
  exists latest,
    latest ∈ scenarioC /\
    (forall r, r ∈ scenarioC -> (lastSync r <= lastSync latest)%Z) /\
    JsNumber 1400 = truthyCount (followerCountOr0 latest) /\
    JsNumber 1400 <> JsNumber 0.
Proof.
  apply (zero_followers_resolve_to_undefined
           SpecifiedHelpers.hasSignificantVariance
           SpecifiedHelpers.hasDifferentValues creator scenarioC followerConflict
           (latestResolution
              {| platform := "instagram"; count := Some 1400%Z; value_bio := None;
                 value := None; timestamp := 2 |})).
  - apply list_elem_of_here.
  - reflexivity.
  - reflexivity.
Defined.

Lemma synced_platforms_are_the_connected_ones_witness :
  exists synced,
    sync "uci_1" = Ok synced /\
    syncedPlatforms synced
    = map connection_platformId
        (filter (fun c => Is_true (synchronised adapters c))
           (platformConnections creator)).
Proof.
  eexists. split; [reflexivity|].
  apply (synced_platforms_are_the_connected_ones Z
           SpecifiedHelpers.hasSignificantVariance
           SpecifiedHelpers.hasDifferentValues
           (SpecifiedHelpers.LongestValueStrategy_resolve 1)
           (fun _ _ _ => Throw "WeightedAverageStrategy is not defined")
           recordedConflicts (fun _ => []) adapters (fun _ => Ok creator)
           (fun _ => Ok tt) (fun _ _ => Ok {| profile := None |})
           (fun _ _ => Ok tt) settledAt 3 "uci_1" creator).
  - reflexivity.
  - reflexivity.
Defined.

Lemma bio_candidates_come_from_successful_syncs_witness :
  exists connection adapter,
    connection ∈ platformConnections creator /\
    connectionStatus connection = connected /\
    adapters !! connection_platformId connection = Some adapter /\
    platform tiktokBio = connection_platformId connection /\
    stepsReturn bioChanged acceptCache connection adapter.
Proof.
  apply (bio_candidates_come_from_successful_syncs Z adapters bioChanged
           acceptCache settledAt creator tiktokBio).
  apply list_elem_of_here.
Defined.

End MoreSyncScenarios.

Section MoreContractScenarios.

Import Solidity MoreScenarios.Contracts.

Local Open Scope Z_scope.

Lemma registered_is_reachable :
  CreativeIdentityRegistry.reachable anySignature registered.
Proof.
  apply (CreativeIdentityRegistry.reachable_step anySignature
           CreativeIdentityRegistry.deployed (call alice 0 100)
           (CreativeIdentityRegistry.call_registerCreator "QmAlice") registered
           [CreativeIdentityRegistry.IdentityRegistered alice "QmAlice"]).
  - apply CreativeIdentityRegistry.reachable_deployed.
  - reflexivity.
  - reflexivity.
Defined.

Lemma no_oracle_is_ever_authorised_witness :
  CreativeIdentityRegistry.getCreatorVerificationLevel registered alice = 10 /\
  CreativeIdentityRegistry.isPlatformConnected registered alice "tiktok" = false.
Proof.
  destruct (no_oracle_is_ever_authorised anySignature registered
              registered_is_reachable) as (_ & Hlevel & Hplatform & _).
  split; [exact (Hlevel alice)|exact (Hplatform alice "tiktok")].
Defined.

Lemma content_proof_is_write_once_witness :
  exists s' events,
    CreativeIdentityRegistry.execute anySignature (call bob 0 300)
      (CreativeIdentityRegistry.call_registerCreator "QmBob") withProof
    = Ok (s', events) /\
    CreativeIdentityRegistry.proofAt s' 7
    = CreativeIdentityRegistry.proofAt withProof 7.
Proof.
  eexists. eexists. split; [reflexivity|].
  eapply (content_proof_is_write_once anySignature (call bob 0 300)
            (CreativeIdentityRegistry.call_registerCreator "QmBob")).
  - reflexivity.
  - discriminate.
Defined.

Lemma challenge_stake_is_never_returned_witness :
  exists s' events,
    CreativeIdentityRegistry.execute anySignature (call bob challengeStake 300)
      (CreativeIdentityRegistry.call_challengeContent 7) withProof
    = Ok (s', events) /\
    CreativeIdentityRegistry.balance withProof
    <= CreativeIdentityRegistry.balance s'.
Proof.
  eexists. eexists. split; [reflexivity|].
  eapply (challenge_stake_is_never_returned anySignature
            (call bob challengeStake 300)
            (CreativeIdentityRegistry.call_challengeContent 7)).
  - discriminate.
  - reflexivity.
Defined.

Lemma registration_is_permanent_witness :
  exists s' events,
    CreativeIdentityRegistry.execute anySignature (call alice 0 200)
      (CreativeIdentityRegistry.call_addContentProof 7 "tiktok" []) registered
    = Ok (s', events) /\
    CreativeIdentityRegistry.isActive (CreativeIdentityRegistry.creatorAt s' alice)
    = true.
Proof.
  eexists. eexists. split; [reflexivity|].
  eapply (registration_is_permanent anySignature (call alice 0 200)
            (CreativeIdentityRegistry.call_addContentProof 7 "tiktok" [])
            registered).
  - reflexivity.
  - reflexivity.
Defined.

Lemma submitted_is_reachable : ContentAuthenticityEngine.reachable submitted.
Proof.
  apply (ContentAuthenticityEngine.reachable_step
           ContentAuthenticityEngine.deployed (call alice 0 100)
           (ContentAuthenticityEngine.call_submitForVerification 7 8
              ["camera_signature"]) submitted
           [ContentAuthenticityEngine.AuthenticityProofSubmitted 7 alice]).
  - apply ContentAuthenticityEngine.reachable_deployed.
  - reflexivity.
Defined.

Lemma no_oracle_ever_votes_witness :
  succeeded (ContentAuthenticityEngine.verifyContent (call bob 0 200) 7 true 90
               "authentic" submitted) = false.
Proof.
  apply (no_oracle_ever_votes submitted submitted_is_reachable).
Defined.

Lemma submission_is_first_come_witness :
  ContentAuthenticityEngine.submitForVerification (call bob 0 200) 7 9 [] submitted
  = Throw "Already submitted".
Proof.
  apply (submission_is_first_come submitted submitted_is_reachable).
  - discriminate.
  - reflexivity.
Defined.

Lemma collaboration_score_is_the_mean_rating_witness :
  exists s' events,
    CreatorReputationSystem.execute 9 (call bob 0 100)
      (CreatorReputationSystem.call_rateCollaboration alice 7 4 "good")
      CreatorReputationSystem.deployed
    = Ok (s', events) /\
    CreatorReputationSystem.communityScore
      (CreatorReputationSystem.scoreAt s' alice) = 0.
Proof.
  eexists. eexists. split; [reflexivity|].
  apply (collaboration_score_is_the_mean_rating 9 _ alice).
  eapply (CreatorReputationSystem.reachable_step 9
            CreatorReputationSystem.deployed (call bob 0 100)
            (CreatorReputationSystem.call_rateCollaboration alice 7 4 "good")).
  - apply CreatorReputationSystem.reachable_deployed.
  - split; apply Z.leb_le; reflexivity.
  - reflexivity.
Defined.

Lemma one_rating_per_rater_witness :
  exists s' events,
    CreatorReputationSystem.execute 9 (call bob 0 100)
      (CreatorReputationSystem.call_rateCollaboration alice 7 4 "good")
      CreatorReputationSystem.deployed
    = Ok (s', events) /\
    NoDup (map CreatorReputationSystem.collaborator
             (CreatorReputationSystem.historyAt s' alice)).
Proof.
  eexists. eexists. split; [reflexivity|].
  apply (one_rating_per_rater 9 _ alice).
  eapply (CreatorReputationSystem.reachable_step 9
            CreatorReputationSystem.deployed (call bob 0 100)
            (CreatorReputationSystem.call_rateCollaboration alice 7 4 "good")).
  - apply CreatorReputationSystem.reachable_deployed.
  - split; apply Z.leb_le; reflexivity.
  - reflexivity.
Defined.

Lemma shard_of_a_hash_witness :
  Sharding.get_shard_connection prefixOf "3f2c" = "shard_04".
Proof.
  destruct (shard_of_a_hash prefixOf "3f2c") as (_ & _ & _ & H).
  - split; [apply Z.leb_le|apply Z.ltb_lt]; reflexivity.
  - apply H. split; [apply Z.leb_le|apply Z.ltb_lt]; reflexivity.
Defined.

End MoreContractScenarios.
